(** * The task executor of the coding agent: model and properties

    A shallow embedding of [TaskExecutor] (agent/v1/task-executor): the
    class that drives one task through request rounds, buffers streamed
    text, gates on user asks, and handles abort and API errors.

    The executor's fields, the state manager's two histories, the ask
    register, the tool executor and the host (clock, pending user answers,
    incoming streams, log of visible effects) form one [World]; every method
    is a computation in a state-and-error monad over it. *)

From Stdlib Require Import ZArith QArith Ascii String.
From stdpp Require Import base option list gmap strings.

Local Open Scope Z_scope.
Local Open Scope string_scope.
Local Open Scope list_scope.

(** ** Strings: [String.prototype.trim] and [length]

    A JavaScript string is held as its UTF-8 encoding, one byte per
    [ascii] (a lone surrogate in its three-byte form). [trim] strips the
    characters of the productions WhiteSpace and LineTerminator of
    ECMAScript from both ends; [length] counts UTF-16 code units. *)

(** The code points that [trim] strips: TAB, LF, VT, FF, CR, SPACE, NBSP,
    OGHAM SPACE MARK, EN QUAD to HAIR SPACE, LINE SEPARATOR, PARAGRAPH
    SEPARATOR, NARROW NBSP, MEDIUM MATHEMATICAL SPACE, IDEOGRAPHIC SPACE
    and ZWNBSP (the byte order mark). *)
Definition isWhiteSpace (cp : N) : bool :=
  ((0x0009 <=? cp) && (cp <=? 0x000D)
   || (cp =? 0x0020) || (cp =? 0x00A0) || (cp =? 0x1680)
   || (0x2000 <=? cp) && (cp <=? 0x200A)
   || (cp =? 0x2028) || (cp =? 0x2029) || (cp =? 0x202F) || (cp =? 0x205F)
   || (cp =? 0x3000) || (cp =? 0xFEFF))%N.

(** The six payload bits of a continuation byte [10xxxxxx]. *)
Definition continuation (c : ascii) : option N :=
  let n := N_of_ascii c in
  if ((0x80 <=? n) && (n <? 0xC0))%N then Some (n - 0x80)%N else None.

(** The first character of a string: its code point and what follows it.
    Bytes that start no character (a continuation byte, an encoding longer
    than the code point needs) decode to nothing. *)
Definition decode (s : string) : option (N * string) :=
  match s with
  | EmptyString => None
  | String a s1 =>
      let n := N_of_ascii a in
      if (n <? 0x80)%N then Some (n, s1)
      else if (n <? 0xC2)%N then None
      else if (n <? 0xE0)%N then
        match s1 with
        | String b s2 =>
            match continuation b with
            | Some x => Some ((n - 0xC0) * 0x40 + x, s2)%N
            | None => None
            end
        | EmptyString => None
        end
      else if (n <? 0xF0)%N then
        match s1 with
        | String b (String c s3) =>
            match continuation b, continuation c with
            | Some x, Some y =>
                let cp := ((n - 0xE0) * 0x1000 + x * 0x40 + y)%N in
                if (0x800 <=? cp)%N then Some (cp, s3) else None
            | _, _ => None
            end
        | _ => None
        end
      else
        match s1 with
        | String b (String c (String d s4)) =>
            match continuation b, continuation c, continuation d with
            | Some x, Some y, Some z =>
                let cp := ((n - 0xF0) * 0x40000 + x * 0x1000 + y * 0x40 + z)%N in
                if (0x10000 <=? cp)%N then Some (cp, s4) else None
            | _, _, _ => None
            end
        | _ => None
        end
  end.

(** The string without the white-space character it starts with, if it
    starts with one. *)
Definition stripWhiteSpace (s : string) : option string :=
  match decode s with
  | Some (cp, rest) => if isWhiteSpace cp then Some rest else None
  | None => None
  end.

Fixpoint trimStartWithin (n : nat) (s : string) : string :=
  match n with
  | O => s
  | S n' =>
      match stripWhiteSpace s with
      | Some rest => trimStartWithin n' rest
      | None => s
      end
  end.

(** No string holds more characters than bytes. *)
Definition trimStart (s : string) : string := trimStartWithin (String.length s) s.

(** The longest suffix of white space goes. *)
Fixpoint trimEnd (s : string) : string :=
  match s with
  | EmptyString => EmptyString
  | String c s' =>
      match trimStart s with
      | EmptyString => EmptyString
      | _ => String c (trimEnd s')
      end
  end.

Definition trim (s : string) : string := trimEnd (trimStart s).

(** JavaScript truthiness of a string: non-empty. *)
Definition truthy (s : string) : bool :=
  match s with EmptyString => false | _ => true end.

(** [!s.trim()] *)
Definition isBlank (s : string) : bool := negb (truthy (trim s)).

(** [s.length]: the UTF-16 code units of the string. A character of one,
    two or three bytes is one unit, one of four bytes is a surrogate pair;
    counted at the leading byte of each character. *)
Definition codeUnits (c : ascii) : nat :=
  let n := N_of_ascii c in
  if (n <? 0x80)%N then 1%nat
  else if (n <? 0xC0)%N then 0%nat
  else if (n <? 0xF0)%N then 1%nat
  else 2%nat.

Fixpoint jsLength (s : string) : nat :=
  match s with
  | EmptyString => 0%nat
  | String c s' => (codeUnits c + jsLength s')%nat
  end.

(** Text beyond ASCII, by its bytes: LATIN SMALL LETTER E WITH ACUTE
    (U+00E9), NO-BREAK SPACE (U+00A0), IDEOGRAPHIC SPACE (U+3000) and
    GRINNING FACE (U+1F600). *)
Definition eAcute : string := String "195" (String "169" "").
Definition NBSP : string := String "194" (String "160" "").
Definition ideographicSpace : string := String "227" (String "128" (String "128" "")).
Definition grinningFace : string :=
  String "240" (String "159" (String "152" (String "128" ""))).

(** ** Data model

    The types that the executor imports (shared/ExtensionMessage,
    shared/WebviewMessage, shared/kodu, task-executor/utils, agent/v1/types),
    with the cases and fields that its code uses. *)

Inductive TaskState :=
  | IDLE | WAITING_FOR_API | PROCESSING_RESPONSE
  | WAITING_FOR_USER | COMPLETED | ABORTED.

Inductive ClaudeAsk :=
  | ask_tool | ask_resume_task | ask_api_req_failed
  | ask_request_limit_reached | ask_followup | ask_command
  | ask_command_output | ask_completion_result | ask_resume_completed_task.

Inductive ClaudeSay :=
  | say_api_req_started | say_text | say_user_feedback
  | say_payment_required | say_unauthorized | say_api_req_retried
  | say_api_req_finished | say_error.

Inductive ClaudeAskResponse := yesButtonTapped | noButtonTapped | messageResponse.

Inductive MessageType := type_ask | type_say.

Inductive ApprovalState :=
  | st_pending | st_approved | st_rejected | st_error | st_loading.

Inductive Role := user | assistant.

Inductive ContentBlock :=
  | TextBlock (text : string)
  | ImageBlock (source : string).

Definition UserContent := list ContentBlock.

(** The content of an API message, and a tool's response: a bare string or
    an array of blocks. *)
Inductive MessageContent :=
  | ContentString (s : string)
  | ContentBlocks (l : list ContentBlock).

Definition ToolResponse := MessageContent.

Record ToolResult := mkToolResult {
  name : string;
  result : ToolResponse;
}.

(** [ChatTool], the payload of a tool ask; [details] stands for the
    tool-specific fields, which the executor only copies. *)
Record ChatTool := mkChatTool {
  tool : option string;
  approvalState : option ApprovalState;
  error : option string;
  details : string;
}.

(** The text of a displayed message. The executor serialises two kinds of
    object into it and parses one of them back; the serialised forms are
    kept as the objects they encode, so that [JSON.parse (JSON.stringify x)]
    is [x] by construction. [Plain] is text that is not a JSON document;
    [Appended] is a serialised object with text concatenated after it. *)
Inductive MessageText :=
  | Plain (s : string)
  | ToolJSON (t : ChatTool)
  | RequestJSON (request : UserContent)
  | Appended (base : MessageText) (suffix : string).

Record ApiMetrics := mkApiMetrics {
  cost : Q;
  inputTokens : Z;
  outputTokens : Z;
  inputCacheRead : Z;
  inputCacheWrite : Z;
}.

Record ClaudeMessage := mkClaudeMessage {
  ts : Z;
  type : MessageType;
  m_ask : option ClaudeAsk;      (* the field [ask] *)
  m_say : option ClaudeSay;      (* the field [say] *)
  text : option MessageText;
  v : option nat;
  isDone : bool;
  isFetching : bool;
  isError : bool;
  errorText : option string;
  apiMetrics : option ApiMetrics;
  isSubMessage : bool;
}.

Definition isV1ClaudeMessage (m : ClaudeMessage) : bool :=
  match v m with Some 1%nat => true | _ => false end.

Record ApiHistoryItem := mkApiHistoryItem {
  role : Role;
  content : MessageContent;
  h_ts : option Z;
}.

Record AskDetails := mkAskDetails {
  question : option string;
  d_tool : option ChatTool;
}.

Record AskResponse := mkAskResponse {
  response : ClaudeAskResponse;
  r_text : option string;
  r_images : option (list string);
}.

(** Errors that travel as JavaScript exceptions. *)
Inductive Error :=
  | KoduError (errorCode : Z) (message : string)
  | JsError (message : string).

Inductive TaskErrorType :=
  | API_ERROR | TOOL_ERROR | UNKNOWN_ERROR | UNAUTHORIZED | PAYMENT_REQUIRED.

Record TaskError := mkTaskError {
  e_type : TaskErrorType;
  e_message : string;
}.

(** [chunk.body.internal] of the closing chunk. *)
Record Internal := mkInternal {
  i_cost : Q;
  i_inputTokens : Z;
  i_outputTokens : Z;
  cacheCreationInputTokens : Z;
  cacheReadInputTokens : Z;
}.

(** Stream chunks ([koduSSEResponse]), by their [code]. *)
Inductive koduSSEResponse :=
  | ChunkEnd (internal : Internal)                          (* code 1 *)
  | ChunkError (status : option Z) (msg : option string)    (* code -1 *)
  | ChunkText (text : string)                               (* code 2 *)
  | ChunkOther (code : Z).

(** What pulling the next item from the stream generator does: yield a chunk
    or raise. *)
Inductive StreamItem :=
  | Yield (c : koduSSEResponse)
  | Raise (e : Error).

Definition Stream := list StreamItem.

Record AbortController := mkAbortController { aborted : bool }.

(** The handle of the deferred flush: the reply it will write to and the
    delay it was armed with. *)
Record FlushTimer := mkFlushTimer {
  timer_replyId : Z;
  timer_delay : Z;
}.

(** Effects visible outside the executor, in the order they happen. *)
Inductive Event :=
  | EvSay (id : Z) (kind : ClaudeSay)
  | EvAsk (id : Z) (kind : ClaudeAsk)
  | EvOpenStream (history : list ApiHistoryItem)
  | EvPostState.

#[global] Instance TaskState_eq_dec : EqDecision TaskState.
Proof. solve_decision. Defined.
#[global] Instance ClaudeAsk_eq_dec : EqDecision ClaudeAsk.
Proof. solve_decision. Defined.
#[global] Instance ClaudeSay_eq_dec : EqDecision ClaudeSay.
Proof. solve_decision. Defined.
#[global] Instance ClaudeAskResponse_eq_dec : EqDecision ClaudeAskResponse.
Proof. solve_decision. Defined.
#[global] Instance MessageType_eq_dec : EqDecision MessageType.
Proof. solve_decision. Defined.
#[global] Instance ApprovalState_eq_dec : EqDecision ApprovalState.
Proof. solve_decision. Defined.
#[global] Instance Role_eq_dec : EqDecision Role.
Proof. solve_decision. Defined.
#[global] Instance TaskErrorType_eq_dec : EqDecision TaskErrorType.
Proof. solve_decision. Defined.

(** ** The executor and its collaborators *)

(** The fields of [TaskExecutor]. *)
Record Executor := mkExecutor {
  state : TaskState;
  currentUserContent : option UserContent;
  isRequestCancelled : bool;
  abortController : option AbortController;
  consecutiveErrorCount : nat;
  isAborting : bool;
  streamPaused : bool;
  textBuffer : string;
  flushTimeout : option FlushTimer;
  lastFlushTime : Z;
  currentReplyId : option Z;
}.

(** The state manager's two histories: the messages shown to the user and
    the turns exchanged with the model. *)
Record StateManager := mkStateManager {
  claudeMessages : list ClaudeMessage;
  apiConversationHistory : list ApiHistoryItem;
}.

(** The ask register: the asks that await an answer, by identity, and the
    answers delivered so far. *)
Record AskManager := mkAskManager {
  pendingAsks : gmap Z ClaudeAsk;
  delivered : list (Z * AskResponse);
}.

(** The host: the clock read by [Date.now()], the answers the user will give
    to the asks that are awaited, the streams the API will return, and the
    log of visible effects. *)
Record Host := mkHost {
  clock : Z;
  responses : list AskResponse;
  streams : list Stream;
  trace : list Event;
}.

Record World (T : Type) := mkWorld {
  executor : Executor;
  stateManager : StateManager;
  askManager : AskManager;
  toolExecutor : T;
  host : Host;
}.

Arguments mkWorld {T}.
Arguments executor {T}.
Arguments stateManager {T}.
Arguments askManager {T}.
Arguments toolExecutor {T}.
Arguments host {T}.

(** The tool executor as the task executor sees it: six operations on a
    state of its own. *)
Class ToolExecutor (T : Type) := {
  processToolUse : string -> T -> string * T;
  hasActiveTools : T -> bool;
  waitForToolProcessing : T -> T;
  getToolResults : T -> list ToolResult;
  resetToolState : T -> T;
  toolAbortTask : T -> T;
}.

(** The two codes of [KODU_ERROR_CODES] (shared/kodu) that the executor
    tells apart, and the message a [KoduError] gets from its code. *)
Class KoduErrorCodes := {
  AUTHENTICATION_ERROR : Z;
  PAYMENT_REQUIRED_CODE : Z;
  koduErrorMessage : Z -> string;   (* the message [new KoduError({ code })] carries *)
}.

(** How a computation ends: with a value, with an exception, suspended on an
    ask that nobody answers, or cut by the bound on re-entries. *)
Inductive Outcome (A : Type) :=
  | Ok (a : A)
  | Throw (e : Error)
  | Pending
  | OutOfFuel.

Arguments Ok {A}.
Arguments Throw {A}.
Arguments Pending {A}.
Arguments OutOfFuel {A}.

(** *** Field updates *)

Definition ex_set_state (x : TaskState) (e : Executor) : Executor :=
  mkExecutor x (currentUserContent e) (isRequestCancelled e) (abortController e) (consecutiveErrorCount e) (isAborting e) (streamPaused e) (textBuffer e) (flushTimeout e) (lastFlushTime e) (currentReplyId e).

Definition ex_set_currentUserContent (x : option UserContent) (e : Executor) : Executor :=
  mkExecutor (state e) x (isRequestCancelled e) (abortController e) (consecutiveErrorCount e) (isAborting e) (streamPaused e) (textBuffer e) (flushTimeout e) (lastFlushTime e) (currentReplyId e).

Definition ex_set_isRequestCancelled (x : bool) (e : Executor) : Executor :=
  mkExecutor (state e) (currentUserContent e) x (abortController e) (consecutiveErrorCount e) (isAborting e) (streamPaused e) (textBuffer e) (flushTimeout e) (lastFlushTime e) (currentReplyId e).

Definition ex_set_abortController (x : option AbortController) (e : Executor) : Executor :=
  mkExecutor (state e) (currentUserContent e) (isRequestCancelled e) x (consecutiveErrorCount e) (isAborting e) (streamPaused e) (textBuffer e) (flushTimeout e) (lastFlushTime e) (currentReplyId e).

Definition ex_set_consecutiveErrorCount (x : nat) (e : Executor) : Executor :=
  mkExecutor (state e) (currentUserContent e) (isRequestCancelled e) (abortController e) x (isAborting e) (streamPaused e) (textBuffer e) (flushTimeout e) (lastFlushTime e) (currentReplyId e).

Definition ex_set_isAborting (x : bool) (e : Executor) : Executor :=
  mkExecutor (state e) (currentUserContent e) (isRequestCancelled e) (abortController e) (consecutiveErrorCount e) x (streamPaused e) (textBuffer e) (flushTimeout e) (lastFlushTime e) (currentReplyId e).

Definition ex_set_streamPaused (x : bool) (e : Executor) : Executor :=
  mkExecutor (state e) (currentUserContent e) (isRequestCancelled e) (abortController e) (consecutiveErrorCount e) (isAborting e) x (textBuffer e) (flushTimeout e) (lastFlushTime e) (currentReplyId e).

Definition ex_set_textBuffer (x : string) (e : Executor) : Executor :=
  mkExecutor (state e) (currentUserContent e) (isRequestCancelled e) (abortController e) (consecutiveErrorCount e) (isAborting e) (streamPaused e) x (flushTimeout e) (lastFlushTime e) (currentReplyId e).

Definition ex_set_flushTimeout (x : option FlushTimer) (e : Executor) : Executor :=
  mkExecutor (state e) (currentUserContent e) (isRequestCancelled e) (abortController e) (consecutiveErrorCount e) (isAborting e) (streamPaused e) (textBuffer e) x (lastFlushTime e) (currentReplyId e).

Definition ex_set_lastFlushTime (x : Z) (e : Executor) : Executor :=
  mkExecutor (state e) (currentUserContent e) (isRequestCancelled e) (abortController e) (consecutiveErrorCount e) (isAborting e) (streamPaused e) (textBuffer e) (flushTimeout e) x (currentReplyId e).

Definition ex_set_currentReplyId (x : option Z) (e : Executor) : Executor :=
  mkExecutor (state e) (currentUserContent e) (isRequestCancelled e) (abortController e) (consecutiveErrorCount e) (isAborting e) (streamPaused e) (textBuffer e) (flushTimeout e) (lastFlushTime e) x.

(** *** Arrays the JavaScript way *)

(** [Array.prototype.findIndex]; [None] is the source's [-1]. *)
Fixpoint findIndex {A} (p : A -> bool) (l : list A) : option nat :=
  match l with
  | [] => None
  | x :: l' => if p x then Some 0%nat else S <$> findIndex p l'
  end.

(** [l.slice().reverse().find(p)] *)
Definition findLast {A} (p : A -> bool) (l : list A) : option A :=
  List.find p (reverse l).

(** [JSON.parse(text ?? "{}") as ChatTool]; [None] is the [SyntaxError]
    that text which is not JSON raises. An object that is not a tool payload
    reads as a [ChatTool] without fields. *)
Definition emptyTool : ChatTool := mkChatTool None None None "".

Fixpoint parseText (t : MessageText) : option ChatTool :=
  match t with
  | Plain _ => None
  | ToolJSON c => Some c
  | RequestJSON _ => Some emptyTool
  | Appended base suffix => if isBlank suffix then parseText base else None
  end.

Definition parseChatTool (t : option MessageText) : option ChatTool :=
  match t with
  | None => Some emptyTool
  | Some t => parseText t
  end.

(** Modelled from the spec: [isTextBlock] (agent/v1/utils is not among the
    sources): whether a value is a content block of type text; [None] is
    [undefined], the first element of an empty array. *)
Definition isTextBlock (b : option ContentBlock) : bool :=
  match b with Some (TextBlock _) => true | _ => false end.

(** Modelled from the spec: [formatImagesIntoBlocks] (agent/v1/utils is not
    among the sources): one image block for each image. *)
Definition formatImagesIntoBlocks (images : list string) : list ContentBlock :=
  ImageBlock <$> images.

(** ** The monad of the executor's methods *)

Section Model.

Context {T : Type} {TE : ToolExecutor T} {KC : KoduErrorCodes}.

Definition M (A : Type) : Type := World T -> Outcome A * World T.

Definition ret {A} (a : A) : M A := fun w => (Ok a, w).

Definition bind {A B} (m : M A) (f : A -> M B) : M B := fun w =>
  match m w with
  | (Ok a, w') => f a w'
  | (Throw e, w') => (Throw e, w')
  | (Pending, w') => (Pending, w')
  | (OutOfFuel, w') => (OutOfFuel, w')
  end.

Definition throw {A} (e : Error) : M A := fun w => (Throw e, w).

(** [try { m } catch (e) { h e }] *)
Definition try_catch {A} (m : M A) (h : Error -> M A) : M A := fun w =>
  match m w with
  | (Throw e, w') => h e w'
  | r => r
  end.

(** [try { m } finally { fin }]: [fin] runs when [m] returns or throws. *)
Definition try_finally {A} (m : M A) (fin : M unit) : M A := fun w =>
  match m w with
  | (Ok a, w') => bind fin (fun _ => ret a) w'
  | (Throw e, w') => bind fin (fun _ => throw e) w'
  | r => r
  end.

Definition read {A} (f : Executor -> A) : M A := fun w => (Ok (f (executor w)), w).
Definition gets {A} (f : World T -> A) : M A := fun w => (Ok (f w), w).
Definition modify (f : World T -> World T) : M unit := fun w => (Ok tt, f w).

Definition with_executor (f : Executor -> Executor) (w : World T) : World T :=
  let '(mkWorld e s a t h) := w in mkWorld (f e) s a t h.
Definition with_stateManager (f : StateManager -> StateManager) (w : World T) : World T :=
  let '(mkWorld e s a t h) := w in mkWorld e (f s) a t h.
Definition with_askManager (f : AskManager -> AskManager) (w : World T) : World T :=
  let '(mkWorld e s a t h) := w in mkWorld e s (f a) t h.
Definition with_toolExecutor (f : T -> T) (w : World T) : World T :=
  let '(mkWorld e s a t h) := w in mkWorld e s a (f t) h.
Definition with_host (f : Host -> Host) (w : World T) : World T :=
  let '(mkWorld e s a t h) := w in mkWorld e s a t (f h).

Definition with_claudeMessages (f : list ClaudeMessage -> list ClaudeMessage) : World T -> World T :=
  with_stateManager (fun s => mkStateManager (f (claudeMessages s)) (apiConversationHistory s)).
Definition with_apiConversationHistory (f : list ApiHistoryItem -> list ApiHistoryItem) : World T -> World T :=
  with_stateManager (fun s => mkStateManager (claudeMessages s) (f (apiConversationHistory s))).

Definition set_state x : M unit := modify (with_executor (ex_set_state x)).
Definition set_currentUserContent x : M unit := modify (with_executor (ex_set_currentUserContent x)).
Definition set_isRequestCancelled x : M unit := modify (with_executor (ex_set_isRequestCancelled x)).
Definition set_abortController x : M unit := modify (with_executor (ex_set_abortController x)).
Definition set_consecutiveErrorCount x : M unit := modify (with_executor (ex_set_consecutiveErrorCount x)).
Definition set_isAborting x : M unit := modify (with_executor (ex_set_isAborting x)).
Definition set_streamPaused x : M unit := modify (with_executor (ex_set_streamPaused x)).
Definition set_textBuffer x : M unit := modify (with_executor (ex_set_textBuffer x)).
Definition set_flushTimeout x : M unit := modify (with_executor (ex_set_flushTimeout x)).
Definition set_lastFlushTime x : M unit := modify (with_executor (ex_set_lastFlushTime x)).
Definition set_currentReplyId x : M unit := modify (with_executor (ex_set_currentReplyId x)).

Local Notation "x <- m ;; k" := (bind m (fun x => k))
  (at level 100, m at next level, k at level 200, right associativity, only parsing).
Local Notation "m ;; k" := (bind m (fun _ => k))
  (at level 100, k at level 200, right associativity, only parsing).

Definition when (b : bool) (m : M unit) : M unit := if b then m else ret tt.

(** *** The host *)

(** [Date.now()]: successive readings of the clock are distinct. *)
Definition Date_now : M Z := fun w =>
  (Ok (clock (host w)),
   with_host (fun h => mkHost (clock h + 1) (responses h) (streams h) (trace h)) w).

Definition emit (e : Event) : M unit :=
  modify (with_host (fun h => mkHost (clock h) (responses h) (streams h) (trace h ++ [e]))).

(** [providerRef.deref()?.getWebviewManager()?.postStateToWebview()] *)
Definition postStateToWebview : M unit := emit EvPostState.

(** [apiManager.createApiStreamRequest(history, signal)]: the next stream of
    the host; when the host has none, a stream that never yields. *)
Definition createApiStreamRequest : M (option Stream) := fun w =>
  let h := host w in
  let w' := with_host (fun h => mkHost (clock h) (responses h) (tail (streams h))
                         (trace h ++ [EvOpenStream (apiConversationHistory (stateManager w))])) w in
  (Ok (head (streams h)), w').

(** *** The state manager *)

Definition hasTs (id : Z) (m : ClaudeMessage) : bool := bool_decide (ts m = id).
Definition hasHistoryTs (id : Z) (a : ApiHistoryItem) : bool := bool_decide (h_ts a = Some id).

(** [l[l.findIndex(p)] = f(l[l.findIndex(p)])], nothing when no element
    satisfies [p]. *)
Definition updateFirst {A} (p : A -> bool) (f : A -> A) (l : list A) : list A :=
  match findIndex p l with
  | Some i => alter f i l
  | None => l
  end.

Definition appendText (t : option MessageText) (s : string) : MessageText :=
  match t with
  | None => Plain s
  | Some (Plain s0) => Plain (s0 +:+ s)
  | Some t0 => Appended t0 s
  end.

Definition msg_set_text (t : option MessageText) (m : ClaudeMessage) : ClaudeMessage :=
  mkClaudeMessage (ts m) (type m) (m_ask m) (m_say m) t (v m) (isDone m)
    (isFetching m) (isError m) (errorText m) (apiMetrics m) (isSubMessage m).

(** Modelled from the spec: [StateManager.getMessageById] (agent/v1/state-manager
    is not among the sources), the store's [getTurn(id)]: the entry whose
    timestamp is [id]. *)
Definition getMessageById (id : Z) : M (option ClaudeMessage) :=
  gets (fun w => List.find (hasTs id) (claudeMessages (stateManager w))).

(** Modelled from the spec: [StateManager.addToClaudeMessages], the store's
    [addTurn(entry)] on the displayed messages. *)
Definition addToClaudeMessages (m : ClaudeMessage) : M unit :=
  modify (with_claudeMessages (fun l => l ++ [m])).

(** Modelled from the spec: [StateManager.updateClaudeMessage], the store's
    [updateTurn(id, patch)] on the displayed messages; every caller passes a
    whole message, which takes the place of the entry whose timestamp is
    [id]. *)
Definition updateClaudeMessage (id : Z) (m : ClaudeMessage) : M unit :=
  modify (with_claudeMessages (updateFirst (hasTs id) (fun _ => m))).

(** Modelled from the spec: [StateManager.appendToClaudeMessage], the store's
    [appendText(id, text)]. *)
Definition appendToClaudeMessage (id : Z) (s : string) : M unit :=
  modify (with_claudeMessages
            (updateFirst (hasTs id) (fun m => msg_set_text (Some (appendText (text m) s)) m))).

(** Modelled from the spec: [StateManager.addToApiConversationHistory], the
    store's [addTurn(entry)] on the API history. *)
Definition addToApiConversationHistory (a : ApiHistoryItem) : M unit :=
  modify (with_apiConversationHistory (fun l => l ++ [a])).

(** Modelled from the spec: [StateManager.updateApiHistoryItem], the store's
    [updateTurn(id, patch)] on the API history: the fields of the patch
    overwrite those of the entry whose timestamp is [id]; a patch without
    timestamp leaves the entry's. *)
Definition patchHistoryItem (patch old : ApiHistoryItem) : ApiHistoryItem :=
  mkApiHistoryItem (role patch) (content patch)
    (match h_ts patch with Some t => Some t | None => h_ts old end).

(** Modelled from the spec: [StateManager.updateApiHistoryItem], see
    [patchHistoryItem]: the entry patched is the first whose timestamp is
    [id]; without such an entry nothing changes. *)
Definition updateApiHistoryItem (id : Z) (patch : ApiHistoryItem) : M unit :=
  modify (with_apiConversationHistory (updateFirst (hasHistoryTs id) (patchHistoryItem patch))).

(** *** [TaskExecutorUtils] *)

(** Modelled from the spec: [TaskExecutorUtils.say] (task-executor/utils is not
    among the sources): a displayed entry of type say, stamped [sayTs] or
    else the clock, is added to the messages; its timestamp is returned. *)
Definition say (kind : ClaudeSay) (text : option MessageText) (sayTs : option Z)
    (isSub : bool) : M Z :=
  id <- match sayTs with Some t => ret t | None => Date_now end ;;
  addToClaudeMessages
    (mkClaudeMessage id type_say None (Some kind) text (Some 1%nat)
       false false false None None isSub) ;;
  emit (EvSay id kind) ;;
  ret id.

(** [question ? question : tool ? JSON.stringify(tool) : ""] *)
Definition askText (data : option AskDetails) : MessageText :=
  match data with
  | None => Plain ""
  | Some d =>
      match question d with
      | Some (String c q) => Plain (String c q)
      | _ => match d_tool d with
             | Some t => ToolJSON t
             | None => Plain ""
             end
      end
  end.

Definition askMessage (id : Z) (kind : ClaudeAsk) (data : option AskDetails) : ClaudeMessage :=
  mkClaudeMessage id type_ask (Some kind) None (Some (askText data)) (Some 1%nat)
    false false false None None false.

(** Modelled from the spec: [TaskExecutorUtils.updateAsk]: the ask entry with
    timestamp [askTs] is rewritten with the new payload (added when there is
    none), and the UI is notified. *)
Definition updateAsk (kind : ClaudeAsk) (data : AskDetails) (askTs : Z) : M unit :=
  existing <- getMessageById askTs ;;
  match existing with
  | None => addToClaudeMessages (askMessage askTs kind (Some data))
  | Some _ => updateClaudeMessage askTs (askMessage askTs kind (Some data))
  end ;;
  postStateToWebview.

(** *** The ask manager *)

(** Modelled from the spec: [AskManager.handleResponse] (task-executor/ask-manager
    is not among the sources): resolves exactly the pending registration for
    [id]; a response for an id without pending registration is dropped. *)
Definition handleResponse (id : Z) (r : AskResponse) : M unit :=
  modify (with_askManager (fun a =>
    match pendingAsks a !! id with
    | Some _ => mkAskManager (delete id (pendingAsks a)) (delivered a ++ [(id, r)])
    | None => a
    end)).

(** Modelled from the spec: the first half of [AskManager.ask], up to the
    promise it returns: without [askTs] a new timestamp is minted and a new
    ask entry added; with [askTs] the ask attaches to the entry that has it.
    The registration of an identity replaces the one it had. *)
Definition ask_register (kind : ClaudeAsk) (data : option AskDetails) (askTs : option Z) : M Z :=
  id <- match askTs with Some t => ret t | None => Date_now end ;;
  match askTs with
  | None => addToClaudeMessages (askMessage id kind data)
  | Some _ =>
      existing <- getMessageById id ;;
      match existing with
      | None => addToClaudeMessages (askMessage id kind data)
      | Some _ => updateClaudeMessage id (askMessage id kind data)
      end
  end ;;
  modify (with_askManager (fun a => mkAskManager (<[id := kind]> (pendingAsks a)) (delivered a))) ;;
  emit (EvAsk id kind) ;;
  ret id.

(** Modelled from the spec: awaiting the promise of [AskManager.ask]: the
    next answer of the user resolves the registration; without one the
    caller stays suspended. *)
Definition ask_await (id : Z) : M AskResponse := fun w =>
  match responses (host w) with
  | [] => (Pending, w)
  | r :: rest =>
      bind (handleResponse id r) (fun _ => ret r)
        (with_host (fun h => mkHost (clock h) rest (streams h) (trace h)) w)
  end.

(** Modelled from the spec: [AskManager.ask], registration followed by the
    wait for the answer. *)
Definition AskManager_ask (kind : ClaudeAsk) (data : option AskDetails) (askTs : option Z)
    : M AskResponse :=
  id <- ask_register kind data askTs ;;
  ask_await id.

(** *** The tool executor, lifted *)

Definition tool_processToolUse (s : string) : M string := fun w =>
  let '(r, t) := processToolUse s (toolExecutor w) in
  (Ok r, with_toolExecutor (fun _ => t) w).
Definition tool_hasActiveTools : M bool := gets (fun w => hasActiveTools (toolExecutor w)).
Definition tool_waitForToolProcessing : M unit := modify (with_toolExecutor waitForToolProcessing).
Definition tool_getToolResults : M (list ToolResult) := gets (fun w => getToolResults (toolExecutor w)).
Definition tool_resetToolState : M unit := modify (with_toolExecutor resetToolState).
Definition tool_abortTask : M unit := modify (with_toolExecutor toolAbortTask).

(** ** The methods of [TaskExecutor] *)

Definition BUFFER_FLUSH_INTERVAL : Z := 10.
Definition BUFFER_SIZE_THRESHOLD : nat := 50.

Definition continuationPrompt : string :=
  "Let's continue with the task, from where we left off.".
Definition interruptedPlaceholder : string :=
  "the response was interrupted in the middle of processing".
Definition failedToGenerate : string :=
  "Failed to generate a response, please try again.".
Definition errorInGeneration : string :=
  "An error occurred in the generation of the response. Please try again.".
Definition mustUseTool : string :=
  "You must use a tool to proceed. Either use attempt_completion if you've completed the task, or ask_followup_question if you need more information.".
Definition toolInterrupted : string :=
  "Task was interrupted before this tool call could be completed.".
Definition resumeAfterInterrupt : string :=
  "Task was interrupted before the last response could be generated. Would you like to resume the task?".
Definition resumeAfterErrors : string :=
  "Claude has encountered an error 3 times in a row. Would you like to resume the task?".

(** Truthiness of a [number | null | undefined]. *)
Definition truthyId (id : option Z) : bool :=
  match id with
  | Some i => negb (Z.eqb i 0)
  | None => false
  end.

Definition ask (kind : ClaudeAsk) (data : option AskDetails) : M AskResponse :=
  AskManager_ask kind data None.

Definition askWithId (kind : ClaudeAsk) (data : option AskDetails) (askTs : option Z)
    : M AskResponse :=
  AskManager_ask kind data askTs.

Definition isAskMessage (m : ClaudeMessage) : bool := bool_decide (type m = type_ask).

Definition handleAskResponse (r : ClaudeAskResponse) (text : option string)
    (images : option (list string)) : M unit :=
  msgs <- gets (fun w => claudeMessages (stateManager w)) ;;
  match findLast isAskMessage msgs with
  | Some lastAskMessage => handleResponse (ts lastAskMessage) (mkAskResponse r text images)
  | None => ret tt
  end.

Definition flushTextBuffer (replyId : option Z) (force : bool) : M unit :=
  buf <- read textBuffer ;;
  if isBlank buf || negb (truthyId replyId) then ret tt
  else
    match replyId with
    | None => ret tt
    | Some id =>
        now <- Date_now ;;
        lastFlush <- read lastFlushTime ;;
        let timeSinceLastFlush := now - lastFlush in
        timer <- read flushTimeout ;;
        when (bool_decide (is_Some timer)) (set_flushTimeout None) ;;
        paused <- read streamPaused ;;
        if force || Nat.leb BUFFER_SIZE_THRESHOLD (jsLength buf)
           || Z.leb BUFFER_FLUSH_INTERVAL timeSinceLastFlush
        then
          let contentToFlush := buf in
          set_textBuffer "" ;;
          appendToClaudeMessage id contentToFlush ;;
          postStateToWebview ;;
          set_lastFlushTime now
        else if negb paused then
          set_flushTimeout (Some (mkFlushTimer id (BUFFER_FLUSH_INTERVAL - timeSinceLastFlush)))
        else ret tt
    end.

(** The callback armed by [setTimeout] in [flushTextBuffer], run by the host
    when the timer fires. *)
Definition flushTimeoutFired : M unit :=
  timer <- read flushTimeout ;;
  match timer with
  | None => ret tt
  | Some t =>
      buf <- read textBuffer ;;
      paused <- read streamPaused ;;
      if negb (isBlank buf) && negb paused then
        set_textBuffer "" ;;
        appendToClaudeMessage (timer_replyId t) buf ;;
        postStateToWebview ;;
        now <- Date_now ;;
        set_lastFlushTime now
      else ret tt
  end.

Definition pauseStream : M unit :=
  paused <- read streamPaused ;;
  if negb paused then
    set_streamPaused true ;;
    replyId <- read currentReplyId ;;
    match replyId with
    | Some _ => flushTextBuffer replyId true
    | None => ret tt
    end
  else ret tt.

Definition resumeStream : M unit :=
  paused <- read streamPaused ;;
  if paused then
    set_streamPaused false ;;
    now <- Date_now ;;
    set_lastFlushTime now
  else ret tt.

Definition normalizeUserContent (content : UserContent) : UserContent :=
  match content with
  | [] => [TextBlock continuationPrompt]
  | TextBlock t :: _ => if isBlank t then [TextBlock continuationPrompt] else content
  | _ => content
  end.

(** [this.abortController?.abort()] *)
Definition abortSignal : M unit :=
  modify (with_executor (fun e =>
    ex_set_abortController
      (match abortController e with
       | Some _ => Some (mkAbortController true)
       | None => None
       end) e)).

Definition newAbortController : option AbortController := Some (mkAbortController false).

Definition cancelledOrAborting : M bool :=
  c <- read isRequestCancelled ;;
  a <- read isAborting ;;
  ret (c || a).

Definition resetState : M unit :=
  timer <- read flushTimeout ;;
  when (bool_decide (is_Some timer)) (set_flushTimeout None) ;;
  abortSignal ;;
  set_isRequestCancelled false ;;
  set_abortController None ;;
  set_consecutiveErrorCount 0%nat ;;
  set_state WAITING_FOR_USER ;;
  set_streamPaused false ;;
  set_textBuffer "" ;;
  now <- Date_now ;;
  set_lastFlushTime now ;;
  set_currentReplyId None ;;
  postStateToWebview.

Definition isApiReqStarted (m : ClaudeMessage) : bool :=
  bool_decide (type m = type_say) && bool_decide (m_say m = Some say_api_req_started).

(** [claudeMessages.slice().reverse().find(...)] of [cancelCurrentRequest],
    on the reversed list: the callback parses the text of a version-1 tool
    ask, and the [SyntaxError] of [JSON.parse] ([inl]) ends the search. *)
Fixpoint findToolRequest (reversed : list ClaudeMessage) : Error + option ClaudeMessage :=
  match reversed with
  | [] => inr None
  | msg :: rest =>
      if negb (isV1ClaudeMessage msg) || negb (bool_decide (m_ask msg = Some ask_tool))
      then findToolRequest rest
      else
        match parseChatTool (text msg) with
        | None => inl (JsError "SyntaxError")
        | Some parsedTool =>
            if negb (bool_decide (approvalState parsedTool = Some st_error))
            then inr (Some msg)
            else findToolRequest rest
        end
  end.

Definition interruptTool (parsedTool : ChatTool) : ChatTool :=
  mkChatTool (tool parsedTool) (Some st_error) (Some toolInterrupted) (details parsedTool).

Definition cancelRequest (m : ClaudeMessage) : ClaudeMessage :=
  mkClaudeMessage (ts m) (type m) (m_ask m) (m_say m) (text m) (v m)
    true false true (Some "Request cancelled by user") (apiMetrics m) (isSubMessage m).

(** The resume ask at the end is not awaited: it is registered here, and its
    [then] callback is [onResumeAnswer] below. *)
Definition cancelCurrentRequest : M unit :=
  cancelled <- read isRequestCancelled ;;
  if cancelled then ret tt
  else
    msgs <- gets (fun w => claudeMessages (stateManager w)) ;;
    if Nat.eqb (length msgs) 2 then ret tt
    else
      set_isRequestCancelled true ;;
      abortSignal ;;
      set_state ABORTED ;;
      let lastApiRequest := findLast isApiReqStarted msgs in
      match findToolRequest (reverse msgs) with
      | inl e => throw e
      | inr lastToolRequest =>
          match lastToolRequest with
          | Some req =>
              match parseChatTool (text req), m_ask req with
              | None, _ => throw (JsError "SyntaxError")
              | Some parsedTool, Some kind =>
                  if negb (bool_decide (approvalState parsedTool = Some st_approved))
                  then updateAsk kind (mkAskDetails None (Some (interruptTool parsedTool))) (ts req)
                  else ret tt
              | Some _, None => ret tt
              end
          | None => ret tt
          end ;;
          match lastApiRequest with
          | Some req =>
              if isV1ClaudeMessage req && negb (isDone req)
              then updateClaudeMessage (ts req) (cancelRequest req)
              else ret tt
          | None => ret tt
          end ;;
          ask_register ask_resume_task (Some (mkAskDetails (Some resumeAfterInterrupt) None)) None ;;
          postStateToWebview
      end.

(** The two readings of the clock are those of the log lines. *)
Definition abortTask : M unit :=
  aborting <- read isAborting ;;
  if aborting then ret tt
  else
    set_isAborting true ;;
    try_finally
      (now <- Date_now ;;
       cancelCurrentRequest ;;
       tool_abortTask ;;
       resetState ;;
       _ <- Date_now ;;
       ret tt)
      (set_isAborting false).

(** *** A request round

    [makeClaudeRequest] calls itself through [finishProcessingResponse] and
    [handleApiError]. The methods of a round take the method they re-enter
    as [makeClaudeRequest]; the recursion is closed below with a bound on
    the number of re-entries. *)

Section Round.

Variable makeClaudeRequest : M unit.

Definition suspended {A} : M A := fun w => (Pending, w).

Definition isFatal (t : TaskErrorType) : bool :=
  bool_decide (t = PAYMENT_REQUIRED) || bool_decide (t = UNAUTHORIZED).

Definition isRetry (r : ClaudeAskResponse) : bool :=
  bool_decide (r = yesButtonTapped) || bool_decide (r = messageResponse).

(** [if (typeof content === "string") content = [{ type: "text", text: content }]] *)
Definition stringToBlocks (a : ApiHistoryItem) : ApiHistoryItem :=
  match content a with
  | ContentString s => mkApiHistoryItem (role a) (ContentBlocks [TextBlock s]) (h_ts a)
  | ContentBlocks _ => a
  end.

(** [content[0].text = content[0].text.trim() || "An error occurred ..."] *)
Definition fillBlankText (a : ApiHistoryItem) : ApiHistoryItem :=
  match content a with
  | ContentBlocks (TextBlock t :: rest) =>
      mkApiHistoryItem (role a)
        (ContentBlocks (TextBlock (if truthy (trim t) then trim t else errorInGeneration) :: rest))
        (h_ts a)
  | _ => a
  end.

Definition handleApiError (error : TaskError) : M unit :=
  tool_resetToolState ;;
  history <- gets (fun w => apiConversationHistory (stateManager w)) ;;
  match last history with
  | Some lastAssistantMessage =>
      if bool_decide (role lastAssistantMessage = assistant) && truthyId (h_ts lastAssistantMessage)
      then
        (* the entry is changed in place, then written back under its id *)
        let changed := fillBlankText (stringToBlocks lastAssistantMessage) in
        modify (with_apiConversationHistory (alter (fun _ => changed) (length history - 1)%nat)) ;;
        match h_ts lastAssistantMessage with
        | Some id => updateApiHistoryItem id changed
        | None => ret tt
        end
      else ret tt
  | None => ret tt
  end ;;
  n <- read consecutiveErrorCount ;;
  set_consecutiveErrorCount (S n) ;;
  if isFatal (e_type error) then
    set_state IDLE ;;
    say (if bool_decide (e_type error = PAYMENT_REQUIRED)
         then say_payment_required else say_unauthorized)
        (Some (Plain (e_message error))) None false ;;
    ret tt
  else
    r <- ask ask_api_req_failed (Some (mkAskDetails (Some (e_message error)) None)) ;;
    if isRetry (response r) then
      say say_api_req_retried None None false ;;
      set_state WAITING_FOR_API ;;
      makeClaudeRequest
    else set_state COMPLETED.

(** [!content.length || (isTextBlock(content[0]) && !content[0].text.trim())] *)
Definition contentLength (c : MessageContent) : nat :=
  match c with
  | ContentString s => jsLength s
  | ContentBlocks l => length l
  end.

Definition firstBlock (c : MessageContent) : option ContentBlock :=
  match c with
  | ContentBlocks (b :: _) => Some b
  | _ => None
  end.

Definition emptyContent (c : MessageContent) : bool :=
  Nat.eqb (contentLength c) 0
  || (isTextBlock (firstBlock c)
      && match firstBlock c with Some (TextBlock t) => isBlank t | _ => false end).

Definition isCompletionAttempt (r : ToolResult) : bool :=
  bool_decide (name r = "attempt_completion").

Definition resultBlocks (r : ToolResult) : list ContentBlock :=
  match result r with
  | ContentString s => [TextBlock s]
  | ContentBlocks l => l
  end.

Definition finishProcessingResponse (assistantResponses : ApiHistoryItem) : M unit :=
  stop <- cancelledOrAborting ;;
  if stop then ret tt
  else
    (if emptyContent (content assistantResponses) then
       match h_ts assistantResponses with
       | Some id =>
           if truthyId (Some id) then
             updateApiHistoryItem id
               (mkApiHistoryItem assistant (ContentBlocks [TextBlock failedToGenerate]) None)
           else ret tt
       | None => ret tt
       end
     else ret tt) ;;
    currentToolResults <- tool_getToolResults ;;
    if Nat.ltb 0 (length currentToolResults) then
      match List.find isCompletionAttempt currentToolResults with
      | Some completionAttempted =>
          addToApiConversationHistory (mkApiHistoryItem user (result completionAttempted) None) ;;
          addToApiConversationHistory
            (mkApiHistoryItem assistant (ContentBlocks [TextBlock "Task completed successfully."]) None) ;;
          set_state COMPLETED
      | None =>
          set_state WAITING_FOR_API ;;
          set_currentUserContent (Some (flat_map resultBlocks currentToolResults)) ;;
          makeClaudeRequest
      end
    else
      set_state WAITING_FOR_API ;;
      set_currentUserContent (Some [TextBlock mustUseTool]) ;;
      makeClaudeRequest.

(** The variables of [processApiResponse] that its callbacks share. *)
Record RoundLocals := mkRoundLocals {
  apiHistoryItem : ApiHistoryItem;
  accumulatedText : string;
}.

Definition msg_finish (metrics : option ApiMetrics) (err : option string) (m : ClaudeMessage)
    : ClaudeMessage :=
  match err with
  | None =>
      mkClaudeMessage (ts m) (type m) (m_ask m) (m_say m) (text m) (v m)
        true false (isError m) (errorText m) metrics (isSubMessage m)
  | Some e =>
      mkClaudeMessage (ts m) (type m) (m_ask m) (m_say m) (text m) (v m)
        true false true (Some e) (apiMetrics m) (isSubMessage m)
  end.

Definition onImmediateEndOfStream (startedReqId : Z) (chunk : koduSSEResponse) : M unit :=
  stop <- cancelledOrAborting ;;
  if stop then ret tt
  else
    match chunk with
    | ChunkEnd internal =>
        started <- getMessageById startedReqId ;;
        match started with
        | Some m =>
            updateClaudeMessage startedReqId
              (msg_finish
                 (Some (mkApiMetrics (i_cost internal) (i_inputTokens internal)
                          (i_outputTokens internal) (cacheReadInputTokens internal)
                          (cacheCreationInputTokens internal)))
                 None m)
        | None => ret tt
        end ;;
        postStateToWebview
    | ChunkError status msg =>
        started <- getMessageById startedReqId ;;
        match started with
        | Some m =>
            updateClaudeMessage startedReqId
              (msg_finish None (Some (default "Internal Server Error" msg)) m)
        | None => ret tt
        end ;;
        postStateToWebview ;;
        throw (KoduError (default 500 status) (koduErrorMessage (default 500 status)))
    | _ => ret tt
    end.

(** [apiHistoryItem] is the object that was pushed to the API history at
    index [itemRef]: writing to its text changes the entry there. *)
Definition onChunk (startedReqId : Z) (itemRef : nat) (chunk : koduSSEResponse)
    (loc : RoundLocals) : M RoundLocals :=
  stop <- cancelledOrAborting ;;
  if stop then ret loc
  else
    match chunk with
    | ChunkText chunkText =>
        item <- match content (apiHistoryItem loc) with
                | ContentBlocks (TextBlock t :: rest) =>
                    let item :=
                      mkApiHistoryItem (role (apiHistoryItem loc))
                        (ContentBlocks
                           (TextBlock (if String.eqb t interruptedPlaceholder
                                       then chunkText else t +:+ chunkText) :: rest))
                        (h_ts (apiHistoryItem loc)) in
                    modify (with_apiConversationHistory (alter (fun _ => item) itemRef)) ;;
                    updateApiHistoryItem startedReqId item ;;
                    ret item
                | _ => ret (apiHistoryItem loc)
                end ;;
        paused <- read streamPaused ;;
        if negb paused then
          nonXMLText <- tool_processToolUse (accumulatedText loc +:+ chunkText) ;;
          (if truthy nonXMLText then
             buf <- read textBuffer ;;
             set_textBuffer (buf +:+ nonXMLText) ;;
             replyId <- read currentReplyId ;;
             flushTextBuffer replyId false
           else ret tt) ;;
          active <- tool_hasActiveTools ;;
          (if active then
             replyId <- read currentReplyId ;;
             flushTextBuffer replyId true ;;
             pauseStream ;;
             tool_waitForToolProcessing ;;
             resumeStream ;;
             now <- Date_now ;;
             newReplyId <- say say_text (Some (Plain "")) (Some now) true ;;
             set_currentReplyId (Some newReplyId)
           else ret tt) ;;
          ret (mkRoundLocals item "")
        else ret (mkRoundLocals item (accumulatedText loc))
    | _ => ret loc
    end.

Definition onFinalEndOfStream (currentReplyId : Z) (loc : RoundLocals) : M unit :=
  stop <- cancelledOrAborting ;;
  if stop then ret tt
  else
    (if truthy (accumulatedText loc) then
       nonXMLText <- tool_processToolUse (accumulatedText loc) ;;
       if truthy nonXMLText then
         buf <- read textBuffer ;;
         set_textBuffer (buf +:+ nonXMLText)
       else ret tt
     else ret tt) ;;
    tool_waitForToolProcessing ;;
    timer <- read flushTimeout ;;
    when (bool_decide (is_Some timer)) (set_flushTimeout None) ;;
    flushTextBuffer (Some currentReplyId) true ;;
    set_currentReplyId None ;;
    finishProcessingResponse (apiHistoryItem loc).

Definition isEndOfStream (chunk : koduSSEResponse) : bool :=
  match chunk with
  | ChunkEnd _ | ChunkError _ _ => true
  | _ => false
  end.

(** Modelled from the spec: [ChunkProcessor.processStream] (agent/v1/chunk-proccess
    is not among the sources): the events are consumed in order; a closing
    event fires the immediate callback, every other event the delta
    callback; once the sequence is exhausted after a closing event the final
    callback runs. What a callback or the generator raises ends the
    processing. *)
Fixpoint processStream (startedReqId : Z) (itemRef : nat) (currentReplyId : Z)
    (stream : Stream) (ended : bool) (loc : RoundLocals) : M unit :=
  match stream with
  | [] => if ended then onFinalEndOfStream currentReplyId loc else ret tt
  | Raise e :: _ => throw e
  | Yield chunk :: rest =>
      if isEndOfStream chunk then
        onImmediateEndOfStream startedReqId chunk ;;
        processStream startedReqId itemRef currentReplyId rest true loc
      else
        loc' <- onChunk startedReqId itemRef chunk loc ;;
        processStream startedReqId itemRef currentReplyId rest ended loc'
  end.

Definition processApiResponse (stream : option Stream) (startedReqId : Z) : M unit :=
  st <- read state ;;
  stop <- cancelledOrAborting ;;
  if negb (bool_decide (st = PROCESSING_RESPONSE)) || stop then ret tt
  else
    now <- Date_now ;;
    currentReplyId <- say say_text (Some (Plain "")) (Some now) true ;;
    set_currentReplyId (Some currentReplyId) ;;
    let apiHistoryItem :=
      mkApiHistoryItem assistant (ContentBlocks [TextBlock interruptedPlaceholder])
        (Some startedReqId) in
    itemRef <- gets (fun w => length (apiConversationHistory (stateManager w))) ;;
    addToApiConversationHistory apiHistoryItem ;;
    match stream with
    | None => suspended
    | Some chunks =>
        processStream startedReqId itemRef currentReplyId chunks false
          (mkRoundLocals apiHistoryItem "")
    end.

(** The condition under which [makeClaudeRequest] goes on. *)
Definition requestGuard (w : World T) : bool :=
  bool_decide (state (executor w) = WAITING_FOR_API)
  && bool_decide (is_Some (currentUserContent (executor w)))
  && negb (isRequestCancelled (executor w))
  && negb (isAborting (executor w)).

Definition makeClaudeRequest_round : M unit :=
  try_catch
    (go <- gets requestGuard ;;
     if negb go then ret tt
     else
       tool_resetToolState ;;
       set_isRequestCancelled false ;;
       set_abortController newAbortController ;;
       set_streamPaused false ;;
       set_textBuffer "" ;;
       now <- Date_now ;;
       set_lastFlushTime now ;;
       set_currentReplyId None ;;
       n <- read consecutiveErrorCount ;;
       (if Nat.leb 3 n then
          _ <- ask ask_resume_task (Some (mkAskDetails (Some resumeAfterErrors) None)) ;;
          ret tt
        else ret tt) ;;
       userContent <- read currentUserContent ;;
       addToApiConversationHistory
         (mkApiHistoryItem user (ContentBlocks (default [] userContent)) None) ;;
       startedReqId <- say say_api_req_started (Some (RequestJSON (default [] userContent)))
                         None false ;;
       stream <- createApiStreamRequest ;;
       stop <- cancelledOrAborting ;;
       if stop then abortSignal
       else
         set_state PROCESSING_RESPONSE ;;
         processApiResponse stream startedReqId)
    (fun error =>
       stop <- cancelledOrAborting ;;
       if negb stop then
         match error with
         | KoduError errorCode message =>
             if Z.eqb errorCode AUTHENTICATION_ERROR then
               handleApiError (mkTaskError UNAUTHORIZED message)
             else if Z.eqb errorCode PAYMENT_REQUIRED_CODE then
               handleApiError (mkTaskError PAYMENT_REQUIRED message)
             else handleApiError (mkTaskError API_ERROR message)
         | JsError message => handleApiError (mkTaskError UNKNOWN_ERROR message)
         end
       else ret tt).

Definition newMessage (message : UserContent) : M unit :=
  aborting <- read isAborting ;;
  if aborting then throw (JsError "Cannot start new message while aborting")
  else
    set_state WAITING_FOR_API ;;
    set_isRequestCancelled false ;;
    set_abortController newAbortController ;;
    set_currentUserContent (Some message) ;;
    match message with
    | [] => throw (JsError "TypeError: Cannot read properties of undefined (reading 'type')")
    | TextBlock t :: _ => say say_user_feedback (Some (Plain t)) None false
    | _ :: _ => say say_user_feedback (Some (Plain "New message")) None false
    end ;;
    makeClaudeRequest.

Definition startTask (userContent : UserContent) : M unit :=
  aborting <- read isAborting ;;
  if aborting then throw (JsError "Cannot start task while aborting")
  else
    set_state WAITING_FOR_API ;;
    set_currentUserContent (Some (normalizeUserContent userContent)) ;;
    set_isRequestCancelled false ;;
    set_abortController newAbortController ;;
    set_consecutiveErrorCount 0%nat ;;
    makeClaudeRequest.

Definition resumeTask (userContent : UserContent) : M unit :=
  aborting <- read isAborting ;;
  if aborting then throw (JsError "Cannot resume task while aborting")
  else
    st <- read state ;;
    if bool_decide (st = WAITING_FOR_USER) then
      set_state WAITING_FOR_API ;;
      set_currentUserContent (Some (normalizeUserContent userContent)) ;;
      set_isRequestCancelled false ;;
      set_consecutiveErrorCount 0%nat ;;
      set_abortController newAbortController ;;
      makeClaudeRequest
    else ret tt.

(** The [then] callback that [cancelCurrentRequest] attaches to its
    resume ask, run when the user answers it. *)
Definition onResumeAnswer (res : AskResponse) : M unit :=
  if bool_decide (response res = yesButtonTapped) then
    set_state WAITING_FOR_API ;;
    set_currentUserContent (Some [TextBlock continuationPrompt]) ;;
    makeClaudeRequest
  else if (bool_decide (response res = noButtonTapped) && truthy (default "" (r_text res)))
          || bool_decide (is_Some (r_images res))
  then
    let newContent :=
      (if truthy (default "" (r_text res)) then [TextBlock (default "" (r_text res))] else [])
      ++ (match r_images res with
          | Some images => formatImagesIntoBlocks images
          | None => []
          end) in
    set_currentUserContent (Some newContent) ;;
    set_state WAITING_FOR_API ;;
    makeClaudeRequest
  else set_state COMPLETED.

End Round.

Definition outOfFuel {A} : M A := fun w => (OutOfFuel, w).

(** [makeClaudeRequest], re-entering itself at most [fuel] times. *)
Fixpoint makeClaudeRequest (fuel : nat) : M unit :=
  makeClaudeRequest_round
    (match fuel with
     | O => outOfFuel
     | S fuel' => makeClaudeRequest fuel'
     end).

End Model.

(** ** Notions used in the statements *)

(** The notice that ends a round after an authentication or payment error. *)
Definition terminalNotice (t : TaskErrorType) : ClaudeSay :=
  if bool_decide (t = PAYMENT_REQUIRED) then say_payment_required else say_unauthorized.

(** Empty input: an empty content list, or a first text block whose text is
    blank. *)
Definition emptyInput (c : UserContent) : Prop :=
  c = [] \/ exists t rest, c = TextBlock t :: rest /\ trim t = "".

(** A tool-approval entry: a version-1 message whose ask is a tool ask. *)
Definition isToolRequest (m : ClaudeMessage) : bool :=
  isV1ClaudeMessage m && bool_decide (m_ask m = Some ask_tool).

(** The ask entry that takes the place of the interrupted tool request. *)
Definition interruptedAsk (m : ClaudeMessage) (parsedTool : ChatTool) : ClaudeMessage :=
  askMessage (ts m) ask_tool (Some (mkAskDetails None (Some (interruptTool parsedTool)))).

(** The displayed history after [cancelCurrentRequest] has found the tool
    request [m] at index [i] with payload [parsedTool], when the clock
    reads [now]. *)
Definition cancelledMessages (msgs : list ClaudeMessage) (i : nat) (m : ClaudeMessage)
    (parsedTool : ChatTool) (now : Z) : list ClaudeMessage :=
  let msgs1 := <[i := interruptedAsk m parsedTool]> msgs in
  let msgs2 :=
    match findLast isApiReqStarted msgs with
    | Some r =>
        if isV1ClaudeMessage r && negb (isDone r)
        then updateFirst (hasTs (ts r)) (fun _ => cancelRequest r) msgs1
        else msgs1
    | None => msgs1
    end in
  msgs2 ++ [askMessage now ask_resume_task (Some (mkAskDetails (Some resumeAfterInterrupt) None))].

Section Notions.

Context {T : Type} {TE : ToolExecutor T} {KC : KoduErrorCodes}.

Implicit Types (w : World T).

(** The world in which [abortTask] calls [cancelCurrentRequest]. *)
Definition aborting w : World T :=
  with_host (fun h => mkHost (clock h + 1) (responses h) (streams h) (trace h))
    (with_executor (ex_set_isAborting true) w).

(** From [w] to [w'] the log of visible effects has only grown and the count
    of consecutive errors has not fallen. *)
Definition keeps w w' : Prop :=
  (exists l, trace (host w') = trace (host w) ++ l)
  /\ (consecutiveErrorCount (executor w) <= consecutiveErrorCount (executor w'))%nat.

(** A computation that, whatever its outcome, only adds to the log and
    never lowers the count. *)
Definition mono {A} (m : M (T:=T) A) : Prop := forall w, keeps w (snd (m w)).

(** A computation that raises the count by at least one. *)
Definition bumps {A} (m : M (T:=T) A) : Prop :=
  forall w, (S (consecutiveErrorCount (executor w))
             <= consecutiveErrorCount (executor (snd (m w))))%nat.

End Notions.

(** ** A scripted tool executor and a first world

    An instance of the tool interface for running the model: each call of
    [processToolUse] takes the next step of a script, which says whether the
    text holds a tool invocation and what the tool will answer. *)

Record ScriptedTools := mkScriptedTools {
  running : list ToolResult;
  finished : list ToolResult;
  script : list (option ToolResult);
}.

#[global] Instance ScriptedTools_executor : ToolExecutor ScriptedTools := {|
  processToolUse s t :=
    match script t with
    | [] => (s, t)
    | None :: rest => (s, mkScriptedTools (running t) (finished t) rest)
    | Some r :: rest => ("", mkScriptedTools (running t ++ [r]) (finished t) rest)
    end;
  hasActiveTools t := match running t with [] => false | _ => true end;
  waitForToolProcessing t := mkScriptedTools [] (finished t ++ running t) (script t);
  getToolResults t := finished t;
  resetToolState t := mkScriptedTools [] [] (script t);
  toolAbortTask t := mkScriptedTools [] (finished t) (script t);
|}.

#[global] Instance http_codes : KoduErrorCodes := {|
  AUTHENTICATION_ERROR := 401;
  PAYMENT_REQUIRED_CODE := 402;
  koduErrorMessage code := "Request failed";
|}.

Definition initialExecutor : Executor :=
  mkExecutor IDLE None false None 0 false false "" None 0 None.

Definition initialWorld (now : Z) (answers : list AskResponse) (incoming : list Stream)
    (steps : list (option ToolResult)) : World ScriptedTools :=
  mkWorld initialExecutor (mkStateManager [] []) (mkAskManager ∅ [])
    (mkScriptedTools [] [] steps) (mkHost now answers incoming []).

(** ** Worlds of the scripted instance *)

Definition sayMessage (id : Z) (kind : ClaudeSay) (t : string) : ClaudeMessage :=
  mkClaudeMessage id type_say None (Some kind) (Some (Plain t)) (Some 1%nat)
    false false false None None false.

Definition pendingTool : ChatTool :=
  mkChatTool (Some "search_files") (Some st_pending) None "src".

Definition toolAsk (id : Z) : ClaudeMessage :=
  askMessage id ask_tool (Some (mkAskDetails None (Some pendingTool))).

Definition withMessages (msgs : list ClaudeMessage) (w : World ScriptedTools)
    : World ScriptedTools :=
  mkWorld (executor w) (mkStateManager msgs (apiConversationHistory (stateManager w)))
    (askManager w) (toolExecutor w) (host w).

Definition withHistory (h : list ApiHistoryItem) (w : World ScriptedTools)
    : World ScriptedTools :=
  mkWorld (executor w) (mkStateManager (claudeMessages (stateManager w)) h)
    (askManager w) (toolExecutor w) (host w).

Definition withExecutor (e : Executor) (w : World ScriptedTools) : World ScriptedTools :=
  mkWorld e (stateManager w) (askManager w) (toolExecutor w) (host w).

(** An idle executor at time 100, nothing stored, nobody answering. *)
Definition idleWorld : World ScriptedTools := initialWorld 100 [] [] [].

(** The task text and the first request, which is still running. *)
Definition firstRequestWorld : World ScriptedTools :=
  withExecutor (mkExecutor PROCESSING_RESPONSE (Some [TextBlock "list files"]) false
                  newAbortController 0 false false "" None 100 (Some 3))
    (withMessages [sayMessage 1 say_text "list files";
                   sayMessage 2 say_api_req_started "request"] idleWorld).

Definition askedWorld : World ScriptedTools :=
  mkWorld initialExecutor
    (mkStateManager [sayMessage 1 say_text "task"; toolAsk 5; sayMessage 7 say_text "note"] [])
    (mkAskManager {[ 5 := ask_tool ]} [])
    (mkScriptedTools [] [] []) (mkHost 100 [] [] []).

(** A round that is being finished: no tool ran. *)
Definition finishingWorld : World ScriptedTools :=
  withExecutor (mkExecutor PROCESSING_RESPONSE (Some [TextBlock "list files"]) false
                  newAbortController 0 false false "" None 100 None)
    (withHistory [mkApiHistoryItem user (ContentBlocks [TextBlock "list files"]) None;
                  mkApiHistoryItem assistant (ContentBlocks [TextBlock "Here they are."]) (Some 2)]
       firstRequestWorld).

Definition answeredItem : ApiHistoryItem :=
  mkApiHistoryItem assistant (ContentBlocks [TextBlock "Here they are."]) (Some 2).

(** The user will answer the next ask with a typed message. *)
Definition messageAnswerWorld : World ScriptedTools :=
  mkWorld (executor finishingWorld) (stateManager finishingWorld) (askManager finishingWorld)
    (toolExecutor finishingWorld)
    (mkHost 100 [mkAskResponse messageResponse (Some "try once more") None] [] []).

Definition unauthorizedError : TaskError := mkTaskError UNAUTHORIZED "Unauthorized".
Definition apiError : TaskError := mkTaskError API_ERROR "Overloaded".

Definition waitingForUserWorld : World ScriptedTools :=
  withExecutor (mkExecutor WAITING_FOR_USER None false None 0 false false "" None 100 None)
    finishingWorld.

Definition replyMessage (id : Z) (t : string) : ClaudeMessage :=
  mkClaudeMessage id type_say None (Some say_text) (Some (Plain t)) (Some 1%nat)
    false false false None None true.

(** A reply is being streamed into entry 3; the buffer holds [buf]. The last
    flush was at the very time the clock shows, and the buffer is short. *)
Definition streamingWorld (buf : string) : World ScriptedTools :=
  withExecutor (mkExecutor PROCESSING_RESPONSE (Some [TextBlock "list files"]) false
                  newAbortController 0 false false buf None 100 (Some 3))
    (withMessages [sayMessage 1 say_text "list files";
                   sayMessage 2 say_api_req_started "request";
                   replyMessage 3 "I'll "] idleWorld).

(** A tool ask is pending while the request that produced it is running. *)
Definition toolPendingWorld : World ScriptedTools :=
  withExecutor (mkExecutor PROCESSING_RESPONSE (Some [TextBlock "list files"]) false
                  newAbortController 0 false true "" None 100 (Some 3))
    (withMessages [sayMessage 1 say_text "list files";
                   sayMessage 2 say_api_req_started "request";
                   replyMessage 3 "I'll search now";
                   toolAsk 4] idleWorld).

(** The displayed history holds exactly two messages: the running request
    and the pending tool ask. *)
Definition twoMessagesWorld : World ScriptedTools :=
  withMessages [sayMessage 1 say_api_req_started "request"; toolAsk 2] toolPendingWorld.

(** The round's assistant entry holds only white space. *)
Definition blankItem : ApiHistoryItem :=
  mkApiHistoryItem assistant (ContentBlocks [TextBlock "  "]) (Some 2).

Definition userItem : ApiHistoryItem :=
  mkApiHistoryItem user (ContentBlocks [TextBlock "list files"]) None.

Definition blankReplyWorld : World ScriptedTools :=
  withHistory [userItem; blankItem] finishingWorld.

(** Three rounds have failed; the next request is about to be made and the
    user is not answering. *)
Definition thirdErrorWorld : World ScriptedTools :=
  withExecutor (mkExecutor WAITING_FOR_API (Some [TextBlock "list files"]) false
                  newAbortController 3 false false "" None 100 None)
    finishingWorld.

(** A stream that ends in an error chunk, the answer that retries, and the
    view of the log that keeps the asks and the opened streams. *)
Definition failingStream : Stream := [Yield (ChunkError (Some 500) None)].

Definition retryAnswer : AskResponse := mkAskResponse yesButtonTapped None None.

Definition asksAndRequests (e : Event) : option (option ClaudeAsk) :=
  match e with
  | EvAsk _ kind => Some (Some kind)
  | EvOpenStream _ => Some None
  | _ => None
  end.

(** ** Further notions *)

(** A message whose text [cancelCurrentRequest] can read: if it is a
    tool-approval entry, its text parses. *)
Definition readable (m : ClaudeMessage) : Prop :=
  isToolRequest m = true -> parseChatTool (text m) <> None.

(** A message that the search for the last tool request passes over: not a
    tool-approval entry, or one whose approval state is already error. *)
Definition passedOver (m : ClaudeMessage) : Prop :=
  isToolRequest m = true ->
  exists t, parseChatTool (text m) = Some t /\ approvalState t = Some st_error.

(** The deltas of a stream, one after the other. *)
Definition joined (deltas : list string) : string := foldr String.append "" deltas.

(** The assistant turn that [processApiResponse] adds for the request
    [startedReqId], holding [s]. *)
Definition assistantTurn (startedReqId : Z) (s : string) : ApiHistoryItem :=
  mkApiHistoryItem assistant (ContentBlocks [TextBlock s]) (Some startedReqId).

(** [error.message] *)
Definition errorMessage (e : Error) : string :=
  match e with
  | KoduError _ message => message
  | JsError message => message
  end.

Section MoreNotions.

Context {T : Type} {TE : ToolExecutor T} {KC : KoduErrorCodes}.

Implicit Types (w : World T).

(** From [w] to [w'] nothing that was displayed or sent has been taken back:
    the timestamps of the displayed messages are those of [w], in the same
    order, followed by new ones; the API history is not shorter; the clock
    has not been turned back. *)
Definition grows w w' : Prop :=
  (ts <$> claudeMessages (stateManager w)) `prefix_of` (ts <$> claudeMessages (stateManager w'))
  /\ (length (apiConversationHistory (stateManager w))
      <= length (apiConversationHistory (stateManager w')))%nat
  /\ clock (host w) <= clock (host w').

(** From [w] to [w'] no abort has been started or ended and the cancelled
    flag has not been raised. *)
Definition unflagged w w' : Prop :=
  isAborting (executor w') = isAborting (executor w)
  /\ (isRequestCancelled (executor w') = true -> isRequestCancelled (executor w) = true).

Definition steady w w' : Prop := grows w w' /\ unflagged w w'.

(** A computation whose final world, whatever the outcome, is related to
    the world it started in. *)
Definition preserves (R : World T -> World T -> Prop) {A} (m : M (T:=T) A) : Prop :=
  forall w, R w (snd (m w)).

(** From [w] to [w'] the API history and the two flags are as they were. *)
Definition quietly w w' : Prop :=
  apiConversationHistory (stateManager w') = apiConversationHistory (stateManager w)
  /\ isRequestCancelled (executor w') = isRequestCancelled (executor w)
  /\ isAborting (executor w') = isAborting (executor w).

(** A computation that always returns, in a world related by [R] to the one
    it started in, a value that satisfies [P]. *)
Definition returns (R : World T -> World T -> Prop) {A} (P : A -> Prop) (m : M (T:=T) A)
    : Prop :=
  forall w, exists a w', m w = (Ok a, w') /\ R w w' /\ P a.


(** The first event of the stream makes the round fail with [e]: the
    generator raises [e], or the event is an error event, for which the
    round raises a [KoduError] with the event's status, or 500. *)
Definition failsWith (first : StreamItem) (e : Error) : Prop :=
  first = Raise e
  \/ exists status text,
       first = Yield (ChunkError status text)
       /\ e = KoduError (default 500 status) (koduErrorMessage (default 500 status)).

End MoreNotions.

(** * The chat view

    The event handlers of the [ChatView] component (webview-ui): what a
    handler reads is the component's state, the attachments atom and two
    values from its hooks; what it does is to post messages to the
    extension, to open the out-of-credit dialog and to update the state. The
    handlers are modelled on the state as rendered: an update that a handler
    requests is in place when the next handler runs. *)

(** [ChatState], without [expandedRows], which no handler touches. *)
Record ChatState := mkChatState {
  inputValue : string;
  textAreaDisabled : bool;
  selectedImages : list string;
  thumbnailsHeight : Z;
  claudeAsk : option ClaudeAsk;
  enableButtons : bool;
  primaryButtonText : option string;
  secondaryButtonText : option string;
  isAbortingRequest : bool;
}.

Section ChatView.

Context {Attachment : Type}.

(** The messages that the handlers post; a field that a handler leaves out
    is [None]. *)
Inductive WebviewMessage :=
  | NewTask (text : string) (images : list string) (attachements : list Attachment)
  | AskResponseMessage (askResponse : ClaudeAskResponse) (text : option string)
      (images : option (list string)) (attachements : option (list Attachment))
  | ClearTask.

Record View := mkView {
  chat : ChatState;                       (* useState *)
  attachments : list Attachment;          (* attachmentsAtom *)
  messageCount : nat;                     (* messages.length *)
  shouldOpenOutOfCreditDialog : bool;     (* useOutOfCreditDialog *)
  posted : list WebviewMessage;           (* vscode.postMessage, in order *)
  dialogsOpened : nat;                    (* calls of openOutOfCreditDialog *)
}.

(** [COMMAND_STDIN_STRING] of shared/combineCommandSequences. *)
Variable COMMAND_STDIN_STRING : string.

Definition postMessage (m : WebviewMessage) (v : View) : View :=
  mkView (chat v) (attachments v) (messageCount v) (shouldOpenOutOfCreditDialog v)
    (posted v ++ [m]) (dialogsOpened v).

Definition openOutOfCreditDialog (v : View) : View :=
  mkView (chat v) (attachments v) (messageCount v) (shouldOpenOutOfCreditDialog v)
    (posted v) (S (dialogsOpened v)).

Definition updateState (updates : ChatState -> ChatState) (v : View) : View :=
  mkView (updates (chat v)) (attachments v) (messageCount v) (shouldOpenOutOfCreditDialog v)
    (posted v) (dialogsOpened v).

Definition setAttachments (a : list Attachment) (v : View) : View :=
  mkView (chat v) a (messageCount v) (shouldOpenOutOfCreditDialog v)
    (posted v) (dialogsOpened v).

Definition handleClaudeAskResponse (text : string) (v : View) : View :=
  postMessage
    (AskResponseMessage messageResponse (Some text) (Some (selectedImages (chat v))) None) v.

(** [{ inputValue: "", textAreaDisabled: true, selectedImages: [],
       claudeAsk: undefined, enableButtons: false }] *)
Definition afterSend (s : ChatState) : ChatState :=
  mkChatState "" true [] (thumbnailsHeight s) None false
    (primaryButtonText s) (secondaryButtonText s) (isAbortingRequest s).

(** [{ textAreaDisabled: true, claudeAsk: undefined, primaryButtonText: undefined,
       secondaryButtonText: undefined, enableButtons: false }] *)
Definition afterButton (s : ChatState) : ChatState :=
  mkChatState (inputValue s) true (selectedImages s) (thumbnailsHeight s) None false
    None None (isAbortingRequest s).

(** [{ claudeAsk: undefined }] *)
Definition withoutAsk (s : ChatState) : ChatState :=
  mkChatState (inputValue s) (textAreaDisabled s) (selectedImages s) (thumbnailsHeight s)
    None (enableButtons s) (primaryButtonText s) (secondaryButtonText s)
    (isAbortingRequest s).

(** The text that [handleSendMessage] sends:
    [state.inputValue?.trim()], or [input?.trim()] when
    [!!input && input.length > 1]. *)
Definition textToSend (input : option string) (v : View) : string :=
  match input with
  | Some i => if truthy i && Nat.ltb 1 (jsLength i) then trim i
              else trim (inputValue (chat v))
  | None => trim (inputValue (chat v))
  end.

Definition handleSendMessage (input : option string) (v : View) : View :=
  if shouldOpenOutOfCreditDialog v then openOutOfCreditDialog v
  else
    let text := textToSend input v in
    if truthy text || Nat.ltb 0 (length (selectedImages (chat v))) then
      let sent :=
        if Nat.eqb (messageCount v) 0 then
          postMessage (NewTask text (selectedImages (chat v)) (attachments v)) v
        else if bool_decide (is_Some (claudeAsk (chat v))) then
          handleClaudeAskResponse text v
        else
          postMessage
            (AskResponseMessage messageResponse (Some text)
               (Some (selectedImages (chat v))) (Some (attachments v))) v in
      setAttachments [] (updateState afterSend sent)
    else v.

Definition handlePrimaryButtonClick (v : View) : View :=
  match claudeAsk (chat v) with
  | Some ask_api_req_failed | Some ask_request_limit_reached | Some ask_command
  | Some ask_command_output | Some ask_tool | Some ask_resume_task =>
      let answered := postMessage (AskResponseMessage yesButtonTapped None None None) v in
      if bool_decide (claudeAsk (chat v) = Some ask_tool) then answered
      else if shouldOpenOutOfCreditDialog v then openOutOfCreditDialog answered
      else updateState afterButton answered
  | Some ask_completion_result | Some ask_resume_completed_task =>
      updateState afterButton (postMessage ClearTask v)
  | _ => updateState afterButton v
  end.

Definition handleSecondaryButtonClick (v : View) : View :=
  match claudeAsk (chat v) with
  | Some ask_request_limit_reached | Some ask_api_req_failed =>
      updateState afterButton (postMessage ClearTask v)
  | Some ask_command | Some ask_tool =>
      updateState afterButton
        (postMessage (AskResponseMessage noButtonTapped None None None) v)
  | _ => updateState afterButton v
  end.

Definition handleSendStdin (text : string) (v : View) : View :=
  if bool_decide (claudeAsk (chat v) = Some ask_command_output) then
    updateState withoutAsk
      (postMessage
         (AskResponseMessage messageResponse (Some (COMMAND_STDIN_STRING +:+ text)) None None) v)
  else v.

End ChatView.

(** * Two tool runners

    [SearchFilesTool.execute] and [ListCodeDefinitionNamesTool.execute]
    (agent/v1/tools/runners). A runner reads its input and talks to the
    task through the three functions of its parameters, [say], [ask] and
    [updateAsk]; it is modelled by the calls it makes on them, in order,
    and by what it returns. The answer of the user to the ask is an input
    of the model, and so are the search and the parser, which may throw. *)

(** The payload of the tool ask that the two runners build; a field that a
    payload leaves out is [None]. *)
Record ToolCard := mkToolCard {
  c_tool : string;
  c_path : string;
  c_regex : option string;
  c_filePattern : option string;
  c_approvalState : ApprovalState;
  c_content : option string;
  c_userFeedback : option string;
  c_error : option string;
  c_ts : Z;
}.

Inductive ToolCall :=
  | CallSay (kind : ClaudeSay) (text : string)
  | CallAsk (kind : ClaudeAsk) (card : ToolCard) (askTs : Z)
  | CallUpdateAsk (kind : ClaudeAsk) (card : ToolCard) (askTs : Z).

(** [input] of [AgentToolParams], with the fields the two runners read. *)
Record ToolInput := mkToolInput {
  in_path : option string;
  in_regex : option string;
  in_filePattern : option string;
}.

(** What a run leaves: the value returned, [None] while the runner waits
    for the answer to its ask, and the calls made. *)
Definition ToolRun : Type := option ToolResponse * list ToolCall.

Definition newline : string := String "010" "".
Definition quote : string := String "034" "".

(** A template literal of the source, line by line: each line after the
    first is indented by tabs. *)
Fixpoint tabs (n : nat) : string :=
  match n with
  | O => ""
  | S n' => String "009" (tabs n')
  end.

Fixpoint template (first : string) (rest : list (nat * string)) : string :=
  match rest with
  | [] => first
  | (n, line) :: rest' => first +:+ newline +:+ template (tabs n +:+ line) rest'
  end.

(** ["key": "value"] followed by [trail] *)
Definition field (key value trail : string) : string :=
  quote +:+ key +:+ quote +:+ ": " +:+ quote +:+ value +:+ quote +:+ trail.

Definition searchMissingPath : string :=
  template "Error: Missing value for required parameter 'path'. Please retry with complete response."
    [(3, "An example of a good tool call is:");
     (3, "{");
     (4, field "tool" "search_files" ",");
     (4, field "path" "path/to/directory" ",");
     (4, field "regex" "pattern" ",");
     (3, "}");
     (3, "Please try again with the correct regex and path, you are not allowed to search files without a regex or path.");
     (3, "")]%nat.

Definition searchMissingRegex : string :=
  template "Error: Missing value for required parameter 'regex'. Please retry with complete response."
    [(3, "{");
     (4, field "tool" "search_files" ",");
     (4, field "regex" "pattern" ",");
     (4, field "path" "path/to/directory" ",");
     (3, "}");
     (3, "Please try again with the correct regex and path, you are not allowed to search files without a regex or path.");
     (3, "")]%nat.

Definition listMissingPath : string :=
  template "Error: Missing value for required parameter 'path'. Please retry with complete response."
    [(3, "an example of a good listCodeDefinitionNames tool call is:");
     (3, "{");
     (4, field "tool" "list_code_definition_names" ",");
     (4, field "path" "path/to/directory" "");
     (3, "}");
     (3, "Please try again with the correct path, you are not allowed to list code definitions without a path.");
     (3, "")]%nat.

Definition userDenied : string := "The user denied this operation.".

Section ToolRunners.

(** [this.cwd] and [this.ts] of [BaseAgentTool]. *)
Variable cwd : string.
Variable toolTs : Z.

(** [path.resolve], and of agent/v1/utils, which is not among the sources,
    [getReadablePath], [formatToolResponse] and [formatGenericToolFeedback]. *)
Variable resolve : string -> string -> string.
Variable getReadablePath : string -> option string -> string.
Variable formatToolResponse : string -> option (list string) -> ToolResponse.
Variable formatGenericToolFeedback : option string -> string.

(** [JSON.stringify(serializeError(error))] *)
Variable stringifyError : Error -> string.

(** [regexSearchFiles(cwd, absolutePath, regex, filePattern)] and
    [parseSourceCodeForDefinitionsTopLevel(absolutePath)]: the text found,
    or what they throw. *)
Variable regexSearchFiles : string -> string -> string -> option string -> Error + string.
Variable parseSourceCodeForDefinitionsTopLevel : string -> Error + string.

Definition searchError (error : Error) : string :=
  template ("Error searching files: " +:+ stringifyError error)
    [(3, "An example of a good searchFiles tool call is:");
     (3, "{");
     (4, field "tool" "search_files" ",");
     (4, field "path" "path/to/directory" ",");
     (4, field "regex" "pattern" ",");
     (3, "}");
     (3, "Please try again with the correct regex and path, you are not allowed to search files without a regex or path.");
     (3, "")]%nat.

(** In the [catch] of the source the calls of [ask] and [updateAsk] are
    covered as well; here only the search can throw. Every error of the
    model has a message, so that the [??] of the error say is never
    taken. *)
Definition SearchFilesTool_execute (input : ToolInput) (answer : option AskResponse)
    : ToolRun :=
  match in_path input with
  | None =>
      (Some (ContentString searchMissingPath),
       [CallSay say_error
          "Claude tried to use search_files without value for required parameter 'path'. Retrying..."])
  | Some relDirPath =>
      match in_regex input with
      | None =>
          (Some (ContentString searchMissingRegex),
           [CallSay say_error
              "Claude tried to use search_files without value for required parameter 'regex'. Retrying..."])
      | Some regex =>
          let filePattern := in_filePattern input in
          let absolutePath := resolve cwd relDirPath in
          match regexSearchFiles cwd absolutePath regex filePattern with
          | inl error =>
              (Some (ContentString (searchError error)),
               [CallSay say_error ("Error searching files:" +:+ newline +:+ errorMessage error)])
          | inr results =>
              let card approval content feedback :=
                mkToolCard "search_files" (getReadablePath relDirPath (Some cwd)) (Some regex)
                  filePattern approval content feedback None toolTs in
              let asked := [CallAsk ask_tool (card st_pending (Some results) None) toolTs] in
              match answer with
              | None => (None, asked)
              | Some r =>
                  if negb (bool_decide (response r = yesButtonTapped)) then
                    let rejected :=
                      asked
                      ++ [CallUpdateAsk ask_tool (card st_rejected (Some results) None) toolTs] in
                    if bool_decide (response r = messageResponse) then
                      (Some (formatToolResponse (formatGenericToolFeedback (r_text r))
                               (r_images r)),
                       rejected
                       ++ [CallUpdateAsk ask_tool (card st_rejected None (r_text r)) toolTs])
                    else (Some (ContentString userDenied), rejected)
                  else
                    (Some (ContentString results),
                     asked
                     ++ [CallUpdateAsk ask_tool (card st_approved (Some results) None) toolTs])
              end
          end
      end
  end.

Definition listError (error : Error) : string :=
  "Error parsing source code definitions: " +:+ stringifyError error.

Definition ListCodeDefinitionNamesTool_execute (input : ToolInput)
    (answer : option AskResponse) : ToolRun :=
  match in_path input with
  | None =>
      (Some (ContentString listMissingPath),
       [CallSay say_error
          "Claude tried to use list_code_definition_names without value for required parameter 'path'. Retrying..."])
  | Some relDirPath =>
      let absolutePath := resolve cwd relDirPath in
      match parseSourceCodeForDefinitionsTopLevel absolutePath with
      | inl error =>
          (Some (ContentString (listError error)),
           [CallUpdateAsk ask_tool
              (mkToolCard "list_code_definition_names" (getReadablePath relDirPath None)
                 None None st_rejected None None (Some (listError error)) toolTs)
              toolTs])
      | inr result =>
          let card approval content feedback :=
            mkToolCard "list_code_definition_names" (getReadablePath relDirPath None) None
              None approval content feedback None toolTs in
          let asked := [CallAsk ask_tool (card st_pending (Some result) None) toolTs] in
          match answer with
          | None => (None, asked)
          | Some r =>
              if negb (bool_decide (response r = yesButtonTapped)) then
                let rejected :=
                  asked
                  ++ [CallUpdateAsk ask_tool (card st_rejected (Some result) None) toolTs] in
                if bool_decide (response r = messageResponse) then
                  (Some (formatToolResponse (formatGenericToolFeedback (r_text r))
                           (r_images r)),
                   rejected
                   ++ [CallUpdateAsk ask_tool (card st_rejected None (r_text r)) toolTs])
                else (Some (ContentString userDenied), rejected)
              else
                (Some (ContentString result),
                 asked
                 ++ [CallUpdateAsk ask_tool (card st_approved (Some result) None) toolTs])
          end
      end
  end.

End ToolRunners.

(** ** Notions on the calls of a runner *)

Definition callCard (c : ToolCall) : option ToolCard :=
  match c with
  | CallSay _ _ => None
  | CallAsk _ card _ | CallUpdateAsk _ card _ => Some card
  end.

Definition isAsk (c : ToolCall) : bool :=
  match c with CallAsk _ _ _ => true | _ => false end.

Definition isSay (c : ToolCall) : bool :=
  match c with CallSay _ _ => true | _ => false end.

(** A call that is well formed for the runner with time stamp [toolTs]: a
    say is an error say; an ask or an update is a tool ask under [toolTs]
    whose card carries [toolTs]; only an ask shows a pending card. *)
Definition wellFormedCall (toolTs : Z) (c : ToolCall) : Prop :=
  match c with
  | CallSay kind _ => kind = say_error
  | CallAsk kind card askTs =>
      kind = ask_tool /\ askTs = toolTs /\ c_ts card = toolTs
      /\ c_approvalState card = st_pending
  | CallUpdateAsk kind card askTs =>
      kind = ask_tool /\ askTs = toolTs /\ c_ts card = toolTs
      /\ (c_approvalState card = st_approved \/ c_approvalState card = st_rejected)
  end.

(** What holds of every run of a runner with time stamp [toolTs]: the calls
    are well formed; there is at most one ask, and it is the first call; a
    run that says something makes no other call; a run that has not
    returned is waiting for the answer to its ask; a run that has returned
    has not left its card pending. *)
Definition orderly (toolTs : Z) (run : ToolRun) (answer : option AskResponse) : Prop :=
  Forall (wellFormedCall toolTs) run.2
  /\ (length (filter (fun c => isAsk c = true) run.2) <= 1)%nat
  /\ (forall c, c ∈ run.2 -> isAsk c = true -> head run.2 = Some c)
  /\ (existsb isSay run.2 = true -> exists c, run.2 = [c])
  /\ (run.1 = None ->
      answer = None /\ exists card, run.2 = [CallAsk ask_tool card toolTs])
  /\ (run.1 <> None ->
      forall c card, last run.2 = Some c -> callCard c = Some card ->
                     c_approvalState card <> st_pending).

(** The run of a runner whose search has returned [found], as the answer
    [r] of the user decides it; [card] builds the runner's card from the
    approval state, the content and the feedback. *)
Definition decidedBy (toolTs : Z)
    (formatToolResponse : string -> option (list string) -> ToolResponse)
    (formatGenericToolFeedback : option string -> string)
    (r : AskResponse) (found : string)
    (card : ApprovalState -> option string -> option string -> ToolCard)
    (run : ToolRun) : Prop :=
  (response r = yesButtonTapped ->
   run = (Some (ContentString found),
          [CallAsk ask_tool (card st_pending (Some found) None) toolTs;
           CallUpdateAsk ask_tool (card st_approved (Some found) None) toolTs]))
  /\ (response r = noButtonTapped ->
      run = (Some (ContentString userDenied),
             [CallAsk ask_tool (card st_pending (Some found) None) toolTs;
              CallUpdateAsk ask_tool (card st_rejected (Some found) None) toolTs]))
  /\ (response r = messageResponse ->
      run = (Some (formatToolResponse (formatGenericToolFeedback (r_text r)) (r_images r)),
             [CallAsk ask_tool (card st_pending (Some found) None) toolTs;
              CallUpdateAsk ask_tool (card st_rejected (Some found) None) toolTs;
              CallUpdateAsk ask_tool (card st_rejected None (r_text r)) toolTs]))
  /\ (run.1 = Some (ContentString found) ->
      response r = yesButtonTapped
      \/ ContentString found = ContentString userDenied
      \/ ContentString found
         = formatToolResponse (formatGenericToolFeedback (r_text r)) (r_images r)).

(** ** Further worlds of the scripted instance *)

Definition failedTool : ChatTool :=
  mkChatTool (Some "search_files") (Some st_error) (Some "No such directory") "lib".

Definition failedToolAsk (id : Z) : ClaudeMessage :=
  askMessage id ask_tool (Some (mkAskDetails None (Some failedTool))).

(** A tool ask is pending, and a later one has already failed. *)
Definition failedAfterPendingWorld : World ScriptedTools :=
  withMessages [sayMessage 1 say_text "list files";
                sayMessage 2 say_api_req_started "request";
                toolAsk 4;
                failedToolAsk 5] toolPendingWorld.

(** The request has been cancelled and nothing has reset the flag. *)
Definition cancelledWorld : World ScriptedTools :=
  withExecutor (mkExecutor ABORTED (Some [TextBlock "list files"]) true
                  newAbortController 0 false false "" None 100 None)
    toolPendingWorld.

(** A request is about to be made, no round has failed, and the API will
    answer with the streams [incoming]. *)
Definition readyWorld (incoming : list Stream) : World ScriptedTools :=
  mkWorld (mkExecutor WAITING_FOR_API (Some [TextBlock "list files"]) false
             newAbortController 0 false false "" None 100 None)
    (stateManager finishingWorld) (askManager finishingWorld) (toolExecutor finishingWorld)
    (mkHost 100 [] incoming []).

(** An abort is in progress. *)
Definition abortingWorld : World ScriptedTools :=
  withExecutor (mkExecutor PROCESSING_RESPONSE (Some [TextBlock "list files"]) false
                  newAbortController 0 true false "" None 100 (Some 3))
    firstRequestWorld.

Definition searchResult : ToolResult := mkToolResult "search_files" (ContentString "src/a.ts").
Definition completionResult : ToolResult :=
  mkToolResult "attempt_completion" (ContentString "All done.").

(** A round that is being finished after the tools of [results] ran. *)
Definition toolsRanWorld (results : list ToolResult) : World ScriptedTools :=
  mkWorld (executor finishingWorld) (stateManager finishingWorld) (askManager finishingWorld)
    (mkScriptedTools [] results []) (host finishingWorld).

(** The variables of the callbacks at the start of the stream of request 2. *)
Definition freshLocals : RoundLocals :=
  mkRoundLocals (assistantTurn 2 interruptedPlaceholder) "".

Definition endOfStream : koduSSEResponse := ChunkEnd (mkInternal (1 # 100) 120 30 7 5).


(** ** A view and an environment for the runners *)

(** A follow-up question is shown in a running task; the user has typed an
    answer and attached a file. *)
Definition typingView : View (Attachment:=string) :=
  mkView (mkChatState "  ship it " false [] 0 (Some ask_followup) true None None false)
    ["notes.txt"] 3 false [] 0.

(** The same view, with no-break and ideographic spaces typed and nothing
    else. *)
Definition blankTypingView : View (Attachment:=string) :=
  mkView (mkChatState (NBSP +:+ ideographicSpace +:+ " ") false [] 0 (Some ask_followup) true
            None None false)
    ["notes.txt"] 3 false [] 0.

Definition joinPath (a b : string) : string := a +:+ "/" +:+ b.
Definition shownPath (rel : string) (cwd : option string) : string := rel.
Definition plainResponse (s : string) (images : option (list string)) : ToolResponse :=
  ContentString s.
Definition feedbackText (t : option string) : string :=
  "The user denied this operation and said: " +:+ default "" t.
Definition foundNothing (cwd absolutePath regex : string) (filePattern : option string)
    : Error + string := inr "Found 0 results.".
Definition foundClass (absolutePath : string) : Error + string := inr "class A".

Definition searchInput : ToolInput := mkToolInput (Some "src") (Some "TODO") None.
Definition typedAnswer : AskResponse :=
  mkAskResponse messageResponse (Some "look in lib instead") None.

(** * Properties *)

(** ** Strings and arrays *)











Lemma stripWhiteSpace_empty : stripWhiteSpace "" = None.
Proof. reflexivity. Qed.








(** White space beyond ASCII goes with the rest; an accented letter stays. *)
Example trim_beyond_ascii :
  trim (NBSP +:+ " " +:+ ideographicSpace +:+ eAcute +:+ " a" +:+ NBSP +:+ ideographicSpace)
  = eAcute +:+ " a"
  /\ isBlank (NBSP +:+ ideographicSpace) = true
  /\ isBlank eAcute = false.
Proof. repeat split. Qed.

(** Bytes and code units: an accented letter is two bytes and one unit, a
    character beyond the basic plane four bytes and two units; twenty-five
    accented letters are fifty bytes, below the threshold of the buffer. *)
Example jsLength_code_units :
  String.length eAcute = 2%nat
  /\ jsLength eAcute = 1%nat
  /\ jsLength grinningFace = 2%nat
  /\ jsLength ("a" +:+ ideographicSpace) = 2%nat
  /\ String.length (joined (replicate 25 eAcute)) = 50%nat
  /\ jsLength (joined (replicate 25 eAcute)) = 25%nat.
Proof. repeat split. Qed.

Lemma findIndex_app_skip {A} (p : A -> bool) l1 x l2 :
  forallb (fun y => negb (p y)) l1 = true -> p x = true ->
  findIndex p (l1 ++ x :: l2) = Some (length l1).
Proof.
  induction l1 as [|y l1 IH]; simpl; intros Hl Hx.
  - now rewrite Hx.
  - apply andb_prop in Hl as [Hy Hl]. apply negb_true_iff in Hy.
    rewrite Hy, (IH Hl Hx). reflexivity.
Qed.

Lemma findIndex_none {A} (p : A -> bool) l :
  forallb (fun y => negb (p y)) l = true -> findIndex p l = None.
Proof.
  induction l as [|y l IH]; simpl; [reflexivity|]; intros Hl.
  apply andb_prop in Hl as [Hy Hl]. apply negb_true_iff in Hy.
  now rewrite Hy, (IH Hl).
Qed.

Lemma updateFirst_app_skip {A} (p : A -> bool) f l1 x l2 :
  forallb (fun y => negb (p y)) l1 = true -> p x = true ->
  updateFirst p f (l1 ++ x :: l2) = l1 ++ f x :: l2.
Proof.
  intros Hl Hx. unfold updateFirst. rewrite (findIndex_app_skip p l1 x l2 Hl Hx).
  clear Hl Hx. induction l1 as [|y l1 IH]; simpl; [reflexivity|]. now f_equal.
Qed.

Lemma updateFirst_none {A} (p : A -> bool) f l :
  forallb (fun y => negb (p y)) l = true -> updateFirst p f l = l.
Proof. intros H. unfold updateFirst. now rewrite (findIndex_none p l H). Qed.

Lemma find_app_skip {A} (p : A -> bool) l1 l2 :
  forallb (fun y => negb (p y)) l1 = true -> List.find p (l1 ++ l2) = List.find p l2.
Proof.
  induction l1 as [|y l1 IH]; simpl; [reflexivity|]; intros Hl.
  apply andb_prop in Hl as [Hy Hl]. apply negb_true_iff in Hy. now rewrite Hy, IH.
Qed.

Lemma forallb_reverse {A} (p : A -> bool) l : forallb p (reverse l) = forallb p l.
Proof.
  induction l as [|y l IH]; [reflexivity|].
  rewrite reverse_cons, forallb_app, IH. simpl. rewrite andb_true_r. apply andb_comm.
Qed.

(** The last element that satisfies [p] is what [findLast] returns. *)
Lemma findLast_split {A} (p : A -> bool) l1 x l2 :
  p x = true -> forallb (fun y => negb (p y)) l2 = true ->
  findLast p (l1 ++ x :: l2) = Some x.
Proof.
  intros Hx Hl. unfold findLast.
  rewrite reverse_app, reverse_cons, <- app_assoc.
  rewrite find_app_skip by now rewrite forallb_reverse.
  simpl. now rewrite Hx.
Qed.

Lemma findLast_none {A} (p : A -> bool) l :
  forallb (fun y => negb (p y)) l = true -> findLast p l = None.
Proof.
  intros Hl. unfold findLast.
  rewrite <- (app_nil_r (reverse l)), find_app_skip by now rewrite forallb_reverse.
  reflexivity.
Qed.

Section Properties.

Context {T : Type} {TE : ToolExecutor T} {KC : KoduErrorCodes}.

Implicit Types (w : World T) (k : M (T:=T) unit).

Local Abbreviation mono := (@mono T _).
Local Abbreviation bumps := (@bumps T _).

(** Unfolding of the monad and of the field updates. *)
Ltac run :=
  unfold when, set_state, set_currentUserContent, set_isRequestCancelled,
    set_abortController, set_consecutiveErrorCount, set_isAborting,
    set_streamPaused, set_textBuffer, set_flushTimeout, set_lastFlushTime,
    set_currentReplyId, cancelledOrAborting, abortSignal, postStateToWebview,
    emit, Date_now, read, gets, modify, bind, ret, throw,
    with_claudeMessages, with_apiConversationHistory in *;
  simpl in *;
  cbn [executor stateManager askManager toolExecutor host] in *.

(** ** The guard of a request round *)

(** C6. [makeClaudeRequest] is a no-op unless the state is exactly
    [WAITING_FOR_API], a pending user content exists, the request is not
    cancelled and no abort is in progress: when one of the four fails, it
    returns and leaves the whole world (executor fields, both histories,
    ask register, tools, clock, streams, log of effects) as it was. *)
Theorem makeClaudeRequest_noop_unless_ready (fuel : nat) w :
  state (executor w) <> WAITING_FOR_API
  \/ currentUserContent (executor w) = None
  \/ isRequestCancelled (executor w) = true
  \/ isAborting (executor w) = true ->
  makeClaudeRequest fuel w = (Ok tt, w).
Proof.
  intros H.
  assert (G : requestGuard w = false).
  { unfold requestGuard.
    destruct H as [H | [H | [H | H]]].
    - rewrite (bool_decide_eq_false_2 _ H). reflexivity.
    - rewrite H. rewrite andb_false_r. reflexivity.
    - rewrite H. simpl. rewrite andb_false_r. reflexivity.
    - rewrite H. simpl. rewrite andb_false_r. reflexivity. }
  destruct fuel; simpl; unfold makeClaudeRequest_round, try_catch; run;
    rewrite G; reflexivity.
Qed.

(** ** Answers to asks *)

Lemma Forall_forallb_negb {A} (p : A -> bool) (l : list A) :
  Forall (fun x => p x = false) l -> forallb (fun y => negb (p y)) l = true.
Proof.
  induction 1 as [|x l Hx _ IH]; simpl; [reflexivity|]. now rewrite Hx, IH.
Qed.

Lemma isAskMessage_true m : type m = type_ask -> isAskMessage m = true.
Proof. intros H. unfold isAskMessage. now apply bool_decide_eq_true_2. Qed.

Lemma isAskMessage_false m : type m <> type_ask -> isAskMessage m = false.
Proof. intros H. unfold isAskMessage. now apply bool_decide_eq_false_2. Qed.

(** What resolving does: a pending registration is removed and its answer
    delivered; without registration nothing changes. *)
Lemma handleResponse_pending id r kind w :
  pendingAsks (askManager w) !! id = Some kind ->
  handleResponse id r w =
    (Ok tt, with_askManager (fun a =>
       mkAskManager (delete id (pendingAsks a)) (delivered a ++ [(id, r)])) w).
Proof.
  intros H. destruct w as [ex sm am tl hs]. simpl in *.
  unfold handleResponse, modify, with_askManager. now rewrite H.
Qed.

Lemma handleResponse_unknown id r w :
  pendingAsks (askManager w) !! id = None -> handleResponse id r w = (Ok tt, w).
Proof.
  intros H. destruct w as [ex sm am tl hs]. simpl in *.
  unfold handleResponse, modify, with_askManager. now rewrite H.
Qed.

(** C10. [handleAskResponse] takes no identity from its caller: whatever
    the stored messages, the ask it resolves is the one registered under the
    timestamp of the most recent message of type ask; when no message of
    type ask is stored, the call changes nothing. *)
Theorem handleAskResponse_resolves_most_recent_ask
    (r : ClaudeAskResponse) (text : option string) (images : option (list string)) w :
  (forall l1 m l2,
      claudeMessages (stateManager w) = l1 ++ m :: l2 ->
      type m = type_ask ->
      Forall (fun x => type x <> type_ask) l2 ->
      handleAskResponse r text images w
      = handleResponse (ts m) (mkAskResponse r text images) w)
  /\ (Forall (fun x => type x <> type_ask) (claudeMessages (stateManager w)) ->
      handleAskResponse r text images w = (Ok tt, w)).
Proof.
  split.
  - intros l1 m l2 Hsplit Hm Hl2.
    unfold handleAskResponse. run. rewrite Hsplit.
    rewrite (findLast_split isAskMessage l1 m l2); [reflexivity| |].
    + now apply isAskMessage_true.
    + apply Forall_forallb_negb. eapply Forall_impl; [exact Hl2|].
      intros x Hx. now apply isAskMessage_false.
  - intros Hall. unfold handleAskResponse. run.
    rewrite findLast_none; [reflexivity|].
    apply Forall_forallb_negb. eapply Forall_impl; [exact Hall|].
    intros x Hx. now apply isAskMessage_false.
Qed.

(** ** Abort *)

(** C9. When the displayed history holds exactly two messages,
    [cancelCurrentRequest] returns at once, and so the abort sets neither
    the request-cancelled flag nor the state [ABORTED], rewrites no history
    entry and issues no resume ask. *)
Theorem abortTask_first_message_untouched w :
  length (claudeMessages (stateManager w)) = 2%nat ->
  cancelCurrentRequest w = (Ok tt, w)
  /\ exists w',
       abortTask w = (Ok tt, w')
       /\ (isRequestCancelled (executor w') = true -> isRequestCancelled (executor w) = true)
       /\ (state (executor w') = ABORTED -> state (executor w) = ABORTED)
       /\ claudeMessages (stateManager w') = claudeMessages (stateManager w)
       /\ pendingAsks (askManager w') = pendingAsks (askManager w)
       /\ (forall id kind, EvAsk id kind ∈ trace (host w') -> EvAsk id kind ∈ trace (host w)).
Proof.
  intros Hlen.
  assert (Hc : forall w0, claudeMessages (stateManager w0) = claudeMessages (stateManager w) ->
                          cancelCurrentRequest w0 = (Ok tt, w0)).
  { intros w0 E. unfold cancelCurrentRequest. run.
    destruct (isRequestCancelled (executor w0)); [reflexivity|].
    rewrite E, Hlen. reflexivity. }
  split; [now apply Hc|].
  destruct w as [ex sm am tl hs].
  unfold abortTask, try_finally. run.
  destruct (isAborting ex) eqn:Ha.
  - eexists. repeat split; auto.
  - rewrite Hc by reflexivity. unfold tool_abortTask, resetState. run.
    destruct (flushTimeout ex); simpl;
      (eexists; split; [reflexivity|]; simpl;
       repeat split; try discriminate;
       intros id kind Hin;
       apply elem_of_app in Hin as [Hin|Hin]; auto;
       apply list_elem_of_singleton in Hin; discriminate).
Qed.

(** ** The end of a round *)

(** C5. A round that finishes without any tool result hands on, as the
    next round's pending user content, exactly the fixed instruction that a
    tool must be used, sets the state to [WAITING_FOR_API] and starts a new
    request round: [makeClaudeRequest] is entered in a world that passes its
    guard. *)
Theorem finishProcessingResponse_without_tool_results (a : ApiHistoryItem) w :
  isRequestCancelled (executor w) = false ->
  isAborting (executor w) = false ->
  getToolResults (toolExecutor w) = [] ->
  exists w1,
    state (executor w1) = WAITING_FOR_API
    /\ currentUserContent (executor w1) = Some [TextBlock mustUseTool]
    /\ requestGuard w1 = true
    /\ forall k, finishProcessingResponse k a w = k w1.
Proof.
  intros Hc Ha Hr. destruct w as [ex sm am tl hs]. simpl in *.
  unfold finishProcessingResponse, tool_getToolResults, updateApiHistoryItem, requestGuard.
  run. rewrite Hc, Ha. simpl.
  destruct (emptyContent (content a));
    [destruct (h_ts a) as [id|]; [destruct (negb (Z.eqb id 0))|]|];
    simpl; rewrite Hr; simpl;
    (eexists; split; [|split; [|split; [|intros k; reflexivity]]]; simpl;
     rewrite ?Hc, ?Ha; reflexivity).
Qed.

(** ** API errors *)

Ltac history_cases sm :=
  destruct (last (apiConversationHistory sm)) as [lastItem|];
  [ destruct (bool_decide (role lastItem = assistant) && truthyId (h_ts lastItem));
    [ destruct (h_ts lastItem) | ] | ];
  simpl.

(** C3, as the code has it. After an [UNAUTHORIZED] or [PAYMENT_REQUIRED]
    error the handler shows a terminal notice, sets the state to [IDLE] and
    returns: no ask is registered and [makeClaudeRequest] is not entered.
    After any other error it asks whether to retry; on the answer
    [yesButtonTapped] or [messageResponse] it re-enters [makeClaudeRequest]
    in state [WAITING_FOR_API], on [noButtonTapped] it sets the state to
    [COMPLETED] and returns. *)
Theorem handleApiError_fatal_or_retry (e : TaskError) w :
  (e_type e = UNAUTHORIZED \/ e_type e = PAYMENT_REQUIRED ->
   exists w1 id,
     (forall k, handleApiError k e w = (Ok tt, w1))
     /\ state (executor w1) = IDLE
     /\ trace (host w1) = trace (host w) ++ [EvSay id (terminalNotice (e_type e))]
     /\ claudeMessages (stateManager w1)
        = claudeMessages (stateManager w)
          ++ [mkClaudeMessage id type_say None (Some (terminalNotice (e_type e)))
                (Some (Plain (e_message e))) (Some 1%nat) false false false None None false]
     /\ pendingAsks (askManager w1) = pendingAsks (askManager w))
  /\ (e_type e <> UNAUTHORIZED -> e_type e <> PAYMENT_REQUIRED ->
      forall r rest, responses (host w) = r :: rest ->
      exists w1 id,
        (response r = yesButtonTapped \/ response r = messageResponse ->
         (forall k, handleApiError k e w = k w1)
         /\ state (executor w1) = WAITING_FOR_API)
        /\ (response r = noButtonTapped ->
            (forall k, handleApiError k e w = (Ok tt, w1))
            /\ state (executor w1) = COMPLETED)
        /\ trace (host w1)
           = trace (host w) ++ [EvAsk id ask_api_req_failed]
             ++ (if isRetry (response r) then [EvSay (id + 1) say_api_req_retried] else [])).
Proof.
  destruct e as [ty msg]. destruct w as [ex sm am tl hs]. simpl. split.
  - intros Hty.
    assert (Hf : isFatal ty = true) by (destruct Hty; subst; reflexivity).
    unfold handleApiError, tool_resetToolState, updateApiHistoryItem, say, addToClaudeMessages.
    run. rewrite Hf.
    history_cases sm;
      (eexists; eexists; split; [intros k; reflexivity|]; simpl;
       repeat split; rewrite <- ?app_assoc; reflexivity).
  - intros H1 H2 r rest Hresp.
    assert (Hf : isFatal ty = false) by (destruct ty; try reflexivity; congruence).
    unfold handleApiError, tool_resetToolState, updateApiHistoryItem, say, addToClaudeMessages,
      ask, AskManager_ask, ask_register, ask_await, handleResponse, addToClaudeMessages.
    run. rewrite Hf.
    history_cases sm; rewrite Hresp; simpl; rewrite lookup_insert_eq; simpl;
      (destruct (response r) eqn:Er; simpl;
       eexists; eexists;
       (split;
        [ intros Hyes;
          first [ destruct Hyes; discriminate | split; [intros k|]; reflexivity ]
        | split;
          [ intros Hno;
            first [ discriminate | split; [intros k|]; reflexivity ]
          | simpl; rewrite <- ?app_assoc; reflexivity ] ])).
Qed.

(** ** Entry points *)

Lemma normalizeUserContent_empty c :
  emptyInput c -> normalizeUserContent c = [TextBlock continuationPrompt].
Proof.
  intros [-> | (t & rest & -> & Ht)]; [reflexivity|].
  simpl. unfold isBlank. now rewrite Ht.
Qed.

(** C8, as the code has it. Called with empty input while no abort is in
    progress, [startTask], and [resumeTask] when the state is
    [WAITING_FOR_USER], set the pending user content to the canonical
    continuation prompt and the state to [WAITING_FOR_API], and then begin
    the request round. *)
Theorem startTask_resumeTask_normalize_empty_input (c : UserContent) w :
  emptyInput c ->
  isAborting (executor w) = false ->
  (exists w1,
      (forall k, startTask k c w = k w1)
      /\ state (executor w1) = WAITING_FOR_API
      /\ currentUserContent (executor w1) = Some [TextBlock continuationPrompt])
  /\ (state (executor w) = WAITING_FOR_USER ->
      exists w1,
        (forall k, resumeTask k c w = k w1)
        /\ state (executor w1) = WAITING_FOR_API
        /\ currentUserContent (executor w1) = Some [TextBlock continuationPrompt]).
Proof.
  intros Hc Ha. destruct w as [ex sm am tl hs]. simpl in *.
  unfold startTask, resumeTask. run. rewrite Ha, (normalizeUserContent_empty c Hc).
  split.
  - eexists. split; [intros k; reflexivity|]. split; reflexivity.
  - intros Hs. cbn [executor]. rewrite Hs. simpl.
    eexists. split; [intros k; reflexivity|]. split; reflexivity.
Qed.

(** What [newMessage] does with empty input: the content is stored as it
    came; an empty list then fails on [message[0].type], a blank first text
    block goes into the round unchanged. *)
Remark newMessage_keeps_empty_input w :
  isAborting (executor w) = false ->
  (exists w1 e,
      (forall k, newMessage k [] w = (Throw e, w1))
      /\ currentUserContent (executor w1) = Some [])
  /\ (forall t, exists w1,
        (forall k, newMessage k [TextBlock t] w = k w1)
        /\ currentUserContent (executor w1) = Some [TextBlock t]).
Proof.
  intros Ha. destruct w as [ex sm am tl hs]. simpl in *.
  unfold newMessage, say, addToClaudeMessages. run. rewrite Ha. split.
  - eexists. eexists. split; [intros k; reflexivity|]. reflexivity.
  - intros t. eexists. split; [intros k; reflexivity|]. reflexivity.
Qed.

(** A first text block of no-break and ideographic spaces is blank. *)
Example normalizeUserContent_beyond_ascii :
  emptyInput [TextBlock (NBSP +:+ ideographicSpace)]
  /\ normalizeUserContent [TextBlock (NBSP +:+ ideographicSpace)]
     = [TextBlock continuationPrompt]
  /\ normalizeUserContent [TextBlock eAcute] = [TextBlock eAcute].
Proof.
  split; [right; eexists; eexists; split; reflexivity|]. split; reflexivity.
Qed.

(** ** The text buffer *)

(** C7, as the code has it. Whatever the size of the buffer and the time
    since the last flush, a forced flush of a buffer that holds more than
    white space, to a reply identity that is not zero and names a stored
    entry, empties the buffer and appends exactly the buffered text to that
    entry: to a reply, whose text is plain, the buffered text is
    concatenated. A flush of a buffer that holds only white space, forced
    or not and whatever the reply identity, returns without changing
    anything. *)
Theorem flushTextBuffer_forced (id : Z) w (l1 l2 : list ClaudeMessage) (m : ClaudeMessage) :
  (trim (textBuffer (executor w)) <> "" ->
   id <> 0 ->
   claudeMessages (stateManager w) = l1 ++ m :: l2 ->
   Forall (fun x => ts x <> id) l1 ->
   ts m = id ->
   exists w',
     flushTextBuffer (Some id) true w = (Ok tt, w')
     /\ textBuffer (executor w') = ""
     /\ claudeMessages (stateManager w')
        = l1 ++ msg_set_text (Some (appendText (text m) (textBuffer (executor w)))) m :: l2
     /\ (forall s, text m = Some (Plain s) ->
         appendText (text m) (textBuffer (executor w)) = Plain (s +:+ textBuffer (executor w)))
     /\ apiConversationHistory (stateManager w') = apiConversationHistory (stateManager w))
  /\ (trim (textBuffer (executor w)) = "" ->
      forall replyId force, flushTextBuffer replyId force w = (Ok tt, w)).
Proof.
  split.
  - intros Hbuf Hid Hmsgs Hl1 Hm.
    destruct w as [ex [msgs hist] am tl hs]. simpl in *. subst msgs.
    assert (Hb : isBlank (textBuffer ex) = false).
    { unfold isBlank. destruct (trim (textBuffer ex)); [contradiction|reflexivity]. }
    assert (Hz : Z.eqb id 0 = false) by now apply Z.eqb_neq.
    assert (Hskip : forallb (fun y => negb (hasTs id y)) l1 = true).
    { apply Forall_forallb_negb. eapply Forall_impl; [exact Hl1|].
      intros x Hx. now apply bool_decide_eq_false_2. }
    assert (Hhit : hasTs id m = true) by now apply bool_decide_eq_true_2.
    unfold flushTextBuffer, appendToClaudeMessage. run. rewrite Hb, Hz. simpl.
    destruct (flushTimeout ex); simpl;
      rewrite (updateFirst_app_skip _ _ l1 m l2 Hskip Hhit);
      (eexists; split; [reflexivity|]; simpl; repeat split;
       intros s Hs; now rewrite Hs).
  - intros Hbuf replyId force. destruct w as [ex sm am tl hs]. simpl in Hbuf.
    unfold flushTextBuffer, isBlank. run. now rewrite Hbuf.
Qed.

(** ** Cancellation *)

(** In a history whose timestamps are distinct, the entry found under an
    entry's timestamp is that entry. *)
Lemma findIndex_hasTs (l : list ClaudeMessage) (i : nat) (x : ClaudeMessage) :
  NoDup (ts <$> l) -> l !! i = Some x -> findIndex (hasTs (ts x)) l = Some i.
Proof.
  revert i. induction l as [|y l IH]; intros i Hnd Hi; [discriminate|].
  rewrite fmap_cons in Hnd. apply NoDup_cons in Hnd as [Hy Hnd].
  destruct i as [|i]; simpl in *.
  - injection Hi as ->. unfold hasTs. now rewrite bool_decide_eq_true_2.
  - assert (Hne : ts y <> ts x).
    { intros E. apply Hy. rewrite E. apply list_elem_of_fmap_2.
      eapply list_elem_of_lookup_2; eauto. }
    unfold hasTs at 1. rewrite bool_decide_eq_false_2 by exact Hne.
    now rewrite (IH i Hnd Hi).
Qed.

Lemma alter_at {A} (f : A -> A) (l : list A) (i : nat) (x : A) :
  l !! i = Some x -> alter f i l = <[i := f x]> l.
Proof.
  revert i. induction l as [|y l IH]; intros [|i] Hi; simpl in *; try discriminate.
  - now injection Hi as ->.
  - f_equal. now apply IH.
Qed.

Lemma updateFirst_hasTs (l : list ClaudeMessage) (i : nat) (x : ClaudeMessage) f :
  NoDup (ts <$> l) -> l !! i = Some x -> updateFirst (hasTs (ts x)) f l = <[i := f x]> l.
Proof.
  intros Hnd Hi. unfold updateFirst. rewrite (findIndex_hasTs l i x Hnd Hi).
  now apply alter_at.
Qed.

Lemma find_hasTs (l : list ClaudeMessage) (i : nat) (x : ClaudeMessage) :
  NoDup (ts <$> l) -> l !! i = Some x -> List.find (hasTs (ts x)) l = Some x.
Proof.
  revert i. induction l as [|y l IH]; intros i Hnd Hi; [discriminate|].
  rewrite fmap_cons in Hnd. apply NoDup_cons in Hnd as [Hy Hnd].
  destruct i as [|i]; simpl in *.
  - injection Hi as ->. unfold hasTs. now rewrite bool_decide_eq_true_2.
  - assert (Hne : ts y <> ts x).
    { intros E. apply Hy. rewrite E. apply list_elem_of_fmap_2.
      eapply list_elem_of_lookup_2; eauto. }
    unfold hasTs at 1. rewrite bool_decide_eq_false_2 by exact Hne.
    now apply (IH i).
Qed.

Lemma findLast_elem {A} (p : A -> bool) (l : list A) (x : A) :
  findLast p l = Some x -> p x = true /\ exists j, l !! j = Some x.
Proof.
  unfold findLast. intros H. apply find_some in H as [Hin Hp]. split; [exact Hp|].
  apply list_elem_of_lookup_1, elem_of_reverse, list_elem_of_In, Hin.
Qed.

Lemma findToolRequest_skip (l rest : list ClaudeMessage) :
  forallb (fun y => negb (isToolRequest y)) l = true ->
  findToolRequest (l ++ rest) = findToolRequest rest.
Proof.
  induction l as [|y l IH]; simpl; [reflexivity|]; intros Hl.
  apply andb_prop in Hl as [Hy Hl]. unfold isToolRequest in Hy.
  apply negb_true_iff, andb_false_iff in Hy.
  destruct Hy as [-> | ->]; simpl; rewrite ?orb_true_r; now apply IH.
Qed.

Lemma findToolRequest_most_recent (l1 l2 : list ClaudeMessage) (m : ClaudeMessage)
    (parsedTool : ChatTool) :
  isToolRequest m = true ->
  parseChatTool (text m) = Some parsedTool ->
  approvalState parsedTool <> Some st_error ->
  Forall (fun x => isToolRequest x = false) l2 ->
  findToolRequest (reverse (l1 ++ m :: l2)) = inr (Some m).
Proof.
  intros Hm Hp He Hl2.
  rewrite reverse_app, reverse_cons, <- app_assoc.
  rewrite findToolRequest_skip.
  - simpl. unfold isToolRequest in Hm. apply andb_prop in Hm as [-> ->]. simpl.
    rewrite Hp. now rewrite bool_decide_eq_false_2.
  - rewrite forallb_reverse. now apply Forall_forallb_negb.
Qed.

Lemma ts_insert_same (msgs : list ClaudeMessage) (i : nat) (m m' : ClaudeMessage) :
  msgs !! i = Some m -> ts m' = ts m -> ts <$> <[i := m']> msgs = ts <$> msgs.
Proof.
  intros Hi Ht. rewrite list_fmap_insert, Ht. apply list_insert_id.
  now rewrite list_lookup_fmap, Hi.
Qed.

Lemma cancelledMessages_tool msgs i m parsedTool now :
  NoDup (ts <$> msgs) ->
  msgs !! i = Some m ->
  type m = type_ask ->
  cancelledMessages msgs i m parsedTool now !! i = Some (interruptedAsk m parsedTool).
Proof.
  intros Hnd Hi Hty. unfold cancelledMessages.
  assert (Hlt : (i < length msgs)%nat) by (eapply lookup_lt_Some; eauto).
  assert (H1 : <[i := interruptedAsk m parsedTool]> msgs !! i = Some (interruptedAsk m parsedTool))
    by now apply list_lookup_insert_eq.
  destruct (findLast isApiReqStarted msgs) as [r|] eqn:Hr.
  2: { rewrite lookup_app_l by now rewrite length_insert. exact H1. }
  destruct (isV1ClaudeMessage r && negb (isDone r)).
  2: { rewrite lookup_app_l by now rewrite length_insert. exact H1. }
  apply findLast_elem in Hr as [Hp [j Hj]].
  assert (Hij : i <> j).
  { intros ->. rewrite Hi in Hj. injection Hj as ->.
    unfold isApiReqStarted in Hp. apply andb_prop in Hp as [Hp _].
    apply bool_decide_eq_true_1 in Hp. congruence. }
  rewrite (updateFirst_hasTs _ j r).
  - rewrite lookup_app_l by now rewrite !length_insert.
    rewrite list_lookup_insert_ne by congruence. exact H1.
  - now rewrite (ts_insert_same msgs i m).
  - now rewrite list_lookup_insert_ne.
Qed.

Lemma cancelledMessages_request msgs i m parsedTool now la r lb :
  NoDup (ts <$> msgs) ->
  msgs !! i = Some m ->
  type m = type_ask ->
  msgs = la ++ r :: lb ->
  isApiReqStarted r = true ->
  Forall (fun x => isApiReqStarted x = false) lb ->
  isV1ClaudeMessage r = true ->
  isDone r = false ->
  cancelledMessages msgs i m parsedTool now !! length la = Some (cancelRequest r).
Proof.
  intros Hnd Hi Hty Hsplit Hp Hlb Hv Hd. unfold cancelledMessages.
  assert (Hj : msgs !! length la = Some r).
  { rewrite Hsplit. now rewrite list_lookup_middle. }
  assert (Hr : findLast isApiReqStarted msgs = Some r).
  { rewrite Hsplit. apply findLast_split; [exact Hp|]. now apply Forall_forallb_negb. }
  rewrite Hr, Hv, Hd. simpl.
  assert (Hij : i <> length la).
  { intros ->. rewrite Hi in Hj. injection Hj as ->.
    unfold isApiReqStarted in Hp. apply andb_prop in Hp as [Hp _].
    apply bool_decide_eq_true_1 in Hp. congruence. }
  assert (Hlt : (length la < length msgs)%nat) by (eapply lookup_lt_Some; eauto).
  rewrite (updateFirst_hasTs _ (length la) r).
  - rewrite lookup_app_l by now rewrite !length_insert.
    apply list_lookup_insert_eq. now rewrite length_insert.
  - now rewrite (ts_insert_same msgs i m).
  - now rewrite list_lookup_insert_ne.
Qed.

Lemma cancelCurrentRequest_interrupts w (l1 l2 : list ClaudeMessage) (m : ClaudeMessage)
    (parsedTool : ChatTool) :
  isRequestCancelled (executor w) = false ->
  length (claudeMessages (stateManager w)) <> 2%nat ->
  NoDup (ts <$> claudeMessages (stateManager w)) ->
  claudeMessages (stateManager w) = l1 ++ m :: l2 ->
  isToolRequest m = true ->
  Forall (fun x => isToolRequest x = false) l2 ->
  parseChatTool (text m) = Some parsedTool ->
  approvalState parsedTool <> Some st_approved ->
  approvalState parsedTool <> Some st_error ->
  exists w1,
    cancelCurrentRequest w = (Ok tt, w1)
    /\ claudeMessages (stateManager w1)
       = cancelledMessages (claudeMessages (stateManager w)) (length l1) m parsedTool
           (clock (host w))
    /\ toolExecutor w1 = toolExecutor w
    /\ isAborting (executor w1) = isAborting (executor w).
Proof.
  intros Hc Hlen Hnd Hsplit Hm Hl2 Hp Happ Herr.
  destruct w as [ex [msgs hist] am tl hs]. simpl in *.
  assert (Hi : msgs !! length l1 = Some m) by (rewrite Hsplit; apply list_lookup_middle; reflexivity).
  assert (Hfind : findToolRequest (reverse msgs) = inr (Some m)).
  { rewrite Hsplit. eapply findToolRequest_most_recent; eauto. }
  assert (Hask : m_ask m = Some ask_tool).
  { unfold isToolRequest in Hm. apply andb_prop in Hm as [_ Hm].
    now apply bool_decide_eq_true_1 in Hm. }
  unfold cancelCurrentRequest, updateAsk, getMessageById, updateClaudeMessage,
    ask_register, addToClaudeMessages.
  run. rewrite Hc. simpl.
  rewrite (proj2 (Nat.eqb_neq _ _) Hlen). simpl.
  rewrite Hfind, Hp, Hask. simpl.
  rewrite (bool_decide_eq_false_2 _ Happ). simpl.
  rewrite (find_hasTs msgs (length l1) m Hnd Hi). simpl.
  rewrite (updateFirst_hasTs msgs (length l1) m _ Hnd Hi).
  unfold cancelledMessages, interruptedAsk.
  destruct (findLast isApiReqStarted msgs) as [r|]; simpl;
    [destruct (isV1ClaudeMessage r && negb (isDone r)); simpl|];
    (eexists; split; [reflexivity|]; simpl; repeat split).
Qed.

Lemma abortTask_after_cancel w w1 :
  isAborting (executor w) = false ->
  cancelCurrentRequest (aborting w) = (Ok tt, w1) ->
  exists w',
    abortTask w = (Ok tt, w')
    /\ claudeMessages (stateManager w') = claudeMessages (stateManager w1)
    /\ state (executor w') = WAITING_FOR_USER
    /\ isAborting (executor w') = false.
Proof.
  intros Ha Hrun. destruct w as [ex sm am tl hs]. unfold aborting in Hrun. simpl in *.
  unfold abortTask, try_finally. run. rewrite Ha. simpl. rewrite Hrun.
  destruct w1 as [ex1 sm1 am1 tl1 hs1].
  unfold tool_abortTask, resetState. run.
  destruct (flushTimeout ex1); simpl; (eexists; split; [reflexivity|]; repeat split).
Qed.

(** C1, as the code has it. Let the abort run: no abort is already in
    progress, the request is not already cancelled, and the displayed
    history does not hold exactly two messages. If, in a history with
    distinct timestamps, the most recent tool-approval entry has an approval
    state that is neither approved nor error, then after [abortTask] that
    entry's approval state is error with the non-empty message that the task
    was interrupted; and the most recent request-started entry, when it is
    a version-1 entry that is not yet done, is marked done with the error
    flag and the error text "Request cancelled by user". *)
Theorem abortTask_interrupts_pending_tool w (l1 l2 : list ClaudeMessage)
    (m : ClaudeMessage) (parsedTool : ChatTool) :
  isAborting (executor w) = false ->
  isRequestCancelled (executor w) = false ->
  length (claudeMessages (stateManager w)) <> 2%nat ->
  NoDup (ts <$> claudeMessages (stateManager w)) ->
  claudeMessages (stateManager w) = l1 ++ m :: l2 ->
  type m = type_ask ->
  isToolRequest m = true ->
  Forall (fun x => isToolRequest x = false) l2 ->
  parseChatTool (text m) = Some parsedTool ->
  approvalState parsedTool <> Some st_approved ->
  approvalState parsedTool <> Some st_error ->
  exists w' m' tool',
    abortTask w = (Ok tt, w')
    /\ claudeMessages (stateManager w') !! length l1 = Some m'
    /\ ts m' = ts m
    /\ m_ask m' = Some ask_tool
    /\ parseChatTool (text m') = Some tool'
    /\ approvalState tool' = Some st_error
    /\ error tool' = Some toolInterrupted
    /\ toolInterrupted <> ""
    /\ forall la r lb,
         claudeMessages (stateManager w) = la ++ r :: lb ->
         isApiReqStarted r = true ->
         Forall (fun x => isApiReqStarted x = false) lb ->
         isV1ClaudeMessage r = true ->
         isDone r = false ->
         exists r',
           claudeMessages (stateManager w') !! length la = Some r'
           /\ ts r' = ts r
           /\ isDone r' = true
           /\ isError r' = true
           /\ errorText r' = Some "Request cancelled by user".
Proof.
  intros Ha Hc Hlen Hnd Hsplit Hty Hm Hl2 Hp Happ Herr.
  assert (Hi : claudeMessages (stateManager w) !! length l1 = Some m)
    by (rewrite Hsplit; apply list_lookup_middle; reflexivity).
  assert (Hsame : claudeMessages (stateManager (aborting w)) = claudeMessages (stateManager w))
    by now destruct w.
  destruct (cancelCurrentRequest_interrupts (aborting w) l1 l2 m parsedTool)
    as (w1 & Hrun & Hmsgs & _ & _); rewrite ?Hsame; auto.
  { now destruct w. }
  rewrite Hsame in Hmsgs.
  destruct (abortTask_after_cancel w w1 Ha Hrun) as (w' & Habort & Hmsgs' & _ & _).
  exists w', (interruptedAsk m parsedTool), (interruptTool parsedTool).
  rewrite Hmsgs', Hmsgs.
  split; [exact Habort|].
  split; [now apply cancelledMessages_tool|].
  do 5 (split; [reflexivity|]).
  split; [discriminate|].
  intros la r lb Hla Hr Hlb Hv Hd.
  exists (cancelRequest r).
  split; [eapply cancelledMessages_request; eauto|].
  repeat split.
Qed.

(** ** The assistant entry of a round *)

Lemma updateFirst_lookup_fixed {A} (p : A -> bool) (f : A -> A) (l : list A) (i : nat) (x : A) :
  l !! i = Some x -> f x = x -> updateFirst p f l !! i = Some x.
Proof.
  intros Hi Hf. unfold updateFirst. destruct (findIndex p l) as [j|]; [|exact Hi].
  destruct (decide (j = i)) as [->|Hne].
  - rewrite list_lookup_alter_eq, Hi. simpl. now rewrite Hf.
  - now rewrite list_lookup_alter_ne.
Qed.


Lemma failedToGenerate_not_blank : trim failedToGenerate <> "".
Proof. vm_compute. discriminate. Qed.

Lemma errorInGeneration_not_blank : trim errorInGeneration <> "".
Proof. vm_compute. discriminate. Qed.

(** ** What no method undoes

    Between two worlds of a run the log of visible effects only grows and
    the count of consecutive errors does not fall: the methods of a round
    never reset it. *)

Lemma keeps_refl w : keeps w w.
Proof. split; [exists []; now rewrite app_nil_r | lia]. Qed.

Lemma keeps_trans w1 w2 w3 : keeps w1 w2 -> keeps w2 w3 -> keeps w1 w3.
Proof.
  intros [[l1 H1] C1] [[l2 H2] C2]. split; [|lia].
  exists (l1 ++ l2). now rewrite H2, H1, app_assoc.
Qed.

Lemma mono_ret {A} (a : A) : mono (ret a).
Proof. intros w. apply keeps_refl. Qed.

Lemma mono_throw {A} (e : Error) : mono (throw (A:=A) e).
Proof. intros w. apply keeps_refl. Qed.

Lemma mono_suspended {A} : mono (suspended (A:=A)).
Proof. intros w. apply keeps_refl. Qed.

Lemma mono_outOfFuel {A} : mono (outOfFuel (A:=A)).
Proof. intros w. apply keeps_refl. Qed.

Lemma mono_bind {A B} (m : M A) (f : A -> M B) :
  mono m -> (forall a, mono (f a)) -> mono (bind m f).
Proof.
  intros Hm Hf w. unfold bind. specialize (Hm w).
  destruct (m w) as [[a|e| |] w1]; simpl in *; try exact Hm.
  eapply keeps_trans; [exact Hm | apply Hf].
Qed.

Lemma mono_try_catch {A} (m : M A) (h : Error -> M A) :
  mono m -> (forall e, mono (h e)) -> mono (try_catch m h).
Proof.
  intros Hm Hh w. unfold try_catch. specialize (Hm w).
  destruct (m w) as [[a|e| |] w1]; simpl in *; try exact Hm.
  eapply keeps_trans; [exact Hm | apply Hh].
Qed.

Lemma mono_read {A} (f : Executor -> A) : mono (read f).
Proof. intros w. apply keeps_refl. Qed.

Lemma mono_gets {A} (f : World T -> A) : mono (gets f).
Proof. intros w. apply keeps_refl. Qed.

Lemma mono_modify (f : World T -> World T) : (forall w, keeps w (f w)) -> mono (modify f).
Proof. intros H w. apply H. Qed.

Ltac frame :=
  first [apply mono_modify | idtac];
  intros [ex sm am tl hs]; split; simpl;
  [ first [ exists []; now rewrite app_nil_r | eexists; reflexivity ] | lia ].

Lemma mono_set_state x : mono (set_state x).
Proof. frame. Qed.
Lemma mono_set_currentUserContent x : mono (set_currentUserContent x).
Proof. frame. Qed.
Lemma mono_set_isRequestCancelled x : mono (set_isRequestCancelled x).
Proof. frame. Qed.
Lemma mono_set_abortController x : mono (set_abortController x).
Proof. frame. Qed.
Lemma mono_set_streamPaused x : mono (set_streamPaused x).
Proof. frame. Qed.
Lemma mono_set_textBuffer x : mono (set_textBuffer x).
Proof. frame. Qed.
Lemma mono_set_flushTimeout x : mono (set_flushTimeout x).
Proof. frame. Qed.
Lemma mono_set_lastFlushTime x : mono (set_lastFlushTime x).
Proof. frame. Qed.
Lemma mono_set_currentReplyId x : mono (set_currentReplyId x).
Proof. frame. Qed.
Lemma mono_abortSignal : mono abortSignal.
Proof. frame. Qed.
Lemma mono_Date_now : mono Date_now.
Proof. frame. Qed.
Lemma mono_emit e : mono (emit e).
Proof. frame. Qed.
Lemma mono_createApiStreamRequest : mono createApiStreamRequest.
Proof. frame. Qed.
Lemma mono_with_claudeMessages f : mono (modify (with_claudeMessages f)).
Proof. frame. Qed.
Lemma mono_with_apiConversationHistory f : mono (modify (with_apiConversationHistory f)).
Proof. frame. Qed.
Lemma mono_with_askManager f : mono (modify (with_askManager f)).
Proof. frame. Qed.
Lemma mono_with_toolExecutor f : mono (modify (with_toolExecutor f)).
Proof. frame. Qed.

Lemma mono_tool_processToolUse s0 : mono (tool_processToolUse s0).
Proof.
  intros [ex sm am tl hs]. unfold tool_processToolUse. simpl.
  destruct (processToolUse s0 tl).
  split; simpl; [exists []; now rewrite app_nil_r | lia].
Qed.

(** The one write to the counter in a round adds one to it. *)
Lemma mono_count_error {A} (rest : M A) :
  mono rest ->
  mono (bind (read consecutiveErrorCount)
          (fun n => bind (set_consecutiveErrorCount (S n)) (fun _ => rest))).
Proof.
  intros Hr [ex sm am tl hs]. unfold bind, read, set_consecutiveErrorCount, modify. simpl.
  eapply keeps_trans; [|apply Hr].
  split; simpl; [exists []; now rewrite app_nil_r | lia].
Qed.

Create HintDb mono discriminated.
#[local] Hint Resolve mono_ret mono_throw mono_suspended mono_outOfFuel mono_read mono_gets
  mono_set_state mono_set_currentUserContent mono_set_isRequestCancelled
  mono_set_abortController mono_set_streamPaused mono_set_textBuffer mono_set_flushTimeout
  mono_set_lastFlushTime mono_set_currentReplyId mono_abortSignal mono_Date_now mono_emit
  mono_createApiStreamRequest mono_with_claudeMessages mono_with_apiConversationHistory
  mono_with_askManager mono_with_toolExecutor mono_tool_processToolUse : mono.

Ltac mono_step :=
  first
    [ assumption
    | solve [auto with mono]
    | apply mono_count_error
    | apply mono_bind; [|intros ?]
    | apply mono_try_catch; [|intros ?]
    | match goal with
      | |- mono (if ?b then _ else _) => destruct b
      | |- mono (match ?x with _ => _ end) => destruct x
      | |- mono (let '(_, _) := ?x in _) => destruct x
      end ].

Ltac mono_tac := unfold when, postStateToWebview, cancelledOrAborting; repeat mono_step.

Lemma mono_say kind text sayTs isSub : mono (say kind text sayTs isSub).
Proof. unfold say, addToClaudeMessages. mono_tac. Qed.

Lemma mono_handleResponse id r : mono (handleResponse id r).
Proof. unfold handleResponse. mono_tac. Qed.

Lemma mono_ask_register kind data askTs : mono (ask_register kind data askTs).
Proof.
  unfold ask_register, getMessageById, addToClaudeMessages, updateClaudeMessage. mono_tac.
Qed.

Lemma mono_ask_await id : mono (ask_await id).
Proof.
  intros [ex sm am tl hs]. unfold ask_await. simpl.
  destruct (responses hs) as [|r rest]; [apply keeps_refl|].
  eapply keeps_trans; [|apply mono_bind; [apply mono_handleResponse | intros; apply mono_ret]].
  split; simpl; [exists []; now rewrite app_nil_r | lia].
Qed.

Lemma mono_ask kind data : mono (ask kind data).
Proof.
  unfold ask, AskManager_ask. apply mono_bind; [apply mono_ask_register|].
  intros id. apply mono_ask_await.
Qed.

Lemma mono_updateApiHistoryItem id patch : mono (updateApiHistoryItem id patch).
Proof. unfold updateApiHistoryItem. mono_tac. Qed.

Lemma mono_updateClaudeMessage id m : mono (updateClaudeMessage id m).
Proof. unfold updateClaudeMessage. mono_tac. Qed.

Lemma mono_getMessageById id : mono (getMessageById id).
Proof. unfold getMessageById. mono_tac. Qed.

Lemma mono_flushTextBuffer replyId force : mono (flushTextBuffer replyId force).
Proof. unfold flushTextBuffer, appendToClaudeMessage. mono_tac. Qed.

Lemma mono_pauseStream : mono pauseStream.
Proof. unfold pauseStream. pose proof mono_flushTextBuffer. mono_tac. Qed.

Lemma mono_resumeStream : mono resumeStream.
Proof. unfold resumeStream. mono_tac. Qed.

#[local] Hint Resolve mono_say mono_ask mono_updateApiHistoryItem mono_updateClaudeMessage
  mono_getMessageById mono_flushTextBuffer mono_pauseStream mono_resumeStream : mono.

Section MonoRound.

Variable k : M (T:=T) unit.
Hypothesis mono_k : mono k.

Lemma mono_handleApiError e : mono (handleApiError k e).
Proof. unfold handleApiError, tool_resetToolState. mono_tac. Qed.

Lemma mono_finishProcessingResponse a : mono (finishProcessingResponse k a).
Proof.
  unfold finishProcessingResponse, tool_getToolResults, addToApiConversationHistory. mono_tac.
Qed.

Lemma mono_onImmediateEndOfStream id chunk : mono (onImmediateEndOfStream id chunk).
Proof. unfold onImmediateEndOfStream. mono_tac. Qed.

Lemma mono_onChunk id itemRef chunk loc : mono (onChunk id itemRef chunk loc).
Proof.
  unfold onChunk, tool_hasActiveTools, tool_waitForToolProcessing. mono_tac.
Qed.

Lemma mono_onFinalEndOfStream id loc : mono (onFinalEndOfStream k id loc).
Proof.
  unfold onFinalEndOfStream, tool_waitForToolProcessing.
  pose proof mono_finishProcessingResponse. mono_tac.
Qed.

Lemma mono_processStream id itemRef replyId stream :
  forall ended loc, mono (processStream k id itemRef replyId stream ended loc).
Proof.
  induction stream as [|item stream IH]; intros ended loc; simpl.
  - destruct ended; [apply mono_onFinalEndOfStream | apply mono_ret].
  - destruct item as [chunk|e]; [|apply mono_throw].
    destruct (isEndOfStream chunk).
    + apply mono_bind; [apply mono_onImmediateEndOfStream | intros; apply IH].
    + apply mono_bind; [apply mono_onChunk | intros; apply IH].
Qed.

Lemma mono_processApiResponse stream id : mono (processApiResponse k stream id).
Proof.
  unfold processApiResponse, addToApiConversationHistory.
  pose proof mono_processStream. mono_tac.
Qed.

Lemma mono_makeClaudeRequest_round : mono (makeClaudeRequest_round k).
Proof.
  unfold makeClaudeRequest_round, tool_resetToolState, addToApiConversationHistory.
  pose proof mono_processApiResponse. pose proof mono_handleApiError. mono_tac.
Qed.

End MonoRound.

Lemma mono_makeClaudeRequest fuel : mono (makeClaudeRequest fuel).
Proof.
  induction fuel as [|fuel IH]; simpl; apply mono_makeClaudeRequest_round;
    [apply mono_outOfFuel | exact IH].
Qed.

(** ** Three errors in a row *)

Lemma bumps_bind {A B} (m : M A) (f : A -> M B) :
  (forall w, exists a w1, m w = (Ok a, w1) /\ keeps w w1) ->
  (forall a, bumps (f a)) -> bumps (bind m f).
Proof.
  intros Hm Hf w. unfold bind. destruct (Hm w) as (a & w1 & -> & [_ Hc]).
  specialize (Hf a w1). lia.
Qed.

Lemma bumps_count_error {A} (rest : M A) :
  mono rest ->
  bumps (bind (read consecutiveErrorCount)
           (fun n => bind (set_consecutiveErrorCount (S n)) (fun _ => rest))).
Proof.
  intros Hr [ex sm am tl hs]. unfold bind, read, set_consecutiveErrorCount, modify. simpl.
  match goal with |- context [rest ?w0] => destruct (Hr w0) as [_ Hc] end.
  simpl in Hc. exact Hc.
Qed.

Lemma handleApiError_counts k e : mono k -> bumps (handleApiError k e).
Proof.
  intros Hk. unfold handleApiError.
  apply bumps_bind.
  { intros [ex sm am tl hs]. eexists; eexists. split; [reflexivity|].
    split; simpl; [exists []; now rewrite app_nil_r | lia]. }
  intros _. apply bumps_bind.
  { intros w. eexists; eexists. split; [reflexivity|]. apply keeps_refl. }
  intros history. apply bumps_bind.
  { intros [ex sm am tl hs].
    destruct (last history) as [lastItem|];
      [destruct (bool_decide (role lastItem = assistant) && truthyId (h_ts lastItem));
       [destruct (h_ts lastItem)|]|];
      (eexists; eexists; split; [reflexivity|]);
      split; simpl; first [exists []; now rewrite app_nil_r | lia]. }
  intros _. apply bumps_count_error. mono_tac.
Qed.

Lemma try_catch_bind_ok {A B} (p : M A) (f : A -> M B) (h : Error -> M B) w a w1 :
  p w = (Ok a, w1) -> try_catch (bind p f) h w = try_catch (f a) h w1.
Proof. intros H. unfold try_catch, bind. now rewrite H. Qed.

Lemma try_catch_bind_pending {A B} (p : M A) (f : A -> M B) (h : Error -> M B) w w1 :
  p w = (Pending, w1) -> try_catch (bind p f) h w = (Pending, w1).
Proof. intros H. unfold try_catch, bind. now rewrite H. Qed.

#[local] Hint Resolve mono_handleApiError mono_finishProcessingResponse
  mono_processApiResponse mono_makeClaudeRequest : mono.

Ltac eval_world :=
  cbn [with_executor with_host with_toolExecutor with_stateManager with_askManager
       ex_set_state ex_set_currentUserContent ex_set_isRequestCancelled
       ex_set_abortController ex_set_consecutiveErrorCount ex_set_isAborting
       ex_set_streamPaused ex_set_textBuffer ex_set_flushTimeout ex_set_lastFlushTime
       ex_set_currentReplyId executor stateManager askManager toolExecutor host
       state currentUserContent isRequestCancelled abortController consecutiveErrorCount
       isAborting streamPaused textBuffer flushTimeout lastFlushTime currentReplyId
       clock responses streams trace claudeMessages apiConversationHistory fst snd].

Lemma makeClaudeRequest_round_asks_first k w :
  mono k ->
  requestGuard w = true ->
  (3 <= consecutiveErrorCount (executor w))%nat ->
  exists id rest,
    trace (host (snd (makeClaudeRequest_round k w)))
    = trace (host w) ++ EvAsk id ask_resume_task :: rest
    /\ (responses (host w) = [] ->
        fst (makeClaudeRequest_round k w) = Pending
        /\ rest = []
        /\ apiConversationHistory (stateManager (snd (makeClaudeRequest_round k w)))
           = apiConversationHistory (stateManager w)).
Proof.
  intros Hk Hg Hn. destruct w as [ex [msgs hist] am tl [clk resp strs tr]].
  cbn [executor] in Hn. apply Nat.leb_le in Hn.
  unfold makeClaudeRequest_round.
  erewrite try_catch_bind_ok by reflexivity.
  rewrite Hg. cbv beta. cbn [negb].
  do 9 (erewrite try_catch_bind_ok by reflexivity).
  eval_world. rewrite Hn.
  destruct resp as [|r rest].
  - erewrite try_catch_bind_pending by reflexivity.
    eexists. exists []. split; [reflexivity|].
    intros _. repeat split.
  - erewrite try_catch_bind_ok by reflexivity.
    match goal with
    | |- context [try_catch ?m ?h ?w0] =>
        assert (Hm : mono (try_catch m h))
          by (unfold addToApiConversationHistory; mono_tac);
        destruct (Hm w0) as [[l Hl] _];
        destruct (try_catch m h w0) as [o w']
    end.
    eexists. exists l.
    split; [|discriminate]. cbn [snd] in *. rewrite Hl.
    unfold with_claudeMessages. eval_world. rewrite <- app_assoc. reflexivity.
Qed.

(** C4. Every error round adds one to the count of consecutive errors
    and no request round takes anything from it, so that after three error
    rounds without a reset the count is at least three; and with a count of
    three or more, [makeClaudeRequest], when it passes its guard, issues the
    resume-confirmation ask before anything of the next request: the ask is
    the first effect it adds to the log, and as long as the user has not
    answered, no turn has been added to the API history and no stream has
    been opened. *)
Theorem makeClaudeRequest_asks_after_three_errors :
  (forall fuel e w,
      (S (consecutiveErrorCount (executor w))
       <= consecutiveErrorCount (executor (snd (handleApiError (makeClaudeRequest fuel) e w))))%nat)
  /\ (forall fuel w,
        (consecutiveErrorCount (executor w)
         <= consecutiveErrorCount (executor (snd (makeClaudeRequest fuel w))))%nat)
  /\ (forall fuel w,
        requestGuard w = true ->
        (3 <= consecutiveErrorCount (executor w))%nat ->
        exists id rest,
          trace (host (snd (makeClaudeRequest fuel w)))
          = trace (host w) ++ EvAsk id ask_resume_task :: rest
          /\ (responses (host w) = [] ->
              fst (makeClaudeRequest fuel w) = Pending
              /\ rest = []
              /\ apiConversationHistory (stateManager (snd (makeClaudeRequest fuel w)))
                 = apiConversationHistory (stateManager w))).
Proof.
  split; [|split].
  - intros fuel e w. apply handleApiError_counts, mono_makeClaudeRequest.
  - intros fuel w. apply (mono_makeClaudeRequest fuel w).
  - intros fuel w Hg Hn.
    destruct fuel as [|fuel]; simpl;
      apply makeClaudeRequest_round_asks_first; auto with mono.
Qed.

End Properties.

(** * Concrete runs

    The properties above, applied to worlds of the scripted instance, and the
    inputs at which statements that the code does not satisfy fail. *)

(** *** C6 *)

Lemma makeClaudeRequest_noop_unless_ready_witness :
  state (executor idleWorld) <> WAITING_FOR_API
  /\ makeClaudeRequest 2 idleWorld = (Ok tt, idleWorld).
Proof.
  split; [discriminate|].
  apply (makeClaudeRequest_noop_unless_ready 2 idleWorld). left. discriminate.
Defined.

(** *** C9 *)

Lemma abortTask_first_message_untouched_witness :
  length (claudeMessages (stateManager firstRequestWorld)) = 2%nat
  /\ cancelCurrentRequest firstRequestWorld = (Ok tt, firstRequestWorld)
  /\ exists w',
       abortTask firstRequestWorld = (Ok tt, w')
       /\ claudeMessages (stateManager w') = claudeMessages (stateManager firstRequestWorld)
       /\ pendingAsks (askManager w') = pendingAsks (askManager firstRequestWorld).
Proof.
  split; [reflexivity|].
  destruct (abortTask_first_message_untouched firstRequestWorld eq_refl)
    as (Hcancel & w' & Habort & _ & _ & Hmsgs & Hpending & _).
  split; [exact Hcancel|]. exists w'. auto.
Defined.

(** *** C10 *)

Lemma handleAskResponse_resolves_most_recent_ask_witness :
  (claudeMessages (stateManager askedWorld)
   = [sayMessage 1 say_text "task"] ++ toolAsk 5 :: [sayMessage 7 say_text "note"]
   /\ type (toolAsk 5) = type_ask
   /\ Forall (fun x => type x <> type_ask) [sayMessage 7 say_text "note"]
   /\ handleAskResponse yesButtonTapped None None askedWorld
      = handleResponse 5 (mkAskResponse yesButtonTapped None None) askedWorld)
  /\ (Forall (fun x => type x <> type_ask) (claudeMessages (stateManager firstRequestWorld))
      /\ handleAskResponse yesButtonTapped None None firstRequestWorld
         = (Ok tt, firstRequestWorld)).
Proof.
  assert (H1 : Forall (fun x => type x <> type_ask) [sayMessage 7 say_text "note"])
    by (repeat constructor; discriminate).
  assert (H2 : Forall (fun x => type x <> type_ask)
                 (claudeMessages (stateManager firstRequestWorld)))
    by (repeat constructor; discriminate).
  split.
  - split; [reflexivity|]. split; [reflexivity|]. split; [exact H1|].
    apply (proj1 (handleAskResponse_resolves_most_recent_ask yesButtonTapped None None askedWorld)
             [sayMessage 1 say_text "task"] (toolAsk 5) [sayMessage 7 say_text "note"]
             eq_refl eq_refl H1).
  - split; [exact H2|].
    apply (proj2 (handleAskResponse_resolves_most_recent_ask yesButtonTapped None None
                    firstRequestWorld) H2).
Defined.

(** The answer reaches the register: the ask registered under 5 is resolved. *)
Example handleAskResponse_delivers :
  askManager (snd (handleAskResponse yesButtonTapped None None askedWorld))
  = mkAskManager (delete 5 {[ 5 := ask_tool ]}) [(5, mkAskResponse yesButtonTapped None None)].
Proof. reflexivity. Qed.

(** *** C5 *)

Lemma finishProcessingResponse_without_tool_results_witness :
  isRequestCancelled (executor finishingWorld) = false
  /\ isAborting (executor finishingWorld) = false
  /\ getToolResults (toolExecutor finishingWorld) = []
  /\ exists w1,
       state (executor w1) = WAITING_FOR_API
       /\ currentUserContent (executor w1) = Some [TextBlock mustUseTool]
       /\ requestGuard w1 = true
       /\ forall k, finishProcessingResponse k answeredItem finishingWorld = k w1.
Proof.
  split; [reflexivity|]. split; [reflexivity|]. split; [reflexivity|].
  apply (finishProcessingResponse_without_tool_results answeredItem finishingWorld);
    reflexivity.
Defined.

(** *** C3 *)

Lemma handleApiError_fatal_or_retry_witness :
  ((e_type unauthorizedError = UNAUTHORIZED \/ e_type unauthorizedError = PAYMENT_REQUIRED)
   /\ exists w1,
        (forall k, handleApiError k unauthorizedError finishingWorld = (Ok tt, w1))
        /\ state (executor w1) = IDLE
        /\ pendingAsks (askManager w1) = pendingAsks (askManager finishingWorld))
  /\ (e_type apiError <> UNAUTHORIZED
      /\ e_type apiError <> PAYMENT_REQUIRED
      /\ responses (host messageAnswerWorld)
         = [mkAskResponse messageResponse (Some "try once more") None]
      /\ exists w1,
           (forall k, handleApiError k apiError messageAnswerWorld = k w1)
           /\ state (executor w1) = WAITING_FOR_API).
Proof.
  split.
  - split; [left; reflexivity|].
    destruct (proj1 (handleApiError_fatal_or_retry unauthorizedError finishingWorld)
                (or_introl eq_refl))
      as (w1 & id & Hrun & Hstate & _ & _ & Hpending).
    exists w1. auto.
  - split; [discriminate|]. split; [discriminate|]. split; [reflexivity|].
    destruct (proj2 (handleApiError_fatal_or_retry apiError messageAnswerWorld)
                ltac:(discriminate) ltac:(discriminate) _ _ eq_refl)
      as (w1 & id & Hretry & _ & _).
    exists w1. apply Hretry. right. reflexivity.
Defined.

(** The claim as worded lets only an affirmative answer re-enter the round
    and completes the task otherwise. A typed message is not the yes
    button; it re-enters the round all the same, and the task is not
    completed. *)
Lemma handleApiError_message_answer_counterexample :
  response (mkAskResponse messageResponse (Some "try once more") None) <> yesButtonTapped
  /\ fst (handleApiError (throw (JsError "makeClaudeRequest entered")) apiError messageAnswerWorld)
     = Throw (JsError "makeClaudeRequest entered")
  /\ state (executor (snd (handleApiError (ret tt) apiError messageAnswerWorld))) <> COMPLETED.
Proof.
  split; [discriminate|]. split; [reflexivity|]. vm_compute. discriminate.
Qed.

(** *** C8 *)

Lemma startTask_resumeTask_normalize_empty_input_witness :
  emptyInput []
  /\ isAborting (executor waitingForUserWorld) = false
  /\ state (executor waitingForUserWorld) = WAITING_FOR_USER
  /\ (exists w1,
         (forall k, startTask k [] waitingForUserWorld = k w1)
         /\ state (executor w1) = WAITING_FOR_API
         /\ currentUserContent (executor w1) = Some [TextBlock continuationPrompt])
  /\ (exists w1,
         (forall k, resumeTask k [] waitingForUserWorld = k w1)
         /\ state (executor w1) = WAITING_FOR_API
         /\ currentUserContent (executor w1) = Some [TextBlock continuationPrompt]).
Proof.
  split; [left; reflexivity|]. split; [reflexivity|]. split; [reflexivity|].
  destruct (startTask_resumeTask_normalize_empty_input [] waitingForUserWorld
              (or_introl eq_refl) eq_refl) as [Hstart Hresume].
  split; [exact Hstart | exact (Hresume eq_refl)].
Defined.

(** [resumeTask] with empty input in a state other than [WAITING_FOR_USER]:
    no abort is in progress, and still neither the content nor the state is
    set and no request round begins. *)
Lemma resumeTask_idle_counterexample :
  isAborting (executor idleWorld) = false
  /\ ~ (exists w1,
          (forall k, resumeTask k [] idleWorld = k w1)
          /\ state (executor w1) = WAITING_FOR_API
          /\ currentUserContent (executor w1) = Some [TextBlock continuationPrompt]).
Proof.
  split; [reflexivity|].
  intros (w1 & Hk & Hs & _).
  specialize (Hk (ret tt)). vm_compute in Hk.
  injection Hk as <-. discriminate Hs.
Qed.

(** *** C7 *)

Lemma flushTextBuffer_forced_witness :
  trim (textBuffer (executor (streamingWorld "search now"))) <> ""
  /\ (3 <> 0)%Z
  /\ Forall (fun x => ts x <> 3) [sayMessage 1 say_text "list files";
                                  sayMessage 2 say_api_req_started "request"]
  /\ (exists w',
         flushTextBuffer (Some 3) true (streamingWorld "search now") = (Ok tt, w')
         /\ textBuffer (executor w') = ""
         /\ claudeMessages (stateManager w')
            = [sayMessage 1 say_text "list files";
               sayMessage 2 say_api_req_started "request";
               replyMessage 3 "I'll search now"])
  /\ trim (textBuffer (executor (streamingWorld (NBSP +:+ ideographicSpace)))) = ""
  /\ flushTextBuffer (Some 3) true (streamingWorld (NBSP +:+ ideographicSpace))
     = (Ok tt, streamingWorld (NBSP +:+ ideographicSpace)).
Proof.
  assert (H1 : trim (textBuffer (executor (streamingWorld "search now"))) <> "")
    by (vm_compute; discriminate).
  assert (H2 : Forall (fun x => ts x <> 3) [sayMessage 1 say_text "list files";
                                            sayMessage 2 say_api_req_started "request"])
    by (repeat constructor; discriminate).
  split; [exact H1|]. split; [discriminate|]. split; [exact H2|].
  split.
  - destruct (proj1 (flushTextBuffer_forced 3 (streamingWorld "search now")
                       [sayMessage 1 say_text "list files";
                        sayMessage 2 say_api_req_started "request"]
                       [] (replyMessage 3 "I'll "))
                H1 ltac:(discriminate) eq_refl H2 eq_refl)
      as (w' & Hrun & Hbuf & Hmsgs & _).
    exists w'. split; [exact Hrun|]. split; [exact Hbuf|]. exact Hmsgs.
  - split; [reflexivity|].
    exact (proj2 (flushTextBuffer_forced 3 (streamingWorld (NBSP +:+ ideographicSpace))
                    [] [] (replyMessage 3 "I'll "))
             eq_refl (Some 3) true).
Defined.

(** A buffer that holds only white space: the forced flush returns at its
    first test, the buffer is not emptied and nothing is appended. *)
Lemma flushTextBuffer_blank_buffer_counterexample :
  textBuffer (executor (streamingWorld " ")) = " "
  /\ flushTextBuffer (Some 3) true (streamingWorld " ") = (Ok tt, streamingWorld " ")
  /\ textBuffer (executor (snd (flushTextBuffer (Some 3) true (streamingWorld " ")))) <> "".
Proof.
  split; [reflexivity|]. split; [reflexivity|]. vm_compute. discriminate.
Qed.

(** *** C1 *)

Lemma abortTask_interrupts_pending_tool_witness :
  isAborting (executor toolPendingWorld) = false
  /\ isRequestCancelled (executor toolPendingWorld) = false
  /\ length (claudeMessages (stateManager toolPendingWorld)) <> 2%nat
  /\ NoDup (ts <$> claudeMessages (stateManager toolPendingWorld))
  /\ parseChatTool (text (toolAsk 4)) = Some pendingTool
  /\ exists w' m' tool' r',
       abortTask toolPendingWorld = (Ok tt, w')
       /\ claudeMessages (stateManager w') !! 3%nat = Some m'
       /\ parseChatTool (text m') = Some tool'
       /\ approvalState tool' = Some st_error
       /\ error tool' = Some toolInterrupted
       /\ claudeMessages (stateManager w') !! 1%nat = Some r'
       /\ isDone r' = true
       /\ isError r' = true
       /\ errorText r' = Some "Request cancelled by user".
Proof.
  assert (Hnd : NoDup (ts <$> claudeMessages (stateManager toolPendingWorld)))
    by compute_done.
  assert (Hl : length (claudeMessages (stateManager toolPendingWorld)) <> 2%nat)
    by (vm_compute; discriminate).
  split; [reflexivity|]. split; [reflexivity|]. split; [exact Hl|]. split; [exact Hnd|].
  split; [reflexivity|].
  destruct (abortTask_interrupts_pending_tool toolPendingWorld
              [sayMessage 1 say_text "list files"; sayMessage 2 say_api_req_started "request";
               replyMessage 3 "I'll search now"]
              [] (toolAsk 4) pendingTool
              eq_refl eq_refl Hl Hnd eq_refl eq_refl eq_refl (Forall_nil_2 _) eq_refl
              ltac:(discriminate) ltac:(discriminate))
    as (w' & m' & tool' & Habort & Hm' & _ & _ & Hparse & Hstate & Herror & _ & Hreq).
  destruct (Hreq [sayMessage 1 say_text "list files"]
              (sayMessage 2 say_api_req_started "request")
              [replyMessage 3 "I'll search now"; toolAsk 4]
              eq_refl eq_refl
              ltac:(repeat constructor) eq_refl eq_refl)
    as (r' & Hr' & _ & Hdone & Herr & Htext).
  exists w', m', tool', r'. repeat split; assumption.
Defined.

(** The abort when the displayed history holds exactly two messages, the
    running request and the pending tool ask: no abort is in progress and
    the request is not cancelled, and both entries are left as they were,
    the tool ask pending and the request neither done nor in error. *)
Lemma abortTask_two_messages_counterexample :
  isAborting (executor twoMessagesWorld) = false
  /\ isRequestCancelled (executor twoMessagesWorld) = false
  /\ claudeMessages (stateManager twoMessagesWorld)
     = [sayMessage 1 say_api_req_started "request"] ++ toolAsk 2 :: []
  /\ isToolRequest (toolAsk 2) = true
  /\ parseChatTool (text (toolAsk 2)) = Some pendingTool
  /\ approvalState pendingTool <> Some st_approved
  /\ approvalState pendingTool <> Some st_error
  /\ exists w' m' tool' r',
       abortTask twoMessagesWorld = (Ok tt, w')
       /\ claudeMessages (stateManager w') !! 1%nat = Some m'
       /\ parseChatTool (text m') = Some tool'
       /\ approvalState tool' <> Some st_error
       /\ error tool' = None
       /\ claudeMessages (stateManager w') !! 0%nat = Some r'
       /\ isApiReqStarted r' = true
       /\ isDone r' = false
       /\ isError r' = false.
Proof.
  do 5 (split; [reflexivity|]). split; [discriminate|]. split; [discriminate|].
  eexists. exists (toolAsk 2), pendingTool, (sayMessage 1 say_api_req_started "request").
  split; [reflexivity|]. split; [reflexivity|]. split; [reflexivity|].
  split; [discriminate|]. repeat split.
Qed.

(** *** C2 *)

(** The blank entry is replaced with the failure marker. *)
Example finishProcessingResponse_marks_blank_entry :
  apiConversationHistory
    (stateManager (snd (finishProcessingResponse (ret tt) blankItem blankReplyWorld)))
  = [userItem;
     mkApiHistoryItem assistant (ContentBlocks [TextBlock failedToGenerate]) (Some 2)].
Proof. reflexivity. Qed.

(** *** C4 *)

Lemma makeClaudeRequest_asks_after_three_errors_witness :
  requestGuard thirdErrorWorld = true
  /\ (3 <= consecutiveErrorCount (executor thirdErrorWorld))%nat
  /\ responses (host thirdErrorWorld) = []
  /\ exists id,
       trace (host (snd (makeClaudeRequest 1 thirdErrorWorld)))
       = trace (host thirdErrorWorld) ++ [EvAsk id ask_resume_task]
       /\ fst (makeClaudeRequest 1 thirdErrorWorld) = Pending
       /\ apiConversationHistory (stateManager (snd (makeClaudeRequest 1 thirdErrorWorld)))
          = apiConversationHistory (stateManager thirdErrorWorld).
Proof.
  assert (Hn : (3 <= consecutiveErrorCount (executor thirdErrorWorld))%nat)
    by (vm_compute; lia).
  split; [reflexivity|]. split; [exact Hn|]. split; [reflexivity|].
  destruct (proj2 (proj2 makeClaudeRequest_asks_after_three_errors) 1%nat thirdErrorWorld
              eq_refl Hn)
    as (id & rest & Htrace & Hpending).
  destruct (Hpending eq_refl) as (Hout & -> & Hhist).
  exists id. auto.
Defined.

(** Three streams in a row end in an error chunk and the user retries each
    time: the log shows the three requests with their retry asks, then the
    resume ask, and no fourth request before it is answered. *)
Example three_errors_then_resume_ask :
  let w := initialWorld 1000 [retryAnswer; retryAnswer; retryAnswer]
             [failingStream; failingStream; failingStream; failingStream] [] in
  let w' := snd (startTask (makeClaudeRequest 5) [TextBlock "list files"] w) in
  omap asksAndRequests (trace (host w'))
  = [None; Some ask_api_req_failed; None; Some ask_api_req_failed;
     None; Some ask_api_req_failed; Some ask_resume_task]
  /\ consecutiveErrorCount (executor w') = 3%nat.
Proof. vm_compute. split; reflexivity. Qed.

(** * Further properties of the executor *)

Ltac run :=
  unfold when, set_state, set_currentUserContent, set_isRequestCancelled,
    set_abortController, set_consecutiveErrorCount, set_isAborting,
    set_streamPaused, set_textBuffer, set_flushTimeout, set_lastFlushTime,
    set_currentReplyId, cancelledOrAborting, abortSignal, postStateToWebview,
    emit, Date_now, read, gets, modify, bind, ret, throw,
    with_claudeMessages, with_apiConversationHistory in *;
  simpl in *;
  cbn [executor stateManager askManager toolExecutor host] in *.

Ltac case_split :=
  match goal with
  | |- context [if ?b then _ else _] => destruct b eqn:?
  | |- context [match ?x with _ => _ end] =>
      let t := type of x in
      lazymatch t with
      | prod _ _ => fail
      | _ => destruct x eqn:?
      end
  end; simpl.

Section MoreProperties.

Context {T : Type} {TE : ToolExecutor T} {KC : KoduErrorCodes}.

Implicit Types (w : World T) (k : M (T:=T) unit).

(** ** Abort *)

(** The resume ask that a cancellation leaves for the user. *)
Lemma cancelCurrentRequest_cases w :
  isRequestCancelled (executor w) = false ->
  length (claudeMessages (stateManager w)) <> 2%nat ->
  (exists e w1,
      cancelCurrentRequest w = (Throw e, w1)
      /\ isAborting (executor w1) = isAborting (executor w))
  \/ (exists w1 shown,
         cancelCurrentRequest w = (Ok tt, w1)
         /\ isAborting (executor w1) = isAborting (executor w)
         /\ state (executor w1) = ABORTED
         /\ isRequestCancelled (executor w1) = true
         /\ claudeMessages (stateManager w1)
            = shown ++ [askMessage (clock (host w)) ask_resume_task
                          (Some (mkAskDetails (Some resumeAfterInterrupt) None))]
         /\ pendingAsks (askManager w1)
            = <[clock (host w) := ask_resume_task]> (pendingAsks (askManager w))).
Proof.
  intros Hc Hlen. destruct w as [ex [msgs hist] am tl hs]. simpl in *.
  unfold cancelCurrentRequest, updateAsk, getMessageById, updateClaudeMessage,
    ask_register, addToClaudeMessages.
  run. rewrite Hc. simpl. rewrite (proj2 (Nat.eqb_neq _ _) Hlen). simpl.
  repeat case_split;
    first [ left; eexists; eexists; split; reflexivity
          | right; eexists; eexists; split; [reflexivity|]; simpl; repeat split ].
Qed.


Lemma updateFirst_ts (id : Z) (m : ClaudeMessage) (l : list ClaudeMessage) :
  ts m = id -> ts <$> updateFirst (hasTs id) (fun _ => m) l = ts <$> l.
Proof.
  intros Hm. unfold updateFirst.
  destruct (findIndex (hasTs id) l) as [i|] eqn:Hi; [|reflexivity].
  revert i Hi. induction l as [|x l IH]; intros i Hi; [discriminate|].
  simpl in Hi. destruct (hasTs id x) eqn:Hx.
  - injection Hi as <-. simpl. f_equal. apply bool_decide_eq_true_1 in Hx. congruence.
  - destruct (findIndex (hasTs id) l) as [j|]; [|discriminate].
    injection Hi as <-. simpl. f_equal. now apply IH.
Qed.

Lemma findToolRequest_readable (l : list ClaudeMessage) :
  Forall readable l ->
  exists r, findToolRequest l = inr r
            /\ forall m, r = Some m ->
                 m ∈ l /\ m_ask m = Some ask_tool /\ parseChatTool (text m) <> None.
Proof.
  induction 1 as [|x l Hx _ IH]; simpl.
  - exists None. split; [reflexivity|]. intros m Hm. discriminate.
  - destruct IH as (r & Hr & Hin).
    assert (Hrest : exists r0, findToolRequest l = inr r0
              /\ forall m, r0 = Some m ->
                   m ∈ x :: l /\ m_ask m = Some ask_tool /\ parseChatTool (text m) <> None).
    { exists r. split; [exact Hr|]. intros m Hm. destruct (Hin m Hm) as (H1 & H2 & H3).
      repeat split; auto. now right. }
    unfold readable, isToolRequest in Hx.
    destruct (isV1ClaudeMessage x); simpl; [|exact Hrest].
    destruct (bool_decide (m_ask x = Some ask_tool)) eqn:Hask; simpl; [|exact Hrest].
    apply bool_decide_eq_true_1 in Hask.
    destruct (parseChatTool (text x)) as [t|] eqn:Hp; [|now destruct (Hx eq_refl)].
    destruct (bool_decide (approvalState t = Some st_error)); simpl; [exact Hrest|].
    exists (Some x). split; [reflexivity|]. intros m Hm. injection Hm as <-.
    repeat split; [now left | exact Hask | now rewrite Hp].
Qed.

Lemma find_hasTs_elem (m : ClaudeMessage) (l : list ClaudeMessage) :
  m ∈ l -> exists m', List.find (hasTs (ts m)) l = Some m'.
Proof.
  induction 1 as [x l|x y l _ IH]; simpl.
  - unfold hasTs at 1. rewrite bool_decide_eq_true_2 by reflexivity. eauto.
  - destruct (hasTs (ts x) y); eauto.
Qed.

Lemma cancelCurrentRequest_run w :
  isRequestCancelled (executor w) = false ->
  length (claudeMessages (stateManager w)) <> 2%nat ->
  Forall readable (claudeMessages (stateManager w)) ->
  exists w1 shown,
    cancelCurrentRequest w = (Ok tt, w1)
    /\ state (executor w1) = ABORTED
    /\ isRequestCancelled (executor w1) = true
    /\ claudeMessages (stateManager w1)
       = shown ++ [askMessage (clock (host w)) ask_resume_task
                     (Some (mkAskDetails (Some resumeAfterInterrupt) None))]
    /\ ts <$> shown = ts <$> claudeMessages (stateManager w)
    /\ pendingAsks (askManager w1)
       = <[clock (host w) := ask_resume_task]> (pendingAsks (askManager w))
    /\ apiConversationHistory (stateManager w1) = apiConversationHistory (stateManager w)
    /\ isAborting (executor w1) = isAborting (executor w)
    /\ toolExecutor w1 = toolExecutor w.
Proof.
  intros Hc Hlen Hread. destruct w as [ex [msgs hist] am tl hs]. simpl in *.
  destruct (findToolRequest_readable (reverse msgs)) as (r & Hr & Hin).
  { now apply Forall_reverse. }
  unfold cancelCurrentRequest, updateAsk, getMessageById, updateClaudeMessage,
    ask_register, addToClaudeMessages.
  run. rewrite Hc. simpl. rewrite (proj2 (Nat.eqb_neq _ _) Hlen). simpl.
  rewrite Hr.
  destruct r as [req|].
  - destruct (Hin req eq_refl) as (Helem & Hask & Hparse).
    apply elem_of_reverse_2 in Helem. rewrite reverse_involutive in Helem.
    destruct (find_hasTs_elem req msgs Helem) as [m' Hm'].
    rewrite Hask. destruct (parseChatTool (text req)) as [parsedTool|]; [|contradiction].
    simpl.
    destruct (bool_decide (approvalState parsedTool = Some st_approved)); simpl;
      rewrite ?Hm'; simpl;
      (destruct (findLast isApiReqStarted msgs) as [started|]; simpl;
       [destruct (isV1ClaudeMessage started && negb (isDone started)); simpl|]);
      (eexists; eexists; split; [reflexivity|]; simpl; repeat split;
       rewrite ?updateFirst_ts by reflexivity; reflexivity).
  - simpl.
    destruct (findLast isApiReqStarted msgs) as [started|]; simpl;
      [destruct (isV1ClaudeMessage started && negb (isDone started)); simpl|];
      (eexists; eexists; split; [reflexivity|]; simpl; repeat split;
       rewrite ?updateFirst_ts by reflexivity; reflexivity).
Qed.


(** X2. Past its two guards, and when the text of every tool-approval
    entry parses, [cancelCurrentRequest] returns with the state [ABORTED]
    and the request cancelled; the displayed history keeps every entry under
    its timestamp, in order, and gains exactly one entry, the resume ask,
    which is registered as pending under the time of the call; the API
    history is not touched. *)
Theorem cancelCurrentRequest_asks_to_resume w :
  isRequestCancelled (executor w) = false ->
  length (claudeMessages (stateManager w)) <> 2%nat ->
  Forall readable (claudeMessages (stateManager w)) ->
  exists w1,
    cancelCurrentRequest w = (Ok tt, w1)
    /\ state (executor w1) = ABORTED
    /\ isRequestCancelled (executor w1) = true
    /\ ts <$> claudeMessages (stateManager w1)
       = (ts <$> claudeMessages (stateManager w)) ++ [clock (host w)]
    /\ last (claudeMessages (stateManager w1))
       = Some (askMessage (clock (host w)) ask_resume_task
                 (Some (mkAskDetails (Some resumeAfterInterrupt) None)))
    /\ pendingAsks (askManager w1) !! clock (host w) = Some ask_resume_task
    /\ apiConversationHistory (stateManager w1) = apiConversationHistory (stateManager w).
Proof.
  intros Hc Hlen Hread.
  destruct (cancelCurrentRequest_run w Hc Hlen Hread)
    as (w1 & shown & Hrun & Hs & Hcan & Hmsgs & Hts & Hpend & Hhist & _).
  exists w1. rewrite Hmsgs, Hpend, fmap_app, Hts, last_snoc, lookup_insert_eq.
  repeat split; assumption.
Qed.

Lemma cancelCurrentRequest_outcome w :
  exists o w1,
    cancelCurrentRequest w = (o, w1)
    /\ isAborting (executor w1) = isAborting (executor w)
    /\ (o = Ok tt \/ exists e, o = Throw e).
Proof.
  destruct (isRequestCancelled (executor w)) eqn:Hc.
  { exists (Ok tt), w. destruct w as [ex sm am tl hs]. simpl in *.
    unfold cancelCurrentRequest. run. rewrite Hc. auto. }
  destruct (decide (length (claudeMessages (stateManager w)) = 2%nat)) as [Hlen|Hlen].
  { exists (Ok tt), w. destruct w as [ex sm am tl hs]. simpl in *.
    unfold cancelCurrentRequest. run. rewrite Hc. simpl. rewrite Hlen. auto. }
  destruct (cancelCurrentRequest_cases w Hc Hlen)
    as [(e & w1 & Hrun & Ha) | (w1 & shown & Hrun & Ha & _)].
  - exists (Throw e), w1. eauto.
  - exists (Ok tt), w1. auto.
Qed.

(** X1. [abortTask] never leaves the aborting flag set: when it was not
    set at the call it is not set afterwards, also when the cancellation
    throws. And when the text of every tool-approval entry parses, the abort
    returns with the per-round state reset: state [WAITING_FOR_USER], request
    not cancelled, no abort controller, error count zero, stream not paused,
    buffer empty, no timer, no reply identity; the tool executor has been
    told to abort and the API history is as it was. *)
Theorem abortTask_settles w :
  isAborting (executor w) = false ->
  isAborting (executor (snd (abortTask w))) = false
  /\ (Forall readable (claudeMessages (stateManager w)) ->
      exists w',
        abortTask w = (Ok tt, w')
        /\ state (executor w') = WAITING_FOR_USER
        /\ isRequestCancelled (executor w') = false
        /\ abortController (executor w') = None
        /\ consecutiveErrorCount (executor w') = 0%nat
        /\ streamPaused (executor w') = false
        /\ textBuffer (executor w') = ""
        /\ flushTimeout (executor w') = None
        /\ currentReplyId (executor w') = None
        /\ toolExecutor w' = toolAbortTask (toolExecutor w)
        /\ apiConversationHistory (stateManager w') = apiConversationHistory (stateManager w)).
Proof.
  intros Ha. split.
  - destruct (cancelCurrentRequest_outcome (aborting w)) as (o & w1 & Hrun & _ & Ho).
    destruct w as [ex sm am tl hs]. unfold aborting in Hrun. simpl in *.
    unfold abortTask, try_finally. run. rewrite Ha. simpl. rewrite Hrun.
    destruct w1 as [ex1 sm1 am1 tl1 hs1].
    destruct Ho as [-> | [e ->]]; [|reflexivity].
    unfold tool_abortTask, resetState. run.
    destruct (flushTimeout ex1); reflexivity.
  - intros Hread.
    assert (Hrun : exists w1,
               cancelCurrentRequest (aborting w) = (Ok tt, w1)
               /\ apiConversationHistory (stateManager w1)
                  = apiConversationHistory (stateManager w)
               /\ toolExecutor w1 = toolExecutor w).
    { destruct (isRequestCancelled (executor w)) eqn:Hc.
      { exists (aborting w). destruct w as [ex sm am tl hs]. simpl in *.
        unfold cancelCurrentRequest, aborting. run. rewrite Hc. auto. }
      destruct (decide (length (claudeMessages (stateManager w)) = 2%nat)) as [Hlen|Hlen].
      { exists (aborting w). destruct w as [ex sm am tl hs]. simpl in *.
        unfold cancelCurrentRequest, aborting. run. rewrite Hc. simpl. rewrite Hlen. auto. }
      destruct (cancelCurrentRequest_run (aborting w))
        as (w1 & shown & Hrun & _ & _ & _ & _ & _ & Hhist & _ & Htl);
        try (destruct w; assumption).
      exists w1. destruct w. auto. }
    destruct Hrun as (w1 & Hrun & Hhist & Htl).
    destruct w as [ex sm am tl hs]. unfold aborting in Hrun. simpl in *.
    unfold abortTask, try_finally. run. rewrite Ha. simpl. rewrite Hrun.
    destruct w1 as [ex1 sm1 am1 tl1 hs1]. simpl in *. subst.
    unfold tool_abortTask, resetState. run.
    destruct (flushTimeout ex1) eqn:Hf; simpl;
      (eexists; split; [reflexivity|]; simpl; repeat split; assumption).
Qed.


Lemma findToolRequest_passes_over (l rest : list ClaudeMessage) :
  Forall passedOver l -> findToolRequest (l ++ rest) = findToolRequest rest.
Proof.
  induction 1 as [|x l Hx _ IH]; simpl; [reflexivity|].
  unfold passedOver, isToolRequest in Hx.
  destruct (isV1ClaudeMessage x); simpl; [|exact IH].
  destruct (bool_decide (m_ask x = Some ask_tool)); simpl; [|exact IH].
  destruct (Hx eq_refl) as (t & -> & Ht).
  now rewrite (bool_decide_eq_true_2 _ Ht).
Qed.

Lemma findToolRequest_last_open (l1 l2 : list ClaudeMessage) (m : ClaudeMessage)
    (parsedTool : ChatTool) :
  isToolRequest m = true ->
  parseChatTool (text m) = Some parsedTool ->
  approvalState parsedTool <> Some st_error ->
  Forall passedOver l2 ->
  findToolRequest (reverse (l1 ++ m :: l2)) = inr (Some m).
Proof.
  intros Hm Hp He Hl2.
  rewrite reverse_app, reverse_cons, <- app_assoc.
  rewrite findToolRequest_passes_over by now apply Forall_reverse.
  simpl. unfold isToolRequest in Hm. apply andb_prop in Hm as [-> ->]. simpl.
  rewrite Hp. now rewrite bool_decide_eq_false_2.
Qed.

(** X3. The tool request that a cancellation looks at is the most recent
    tool-approval entry whose approval state is not error: entries after it
    that are already in error are passed over. In a history with distinct
    timestamps that entry is rewritten to the error state with the
    interruption message, unless its state is approved, in which case it is
    left exactly as it was. *)
Theorem cancelCurrentRequest_last_open_tool w (l1 l2 : list ClaudeMessage)
    (m : ClaudeMessage) (parsedTool : ChatTool) :
  isRequestCancelled (executor w) = false ->
  length (claudeMessages (stateManager w)) <> 2%nat ->
  NoDup (ts <$> claudeMessages (stateManager w)) ->
  claudeMessages (stateManager w) = l1 ++ m :: l2 ->
  type m = type_ask ->
  isToolRequest m = true ->
  Forall passedOver l2 ->
  parseChatTool (text m) = Some parsedTool ->
  approvalState parsedTool <> Some st_error ->
  exists w1,
    cancelCurrentRequest w = (Ok tt, w1)
    /\ claudeMessages (stateManager w1) !! length l1
       = Some (if bool_decide (approvalState parsedTool = Some st_approved)
               then m else interruptedAsk m parsedTool).
Proof.
  intros Hc Hlen Hnd Hsplit Hty Hm Hl2 Hp Herr.
  destruct w as [ex [msgs hist] am tl hs]. simpl in *.
  assert (Hi : msgs !! length l1 = Some m) by (rewrite Hsplit; apply list_lookup_middle; reflexivity).
  assert (Hlt : (length l1 < length msgs)%nat) by (eapply lookup_lt_Some; eauto).
  assert (Hfind : findToolRequest (reverse msgs) = inr (Some m)).
  { rewrite Hsplit. eapply findToolRequest_last_open; eauto. }
  assert (Hask : m_ask m = Some ask_tool).
  { unfold isToolRequest in Hm. apply andb_prop in Hm as [_ Hm].
    now apply bool_decide_eq_true_1 in Hm. }
  unfold cancelCurrentRequest, updateAsk, getMessageById, updateClaudeMessage,
    ask_register, addToClaudeMessages.
  run. rewrite Hc. simpl.
  rewrite (proj2 (Nat.eqb_neq _ _) Hlen). simpl.
  rewrite Hfind, Hp, Hask. simpl.
  destruct (bool_decide (approvalState parsedTool = Some st_approved)) eqn:Happ; simpl.
  - destruct (findLast isApiReqStarted msgs) as [r|] eqn:Hr; simpl;
      [destruct (isV1ClaudeMessage r && negb (isDone r)); simpl|];
      (eexists; split; [reflexivity|]; simpl);
      try (rewrite lookup_app_l by assumption; exact Hi).
    apply findLast_elem in Hr as [Hstarted [j Hj]].
    assert (Hij : j <> length l1).
    { intros ->. rewrite Hi in Hj. injection Hj as ->.
      unfold isApiReqStarted in Hstarted. apply andb_prop in Hstarted as [Hstarted _].
      apply bool_decide_eq_true_1 in Hstarted. congruence. }
    rewrite (updateFirst_hasTs msgs j r _ Hnd Hj).
    rewrite lookup_app_l by now rewrite length_insert.
    now rewrite list_lookup_insert_ne.
  - rewrite (find_hasTs msgs (length l1) m Hnd Hi). simpl.
    rewrite (updateFirst_hasTs msgs (length l1) m _ Hnd Hi).
    pose proof (cancelledMessages_tool msgs (length l1) m parsedTool (clock hs) Hnd Hi Hty)
      as Hlook.
    unfold cancelledMessages, interruptedAsk in Hlook.
    destruct (findLast isApiReqStarted msgs) as [r|]; simpl in *;
      [destruct (isV1ClaudeMessage r && negb (isDone r)); simpl in *|];
      (eexists; split; [reflexivity|]; simpl; exact Hlook).
Qed.

(** ** The answer to the resume ask *)

(** X4. Which answers to the resume ask of a cancellation start a request
    round again. The yes button does, with the continuation prompt as the
    content. The no button with a non-empty text does, and so does any answer
    that carries an image list: the content is then the text (if non-empty)
    followed by the image blocks, and it is stored as given, even when it is
    empty. Every other answer, among them a typed message without image
    list, sets the state to COMPLETED, drops the text and starts no round. *)
Theorem onResumeAnswer_reenters_or_completes (res : AskResponse) w :
  (response res = yesButtonTapped ->
   forall k, onResumeAnswer k res w
             = k (with_executor (ex_set_currentUserContent (Some [TextBlock continuationPrompt]))
                    (with_executor (ex_set_state WAITING_FOR_API) w)))
  /\ (response res <> yesButtonTapped ->
      (response res = noButtonTapped /\ default "" (r_text res) <> "")
      \/ is_Some (r_images res) ->
      forall k, onResumeAnswer k res w
                = k (with_executor (ex_set_state WAITING_FOR_API)
                       (with_executor
                          (ex_set_currentUserContent
                             (Some ((if truthy (default "" (r_text res))
                                     then [TextBlock (default "" (r_text res))] else [])
                                    ++ formatImagesIntoBlocks (default [] (r_images res)))))
                          w)))
  /\ (response res <> yesButtonTapped ->
      r_images res = None ->
      response res = messageResponse \/ default "" (r_text res) = "" ->
      forall k, onResumeAnswer k res w
                = (Ok tt, with_executor (ex_set_state COMPLETED) w)).
Proof.
  destruct res as [r t i]. destruct w as [ex sm am tl hs]. simpl.
  split; [|split].
  - intros ->. intros k. reflexivity.
  - intros Hr H k.
    unfold onResumeAnswer. run.
    rewrite (bool_decide_eq_false_2 _ Hr).
    destruct H as [[-> Ht] | [imgs ->]]; simpl.
    + destruct (default "" t); [contradiction|]. simpl.
      destruct i as [imgs|]; reflexivity.
    + rewrite orb_true_r. reflexivity.
  - intros Hr -> H k.
    unfold onResumeAnswer. run.
    rewrite (bool_decide_eq_false_2 _ Hr).
    destruct H as [-> | ->]; simpl; [reflexivity|].
    now rewrite andb_false_r.
Qed.

Lemma makeClaudeRequest_unfold (fuel : nat) :
  makeClaudeRequest fuel
  = makeClaudeRequest_round
      (match fuel with O => outOfFuel | S f => makeClaudeRequest f end).
Proof.
  destruct fuel; reflexivity.
Qed.

Lemma makeClaudeRequest_guarded (fuel : nat) w :
  requestGuard w = false -> makeClaudeRequest fuel w = (Ok tt, w).
Proof.
  intros Hg. rewrite makeClaudeRequest_unfold.
  unfold makeClaudeRequest_round, try_catch, bind, gets. rewrite Hg. reflexivity.
Qed.

Lemma requestGuard_cancelled w :
  isRequestCancelled (executor w) = true -> requestGuard w = false.
Proof.
  intros H. unfold requestGuard. rewrite H. simpl.
  now rewrite andb_false_r.
Qed.

(** X5. A cancellation raises the cancelled flag and nothing but a reset
    lowers it. An answer to the resume ask that arrives while the flag is
    still up therefore never issues a request, whatever the answer is: the
    state and the pending content are set, and everything else (displayed
    messages, API history, pending asks, tools, effect log) is as before. *)
Theorem onResumeAnswer_while_cancelled (fuel : nat) (res : AskResponse) w :
  isRequestCancelled (executor w) = true ->
  exists st content,
    onResumeAnswer (makeClaudeRequest fuel) res w
    = (Ok tt,
       with_executor (ex_set_currentUserContent content)
         (with_executor (ex_set_state st) w))
    /\ (st = WAITING_FOR_API \/ st = COMPLETED).
Proof.
  intros Hc. destruct w as [ex sm am tl hs]. simpl in Hc.
  unfold onResumeAnswer.
  destruct (bool_decide (response res = yesButtonTapped)).
  - run. rewrite makeClaudeRequest_guarded
      by (apply requestGuard_cancelled; exact Hc).
    do 2 eexists. split; [reflexivity | now left].
  - destruct (_ || _).
    + run. rewrite makeClaudeRequest_guarded
        by (apply requestGuard_cancelled; exact Hc).
      exists WAITING_FOR_API. eexists. split; [|now left].
      destruct ex; reflexivity.
    + run. exists COMPLETED, (currentUserContent ex). split; [|now right].
      destruct ex; reflexivity.
Qed.

End MoreProperties.

(** ** What the executor never takes back *)

Section Preserved.

Context {T : Type} {TE : ToolExecutor T} {KC : KoduErrorCodes}.

Variable R : World T -> World T -> Prop.
Hypothesis R_refl : forall w, R w w.
Hypothesis R_trans : forall w1 w2 w3, R w1 w2 -> R w2 w3 -> R w1 w3.

Lemma preserves_ret {A} (a : A) : preserves R (ret a).
Proof. intros w. apply R_refl. Qed.

Lemma preserves_throw {A} (e : Error) : preserves R (throw (A:=A) e).
Proof. intros w. apply R_refl. Qed.

Lemma preserves_suspended {A} : preserves R (suspended (A:=A)).
Proof. intros w. apply R_refl. Qed.

Lemma preserves_outOfFuel {A} : preserves R (outOfFuel (A:=A)).
Proof. intros w. apply R_refl. Qed.

Lemma preserves_read {A} (f : Executor -> A) : preserves R (read f).
Proof. intros w. apply R_refl. Qed.

Lemma preserves_gets {A} (f : World T -> A) : preserves R (gets f).
Proof. intros w. apply R_refl. Qed.

Lemma preserves_bind {A B} (m : M A) (f : A -> M B) :
  preserves R m -> (forall a, preserves R (f a)) -> preserves R (bind m f).
Proof.
  intros Hm Hf w. unfold bind. specialize (Hm w).
  destruct (m w) as [[a|e| |] w1]; simpl in *; try exact Hm.
  eapply R_trans; [exact Hm | apply Hf].
Qed.

Lemma preserves_try_catch {A} (m : M A) (h : Error -> M A) :
  preserves R m -> (forall e, preserves R (h e)) -> preserves R (try_catch m h).
Proof.
  intros Hm Hh w. unfold try_catch. specialize (Hm w).
  destruct (m w) as [[a|e| |] w1]; simpl in *; try exact Hm.
  eapply R_trans; [exact Hm | apply Hh].
Qed.

Lemma preserves_try_finally {A} (m : M A) (fin : M unit) :
  preserves R m -> preserves R fin -> preserves R (try_finally m fin).
Proof.
  intros Hm Hf w. unfold try_finally. specialize (Hm w).
  destruct (m w) as [[a|e| |] w1]; simpl in *; try exact Hm;
    (eapply R_trans; [exact Hm|]); apply preserves_bind; auto;
    intros; first [apply preserves_ret | apply preserves_throw].
Qed.

End Preserved.

Section Steady.

Context {T : Type} {TE : ToolExecutor T} {KC : KoduErrorCodes}.

Implicit Types (w : World T).

Local Abbreviation grows := (@grows T).
Local Abbreviation steady := (@steady T).
Local Abbreviation unflagged := (@unflagged T).

Lemma grows_refl w : grows w w.
Proof. repeat split; [reflexivity | lia | lia]. Qed.

Lemma grows_trans w1 w2 w3 : grows w1 w2 -> grows w2 w3 -> grows w1 w3.
Proof.
  intros (P1 & L1 & C1) (P2 & L2 & C2).
  split; [etrans; eassumption | split; lia].
Qed.

Lemma steady_refl w : steady w w.
Proof. split; [apply grows_refl | split; auto]. Qed.

Lemma steady_trans w1 w2 w3 : steady w1 w2 -> steady w2 w3 -> steady w1 w3.
Proof.
  intros (G1 & A1 & C1) (G2 & A2 & C2).
  split; [eapply grows_trans; eassumption | split; [congruence | auto]].
Qed.

Lemma steady_grows {A} (m : M (T:=T) A) : preserves steady m -> preserves grows m.
Proof. intros H w. apply H. Qed.

Lemma updateFirst_keeps_ts (p : ClaudeMessage -> bool) (f : ClaudeMessage -> ClaudeMessage)
    (l : list ClaudeMessage) :
  (forall x, p x = true -> ts (f x) = ts x) ->
  ts <$> updateFirst p f l = ts <$> l.
Proof.
  intros Hf. unfold updateFirst.
  destruct (findIndex p l) as [i|] eqn:Hi; [|reflexivity].
  revert i Hi. induction l as [|x l IH]; intros i Hi; [discriminate|].
  simpl in Hi. destruct (p x) eqn:Hx.
  - injection Hi as <-. simpl. f_equal. now apply Hf.
  - destruct (findIndex p l) as [j|]; [|discriminate].
    injection Hi as <-. simpl. f_equal. now apply IH.
Qed.

Lemma updateFirst_length {A} (p : A -> bool) (f : A -> A) (l : list A) :
  length (updateFirst p f l) = length l.
Proof.
  unfold updateFirst. destruct (findIndex p l); [apply length_alter | reflexivity].
Qed.

(** A change of the executor's fields other than the two flags, of the ask
    manager, of the tools, or of the host that does not turn the clock
    back. *)
Ltac steady_frame :=
  intros [ex sm am tl hs]; unfold modify; simpl;
  split; [split; [reflexivity | split; simpl; lia] | split; [reflexivity | auto]].

Lemma steady_set_state x : preserves steady (set_state x).
Proof. steady_frame. Qed.
Lemma steady_set_currentUserContent x : preserves steady (set_currentUserContent x).
Proof. steady_frame. Qed.
Lemma steady_clear_isRequestCancelled : preserves steady (set_isRequestCancelled false).
Proof. steady_frame. intros H; discriminate. Qed.
Lemma steady_set_abortController x : preserves steady (set_abortController x).
Proof. steady_frame. Qed.
Lemma steady_set_consecutiveErrorCount x : preserves steady (set_consecutiveErrorCount x).
Proof. steady_frame. Qed.
Lemma steady_set_streamPaused x : preserves steady (set_streamPaused x).
Proof. steady_frame. Qed.
Lemma steady_set_textBuffer x : preserves steady (set_textBuffer x).
Proof. steady_frame. Qed.
Lemma steady_set_flushTimeout x : preserves steady (set_flushTimeout x).
Proof. steady_frame. Qed.
Lemma steady_set_lastFlushTime x : preserves steady (set_lastFlushTime x).
Proof. steady_frame. Qed.
Lemma steady_set_currentReplyId x : preserves steady (set_currentReplyId x).
Proof. steady_frame. Qed.
Lemma steady_abortSignal : preserves steady abortSignal.
Proof. steady_frame. Qed.
Lemma steady_Date_now : preserves steady Date_now.
Proof. steady_frame. Qed.
Lemma steady_emit e : preserves steady (emit e).
Proof. steady_frame. Qed.
Lemma steady_createApiStreamRequest : preserves steady createApiStreamRequest.
Proof. steady_frame. Qed.
Lemma steady_with_askManager f : preserves steady (modify (with_askManager f)).
Proof. steady_frame. Qed.
Lemma steady_with_toolExecutor f : preserves steady (modify (with_toolExecutor f)).
Proof. steady_frame. Qed.

Lemma steady_tool_processToolUse s0 : preserves steady (tool_processToolUse s0).
Proof.
  intros [ex sm am tl hs]. unfold tool_processToolUse. simpl.
  destruct (processToolUse s0 tl). simpl.
  split; [split; [reflexivity | split; simpl; lia] | split; [reflexivity | auto]].
Qed.

Lemma steady_addToClaudeMessages m : preserves steady (addToClaudeMessages m).
Proof.
  intros [ex [msgs hist] am tl hs].
  unfold addToClaudeMessages, modify, with_claudeMessages, with_stateManager.
  cbn [snd executor stateManager host claudeMessages apiConversationHistory].
  split; [split; [|split; simpl; lia] | split; [reflexivity | auto]].
  cbn [snd executor stateManager host claudeMessages apiConversationHistory].
  rewrite fmap_app. apply prefix_app_r. reflexivity.
Qed.

Lemma steady_update_messages (p : ClaudeMessage -> bool) (f : ClaudeMessage -> ClaudeMessage) :
  (forall x, p x = true -> ts (f x) = ts x) ->
  preserves steady (modify (with_claudeMessages (updateFirst p f))).
Proof.
  intros Hf [ex [msgs hist] am tl hs].
  unfold modify, with_claudeMessages, with_stateManager.
  split; [split; [|split; simpl; lia] | split; [reflexivity | auto]].
  cbn [snd executor stateManager host claudeMessages apiConversationHistory].
  now rewrite updateFirst_keeps_ts.
Qed.

Lemma steady_updateClaudeMessage id m :
  ts m = id -> preserves steady (updateClaudeMessage id m).
Proof.
  intros Hm. apply steady_update_messages. intros x Hx.
  apply bool_decide_eq_true_1 in Hx. congruence.
Qed.

Lemma steady_appendToClaudeMessage id s : preserves steady (appendToClaudeMessage id s).
Proof. apply steady_update_messages. reflexivity. Qed.

Lemma steady_addToApiConversationHistory a : preserves steady (addToApiConversationHistory a).
Proof.
  intros [ex [msgs hist] am tl hs]. unfold addToApiConversationHistory, modify. simpl.
  split; [split; [reflexivity|split; simpl; [|lia]] | split; [reflexivity | auto]].
  rewrite length_app. lia.
Qed.

Lemma steady_updateApiHistoryItem id patch : preserves steady (updateApiHistoryItem id patch).
Proof.
  intros [ex [msgs hist] am tl hs]. unfold updateApiHistoryItem, modify. simpl.
  split; [split; [reflexivity|split; simpl; [|lia]] | split; [reflexivity | auto]].
  now rewrite updateFirst_length.
Qed.

Lemma steady_alter_history f i :
  preserves steady (modify (with_apiConversationHistory (alter f i))).
Proof.
  intros [ex [msgs hist] am tl hs]. unfold modify. simpl.
  split; [split; [reflexivity|split; simpl; [|lia]] | split; [reflexivity | auto]].
  now rewrite length_alter.
Qed.

Lemma steady_ret {A} (a : A) : preserves steady (ret a).
Proof. apply preserves_ret, steady_refl. Qed.
Lemma steady_throw {A} (e : Error) : preserves steady (throw (A:=A) e).
Proof. apply preserves_throw, steady_refl. Qed.
Lemma steady_suspended {A} : preserves steady (suspended (A:=A)).
Proof. apply preserves_suspended, steady_refl. Qed.
Lemma steady_outOfFuel {A} : preserves steady (outOfFuel (A:=A)).
Proof. apply preserves_outOfFuel, steady_refl. Qed.
Lemma steady_read {A} (f : Executor -> A) : preserves steady (read f).
Proof. apply preserves_read, steady_refl. Qed.
Lemma steady_gets {A} (f : World T -> A) : preserves steady (gets f).
Proof. apply preserves_gets, steady_refl. Qed.

Lemma steady_bind {A B} (m : M A) (f : A -> M B) :
  preserves steady m -> (forall a, preserves steady (f a)) -> preserves steady (bind m f).
Proof. apply preserves_bind. exact steady_trans. Qed.
Lemma steady_try_catch {A} (m : M A) (h : Error -> M A) :
  preserves steady m -> (forall e, preserves steady (h e)) -> preserves steady (try_catch m h).
Proof. apply preserves_try_catch. exact steady_trans. Qed.
Lemma grows_bind {A B} (m : M A) (f : A -> M B) :
  preserves grows m -> (forall a, preserves grows (f a)) -> preserves grows (bind m f).
Proof. apply preserves_bind. exact grows_trans. Qed.
Lemma grows_try_finally {A} (m : M A) (fin : M unit) :
  preserves grows m -> preserves grows fin -> preserves grows (try_finally m fin).
Proof. apply preserves_try_finally; [exact grows_refl | exact grows_trans]. Qed.

(** The one way a round rewrites a displayed message: the entry found under
    an id is put back under that id. *)
Lemma steady_finish_message {A} id metrics err (rest : M A) :
  preserves steady rest ->
  preserves steady
    (bind (getMessageById id)
       (fun started =>
          bind
            match started with
            | Some m => updateClaudeMessage id (msg_finish metrics err m)
            | None => ret tt
            end
            (fun _ => rest))).
Proof.
  intros Hrest w. unfold bind at 1. unfold getMessageById, gets. cbn [fst snd].
  destruct (List.find (hasTs id) (claudeMessages (stateManager w))) as [m|] eqn:Hm.
  - apply find_some in Hm as [_ Hm]. apply bool_decide_eq_true_1 in Hm.
    apply steady_bind; [|intros _; exact Hrest].
    apply steady_updateClaudeMessage. destruct err; exact Hm.
  - apply steady_bind; [apply steady_ret | intros _; exact Hrest].
Qed.

Create HintDb steady discriminated.

#[local] Hint Resolve steady_ret steady_throw steady_suspended steady_outOfFuel steady_read
  steady_gets steady_set_state steady_set_currentUserContent steady_clear_isRequestCancelled
  steady_set_abortController steady_set_consecutiveErrorCount steady_set_streamPaused
  steady_set_textBuffer steady_set_flushTimeout steady_set_lastFlushTime
  steady_set_currentReplyId steady_abortSignal steady_Date_now steady_emit
  steady_createApiStreamRequest steady_with_askManager steady_with_toolExecutor
  steady_tool_processToolUse steady_addToClaudeMessages steady_appendToClaudeMessage
  steady_addToApiConversationHistory steady_updateApiHistoryItem steady_alter_history : steady.

Ltac steady_step :=
  first
    [ assumption
    | solve [auto with steady]
    | match goal with
      | |- preserves _ (bind (getMessageById _) _) => apply steady_finish_message
      | |- preserves _ (updateClaudeMessage _ _) =>
          apply steady_updateClaudeMessage; reflexivity
      | |- preserves _ (bind _ _) => apply steady_bind; [|intros ?]
      | |- preserves _ (try_catch _ _) => apply steady_try_catch; [|intros ?]
      | |- preserves _ (if ?b then _ else _) => destruct b
      | |- preserves _ (match ?x with _ => _ end) => destruct x
      | |- preserves _ (let '(_, _) := ?x in _) => destruct x
      end ].

Ltac steady_tac :=
  unfold when, postStateToWebview, cancelledOrAborting, tool_resetToolState,
    tool_getToolResults, tool_hasActiveTools, tool_waitForToolProcessing;
  repeat steady_step.

Lemma steady_say kind text sayTs isSub : preserves steady (say kind text sayTs isSub).
Proof. unfold say. steady_tac. Qed.

Lemma steady_handleResponse id r : preserves steady (handleResponse id r).
Proof. unfold handleResponse. steady_tac. Qed.

Lemma steady_ask_register kind data askTs : preserves steady (ask_register kind data askTs).
Proof. unfold ask_register, getMessageById. steady_tac. Qed.

Lemma steady_updateAsk kind data askTs : preserves steady (updateAsk kind data askTs).
Proof. unfold updateAsk, getMessageById. steady_tac. Qed.

Lemma steady_ask_await id : preserves steady (ask_await id).
Proof.
  intros [ex sm am tl hs]. unfold ask_await. simpl.
  destruct (responses hs) as [|r rest]; [apply steady_refl|].
  eapply steady_trans;
    [|apply steady_bind;
      [apply steady_handleResponse | intros; apply steady_ret]].
  simpl. split; [split; [reflexivity | split; simpl; lia] | split; [reflexivity | auto]].
Qed.

Lemma steady_ask kind data : preserves steady (ask kind data).
Proof.
  unfold ask, AskManager_ask.
  apply steady_bind; [apply steady_ask_register|].
  intros id. apply steady_ask_await.
Qed.

Lemma steady_flushTextBuffer replyId force : preserves steady (flushTextBuffer replyId force).
Proof. unfold flushTextBuffer. steady_tac. Qed.

Lemma steady_flushTimeoutFired : preserves steady flushTimeoutFired.
Proof. unfold flushTimeoutFired. steady_tac. Qed.

Lemma steady_pauseStream : preserves steady pauseStream.
Proof. unfold pauseStream. pose proof steady_flushTextBuffer. steady_tac. Qed.

Lemma steady_resumeStream : preserves steady resumeStream.
Proof. unfold resumeStream. steady_tac. Qed.

Lemma steady_handleAskResponse r text images :
  preserves steady (handleAskResponse r text images).
Proof. unfold handleAskResponse. pose proof steady_handleResponse. steady_tac. Qed.

#[local] Hint Resolve steady_say steady_ask steady_ask_register steady_updateAsk
  steady_flushTextBuffer steady_pauseStream steady_resumeStream : steady.

Section SteadyRound.

Variable k : M (T:=T) unit.
Hypothesis steady_k : preserves steady k.

Lemma steady_handleApiError e : preserves steady (handleApiError k e).
Proof. unfold handleApiError. steady_tac. Qed.

Lemma steady_finishProcessingResponse a : preserves steady (finishProcessingResponse k a).
Proof. unfold finishProcessingResponse. steady_tac. Qed.

Lemma steady_onImmediateEndOfStream id chunk :
  preserves steady (onImmediateEndOfStream id chunk).
Proof. unfold onImmediateEndOfStream. steady_tac. Qed.

Lemma steady_onChunk id itemRef chunk loc : preserves steady (onChunk id itemRef chunk loc).
Proof. unfold onChunk. steady_tac. Qed.

Lemma steady_onFinalEndOfStream id loc : preserves steady (onFinalEndOfStream k id loc).
Proof.
  unfold onFinalEndOfStream. pose proof steady_finishProcessingResponse. steady_tac.
Qed.

Lemma steady_processStream id itemRef replyId stream :
  forall ended loc, preserves steady (processStream k id itemRef replyId stream ended loc).
Proof.
  induction stream as [|item stream IH]; intros ended loc; simpl.
  - destruct ended; [apply steady_onFinalEndOfStream | apply steady_ret].
  - destruct item as [chunk|e]; [|apply steady_throw].
    destruct (isEndOfStream chunk);
      apply steady_bind;
      first [apply steady_onImmediateEndOfStream | apply steady_onChunk | intros; apply IH].
Qed.

Lemma steady_processApiResponse stream id : preserves steady (processApiResponse k stream id).
Proof. unfold processApiResponse. pose proof steady_processStream. steady_tac. Qed.

Lemma steady_makeClaudeRequest_round : preserves steady (makeClaudeRequest_round k).
Proof.
  unfold makeClaudeRequest_round.
  pose proof steady_processApiResponse. pose proof steady_handleApiError. steady_tac.
Qed.

Lemma steady_startTask c : preserves steady (startTask k c).
Proof. unfold startTask. steady_tac. Qed.

Lemma steady_resumeTask c : preserves steady (resumeTask k c).
Proof. unfold resumeTask. steady_tac. Qed.

Lemma steady_newMessage c : preserves steady (newMessage k c).
Proof. unfold newMessage. steady_tac. Qed.

Lemma steady_onResumeAnswer res : preserves steady (onResumeAnswer k res).
Proof. unfold onResumeAnswer. steady_tac. Qed.

End SteadyRound.

Lemma steady_makeClaudeRequest fuel : preserves steady (makeClaudeRequest fuel).
Proof.
  induction fuel as [|fuel IH]; simpl; apply steady_makeClaudeRequest_round;
    [apply steady_outOfFuel | exact IH].
Qed.

Ltac grows_step :=
  first
    [ assumption
    | apply steady_grows; solve [auto with steady]
    | match goal with
      | |- preserves _ (updateClaudeMessage _ _) =>
          apply steady_grows; apply steady_updateClaudeMessage; reflexivity
      | |- preserves _ (bind _ _) => apply grows_bind; [|intros ?]
      | |- preserves _ (try_finally _ _) => apply grows_try_finally
      | |- preserves _ (if ?b then _ else _) => destruct b
      | |- preserves _ (match ?x with _ => _ end) => destruct x
      end ].

Lemma grows_set_isRequestCancelled x : preserves grows (set_isRequestCancelled x).
Proof.
  intros [ex sm am tl hs]. unfold modify. simpl.
  split; [reflexivity | split; simpl; lia].
Qed.

Lemma grows_set_isAborting x : preserves grows (set_isAborting x).
Proof.
  intros [ex sm am tl hs]. unfold modify. simpl.
  split; [reflexivity | split; simpl; lia].
Qed.

Lemma grows_cancelCurrentRequest : preserves grows cancelCurrentRequest.
Proof.
  unfold cancelCurrentRequest, postStateToWebview.
  pose proof (grows_set_isRequestCancelled true). repeat grows_step.
Qed.

Lemma grows_resetState : preserves grows resetState.
Proof.
  apply steady_grows. unfold resetState. steady_tac.
Qed.

Lemma grows_abortTask : preserves grows abortTask.
Proof.
  unfold abortTask, tool_abortTask.
  pose proof grows_cancelCurrentRequest. pose proof grows_resetState.
  pose proof (grows_set_isAborting true). pose proof (grows_set_isAborting false).
  repeat grows_step.
Qed.

(** X6. No method of the executor takes back what was displayed or sent.
    Over a request round (with all the rounds it re-enters, however it
    ends), over [startTask], [resumeTask], [newMessage], the answer to a
    resume ask, [abortTask], [handleAskResponse], [pauseStream],
    [resumeStream] and the firing of the flush timer, the displayed messages
    keep their timestamps and their order, new ones being added at the end
    only; the API history does not get shorter; the clock is not turned
    back. *)
Theorem executor_never_takes_back (fuel : nat) (c : UserContent) (res : AskResponse)
    (r : ClaudeAskResponse) (text : option string) (images : option (list string)) :
  preserves grows (makeClaudeRequest fuel)
  /\ preserves grows (startTask (makeClaudeRequest fuel) c)
  /\ preserves grows (resumeTask (makeClaudeRequest fuel) c)
  /\ preserves grows (newMessage (makeClaudeRequest fuel) c)
  /\ preserves grows (onResumeAnswer (makeClaudeRequest fuel) res)
  /\ preserves grows abortTask
  /\ preserves grows (handleAskResponse r text images)
  /\ preserves grows pauseStream
  /\ preserves grows resumeStream
  /\ preserves grows flushTimeoutFired.
Proof.
  pose proof (steady_makeClaudeRequest fuel) as Hk.
  repeat split; try apply grows_abortTask; apply steady_grows;
    auto using steady_startTask, steady_resumeTask, steady_newMessage, steady_onResumeAnswer,
      steady_handleAskResponse, steady_pauseStream, steady_resumeStream,
      steady_flushTimeoutFired.
Qed.

(** X7. A request round never starts or ends an abort and never cancels
    itself: over [makeClaudeRequest] with all the rounds it re-enters, and
    over [startTask], [resumeTask] and [newMessage] which begin one, the
    aborting flag keeps its value and the cancelled flag is not raised. *)
Theorem round_keeps_flags (fuel : nat) (c : UserContent) :
  preserves unflagged (makeClaudeRequest fuel)
  /\ preserves unflagged (startTask (makeClaudeRequest fuel) c)
  /\ preserves unflagged (resumeTask (makeClaudeRequest fuel) c)
  /\ preserves unflagged (newMessage (makeClaudeRequest fuel) c).
Proof.
  pose proof (steady_makeClaudeRequest fuel) as Hk.
  assert (H : forall m : M (T:=T) unit, preserves steady m -> preserves unflagged m).
  { intros m Hm w. apply Hm. }
  repeat split; apply H;
    auto using steady_startTask, steady_resumeTask, steady_newMessage.
Qed.

End Steady.

(** ** The text buffer, unforced *)

Section FlushProperties.

Context {T : Type} {TE : ToolExecutor T} {KC : KoduErrorCodes}.

Implicit Types (w : World T).

Local Arguments Nat.leb : simpl never.
Local Arguments jsLength : simpl never.
Local Arguments Z.leb : simpl never.
Local Arguments Z.sub : simpl never.

Lemma not_blank s : trim s <> "" -> isBlank s = false.
Proof. unfold isBlank. destruct (trim s); [contradiction | reflexivity]. Qed.

(** X8. An unforced flush of a buffer that holds more than white space, to a
    non-zero reply identity. When the buffer has reached the size threshold,
    counted in UTF-16 code units as [length] counts,
    or the flush interval has elapsed since the last flush, the buffer is
    emptied, its text is appended to the entry of that identity, the time of
    the flush is recorded and no timer is left. Otherwise nothing is written
    and the buffer is kept; unless the stream is paused a timer is armed for
    that identity with the rest of the interval, which is positive; while it
    is paused no timer is left. *)
Theorem flushTextBuffer_unforced (id : Z) w :
  trim (textBuffer (executor w)) <> "" ->
  id <> 0 ->
  exists w',
    flushTextBuffer (Some id) false w = (Ok tt, w')
    /\ ((BUFFER_SIZE_THRESHOLD <= jsLength (textBuffer (executor w)))%nat
        \/ BUFFER_FLUSH_INTERVAL <= clock (host w) - lastFlushTime (executor w) ->
        textBuffer (executor w') = ""
        /\ claudeMessages (stateManager w')
           = updateFirst (hasTs id)
               (fun m => msg_set_text (Some (appendText (text m) (textBuffer (executor w)))) m)
               (claudeMessages (stateManager w))
        /\ lastFlushTime (executor w') = clock (host w)
        /\ flushTimeout (executor w') = None)
    /\ ((jsLength (textBuffer (executor w)) < BUFFER_SIZE_THRESHOLD)%nat
        /\ clock (host w) - lastFlushTime (executor w) < BUFFER_FLUSH_INTERVAL ->
        textBuffer (executor w') = textBuffer (executor w)
        /\ claudeMessages (stateManager w') = claudeMessages (stateManager w)
        /\ lastFlushTime (executor w') = lastFlushTime (executor w)
        /\ flushTimeout (executor w')
           = (if streamPaused (executor w) then None
              else Some (mkFlushTimer id
                           (BUFFER_FLUSH_INTERVAL
                            - (clock (host w) - lastFlushTime (executor w)))))
        /\ 0 < BUFFER_FLUSH_INTERVAL - (clock (host w) - lastFlushTime (executor w))).
Proof.
  intros Hbuf Hid. destruct w as [ex [msgs hist] am tl hs]. simpl in *.
  apply not_blank in Hbuf. apply Z.eqb_neq in Hid.
  unfold flushTextBuffer, appendToClaudeMessage. run. rewrite Hbuf, Hid. simpl.
  destruct (Nat.leb BUFFER_SIZE_THRESHOLD (jsLength (textBuffer ex))) eqn:Hsize;
    [|destruct (Z.leb BUFFER_FLUSH_INTERVAL (clock hs - lastFlushTime ex)) eqn:Htime];
    simpl.
  - destruct (flushTimeout ex) eqn:Hf; simpl;
      (eexists; split; [reflexivity|]; simpl; split;
       [intros _; repeat split; assumption
       | intros [Hlt _]; apply Nat.leb_le in Hsize; lia]).
  - destruct (flushTimeout ex) eqn:Hf; simpl;
      (eexists; split; [reflexivity|]; simpl; split;
       [intros _; repeat split; assumption
       | intros [_ Hlt]; apply Z.leb_le in Htime; lia]).
  - apply Nat.leb_gt in Hsize. apply Z.leb_gt in Htime.
    destruct (flushTimeout ex) eqn:Hf; simpl; destruct (streamPaused ex); simpl;
      (eexists; split; [reflexivity|]; simpl; split;
       [intros [Hs | Ht]; lia
       | intros _; repeat split; first [assumption | lia]]).
Qed.

(** X9. A flush that was put off is made up when its timer fires. After an
    unforced flush that was not yet due, with the stream running, the firing
    of the timer it armed leaves the displayed messages as a forced flush
    in its place would have left them, and the buffer empty. *)
Theorem deferred_flush_delivers (id : Z) w :
  trim (textBuffer (executor w)) <> "" ->
  id <> 0 ->
  streamPaused (executor w) = false ->
  (jsLength (textBuffer (executor w)) < BUFFER_SIZE_THRESHOLD)%nat ->
  clock (host w) - lastFlushTime (executor w) < BUFFER_FLUSH_INTERVAL ->
  exists w1 w2 w3,
    flushTextBuffer (Some id) false w = (Ok tt, w1)
    /\ claudeMessages (stateManager w1) = claudeMessages (stateManager w)
    /\ flushTimeoutFired w1 = (Ok tt, w2)
    /\ flushTextBuffer (Some id) true w = (Ok tt, w3)
    /\ claudeMessages (stateManager w2) = claudeMessages (stateManager w3)
    /\ textBuffer (executor w2) = ""
    /\ textBuffer (executor w3) = "".
Proof.
  intros Hbuf Hid Hp Hsize Htime. destruct w as [ex [msgs hist] am tl hs]. simpl in *.
  apply not_blank in Hbuf. apply Z.eqb_neq in Hid.
  apply Nat.leb_gt in Hsize. apply Z.leb_gt in Htime.
  unfold flushTextBuffer, flushTimeoutFired, appendToClaudeMessage.
  run. rewrite Hbuf, Hid. simpl. rewrite Hsize, Htime. simpl.
  destruct (flushTimeout ex); simpl; rewrite Hp; simpl;
    (eexists; eexists; eexists; split; [reflexivity|]; simpl;
     split; [reflexivity|]; rewrite Hbuf, Hp; simpl;
     split; [reflexivity|]; split; [reflexivity|]; simpl; repeat split).
Qed.

Lemma flushTimeoutFired_paused w :
  streamPaused (executor w) = true -> flushTimeoutFired w = (Ok tt, w).
Proof.
  intros Hp. destruct w as [ex sm am tl hs]. simpl in Hp.
  unfold flushTimeoutFired. run.
  destruct (flushTimeout ex); [|reflexivity].
  simpl. now rewrite Hp, andb_false_r.
Qed.

Lemma pauseStream_paused w :
  streamPaused (executor w) = true -> pauseStream w = (Ok tt, w).
Proof.
  intros Hp. destruct w as [ex sm am tl hs]. simpl in Hp.
  unfold pauseStream. run. now rewrite Hp.
Qed.

Lemma resumeStream_paused w :
  streamPaused (executor w) = true ->
  exists w2,
    resumeStream w = (Ok tt, w2)
    /\ streamPaused (executor w2) = false
    /\ lastFlushTime (executor w2) = clock (host w)
    /\ textBuffer (executor w2) = textBuffer (executor w)
    /\ claudeMessages (stateManager w2) = claudeMessages (stateManager w).
Proof.
  intros Hp. destruct w as [ex sm am tl hs]. simpl in Hp.
  unfold resumeStream. run. rewrite Hp.
  eexists. split; [reflexivity|]. simpl. repeat split.
Qed.

Lemma pauseStream_run w :
  exists w1,
    pauseStream w = (Ok tt, w1)
    /\ streamPaused (executor w1) = true
    /\ (streamPaused (executor w) = true -> w1 = w)
    /\ (forall id,
          streamPaused (executor w) = false ->
          currentReplyId (executor w) = Some id ->
          id <> 0 ->
          trim (textBuffer (executor w)) <> "" ->
          textBuffer (executor w1) = ""
          /\ claudeMessages (stateManager w1)
             = updateFirst (hasTs id)
                 (fun m => msg_set_text (Some (appendText (text m) (textBuffer (executor w)))) m)
                 (claudeMessages (stateManager w))).
Proof.
  destruct (streamPaused (executor w)) eqn:Hp.
  { exists w. split; [now apply pauseStream_paused|]. split; [exact Hp|].
    split; [reflexivity|]. intros id H; discriminate. }
  destruct w as [ex [msgs hist] am tl hs]. simpl in Hp.
  unfold pauseStream, flushTextBuffer, appendToClaudeMessage. run. rewrite Hp. simpl.
  destruct (currentReplyId ex) as [id|] eqn:Hid; simpl.
  - destruct (isBlank (textBuffer ex) || negb (negb (Z.eqb id 0))) eqn:Hg; simpl.
    + eexists. split; [reflexivity|]. simpl.
      split; [reflexivity|]. split; [intros H; discriminate|].
      intros id' _ Hid' Hnz Hbuf. injection Hid' as <-.
      apply not_blank in Hbuf. apply Z.eqb_neq in Hnz.
      rewrite Hbuf, Hnz in Hg. discriminate.
    + destruct (flushTimeout ex); simpl;
        (eexists; split; [reflexivity|]; simpl;
         split; [reflexivity|]; split; [intros H; discriminate|];
         intros id' _ Hid' _ _; injection Hid' as <-; split; reflexivity).
  - eexists. split; [reflexivity|]. simpl.
    split; [reflexivity|]. split; [intros H; discriminate|].
    intros id _ H; discriminate.
Qed.

(** X10. [pauseStream] always returns with the stream paused. If the stream
    was already paused nothing changes. While the stream is paused, a second
    [pauseStream] and the firing of a flush timer change nothing. A
    pause taken with a non-zero current reply and a buffer that holds more
    than white space has written the buffer to that reply and emptied it.
    [resumeStream] then ends the pause, records the time as that of the
    last flush, and touches neither the buffer nor the displayed
    messages. *)
Theorem pauseStream_holds_back w :
  exists w1,
    pauseStream w = (Ok tt, w1)
    /\ streamPaused (executor w1) = true
    /\ (streamPaused (executor w) = true -> w1 = w)
    /\ pauseStream w1 = (Ok tt, w1)
    /\ flushTimeoutFired w1 = (Ok tt, w1)
    /\ (forall id,
          streamPaused (executor w) = false ->
          currentReplyId (executor w) = Some id ->
          id <> 0 ->
          trim (textBuffer (executor w)) <> "" ->
          textBuffer (executor w1) = ""
          /\ claudeMessages (stateManager w1)
             = updateFirst (hasTs id)
                 (fun m => msg_set_text (Some (appendText (text m) (textBuffer (executor w)))) m)
                 (claudeMessages (stateManager w)))
    /\ exists w2,
         resumeStream w1 = (Ok tt, w2)
         /\ streamPaused (executor w2) = false
         /\ lastFlushTime (executor w2) = clock (host w1)
         /\ textBuffer (executor w2) = textBuffer (executor w1)
         /\ claudeMessages (stateManager w2) = claudeMessages (stateManager w1).
Proof.
  destruct (pauseStream_run w) as (w1 & Hrun & Hp & Hsame & Hflush).
  exists w1. split; [exact Hrun|]. split; [exact Hp|]. split; [exact Hsame|].
  split; [now apply pauseStream_paused|].
  split; [now apply flushTimeoutFired_paused|].
  split; [exact Hflush|]. now apply resumeStream_paused.
Qed.

End FlushProperties.

(** ** What a round sends *)

Section RoundProperties.

Context {T : Type} {TE : ToolExecutor T} {KC : KoduErrorCodes}.

Implicit Types (w : World T) (k : M (T:=T) unit).

Local Abbreviation mono := (@mono T _).

Ltac eval_world :=
  cbn [with_executor with_host with_toolExecutor with_stateManager with_askManager
       ex_set_state ex_set_currentUserContent ex_set_isRequestCancelled
       ex_set_abortController ex_set_consecutiveErrorCount ex_set_isAborting
       ex_set_streamPaused ex_set_textBuffer ex_set_flushTimeout ex_set_lastFlushTime
       ex_set_currentReplyId executor stateManager askManager toolExecutor host
       state currentUserContent isRequestCancelled abortController consecutiveErrorCount
       isAborting streamPaused textBuffer flushTimeout lastFlushTime currentReplyId
       clock responses streams trace claudeMessages apiConversationHistory fst snd].

Lemma makeClaudeRequest_round_sends k w :
  mono k ->
  requestGuard w = true ->
  (consecutiveErrorCount (executor w) < 3)%nat \/ responses (host w) <> [] ->
  exists pre id rest,
    trace (host (snd (makeClaudeRequest_round k w)))
    = trace (host w) ++ pre
      ++ EvSay id say_api_req_started
         :: EvOpenStream
              (apiConversationHistory (stateManager w)
               ++ [mkApiHistoryItem user
                     (ContentBlocks (default [] (currentUserContent (executor w)))) None])
         :: rest
    /\ ((consecutiveErrorCount (executor w) < 3)%nat -> pre = [])
    /\ ((3 <= consecutiveErrorCount (executor w))%nat ->
        exists askId, pre = [EvAsk askId ask_resume_task]).
Proof.
  intros Hk Hg Hn. destruct w as [ex [msgs hist] am tl [clk resp strs tr]].
  cbn [executor host responses] in Hn.
  unfold makeClaudeRequest_round.
  erewrite try_catch_bind_ok by reflexivity.
  rewrite Hg. cbv beta. cbn [negb].
  do 9 (erewrite try_catch_bind_ok by reflexivity).
  eval_world.
  assert (Hfin : forall (m : M (T:=T) unit) h w0 pre id hist0,
            mono (try_catch m h) ->
            trace (host w0) = tr ++ pre ++ [EvSay id say_api_req_started; EvOpenStream hist0] ->
            exists rest,
              trace (host (snd (try_catch m h w0)))
              = tr ++ pre ++ EvSay id say_api_req_started :: EvOpenStream hist0 :: rest).
  { intros m h w0 pre id hist0 Hm Hw0. destruct (Hm w0) as [[l Hl] _].
    exists l. rewrite Hl, Hw0. now rewrite <- !app_assoc. }
  assert (Hrest : forall stream id,
            mono (try_catch
                    (bind cancelledOrAborting
                       (fun stop : bool =>
                          if stop then abortSignal
                          else bind (set_state PROCESSING_RESPONSE)
                                 (fun _ => processApiResponse k stream id)))
                    (fun error =>
                       bind cancelledOrAborting
                         (fun stop : bool =>
                            if negb stop then
                              match error with
                              | KoduError errorCode message =>
                                  if Z.eqb errorCode AUTHENTICATION_ERROR then
                                    handleApiError k (mkTaskError UNAUTHORIZED message)
                                  else if Z.eqb errorCode PAYMENT_REQUIRED_CODE then
                                    handleApiError k (mkTaskError PAYMENT_REQUIRED message)
                                  else handleApiError k (mkTaskError API_ERROR message)
                              | JsError message =>
                                  handleApiError k (mkTaskError UNKNOWN_ERROR message)
                              end
                            else ret tt)))).
  { intros stream id.
    pose proof (mono_processApiResponse k Hk) as Hp.
    pose proof (mono_handleApiError k Hk) as Hh.
    apply mono_try_catch; [|intros e];
      (apply mono_bind; [unfold cancelledOrAborting; repeat (apply mono_bind; [|intros ?]);
                           first [apply mono_read | apply mono_ret]|]);
      intros stop; destruct stop; simpl.
    - apply mono_abortSignal.
    - apply mono_bind; [apply mono_set_state | intros; apply Hp].
    - apply mono_ret.
    - destruct e as [code msg|msg]; [|apply Hh].
      destruct (Z.eqb code AUTHENTICATION_ERROR); [apply Hh|].
      destruct (Z.eqb code PAYMENT_REQUIRED_CODE); apply Hh. }
  destruct (Nat.leb 3 (consecutiveErrorCount ex)) eqn:Hc.
  - apply Nat.leb_le in Hc.
    destruct resp as [|r resp]; [destruct Hn as [Hn|Hn]; [lia | contradiction]|].
    do 5 (erewrite try_catch_bind_ok by reflexivity).
    exists [EvAsk (clk + 1) ask_resume_task]. eexists.
    edestruct Hfin as [rest Hrest']; [apply Hrest | | exists rest; split; [exact Hrest'|]].
    + unfold with_claudeMessages, with_apiConversationHistory. eval_world.
      rewrite <- !app_assoc. reflexivity.
    + split; [lia | intros _; eexists; reflexivity].
  - apply Nat.leb_gt in Hc.
    do 5 (erewrite try_catch_bind_ok by reflexivity).
    exists []. eexists.
    edestruct Hfin as [rest Hrest']; [apply Hrest | | exists rest; split; [exact Hrest'|]].
    + unfold with_claudeMessages, with_apiConversationHistory. eval_world.
      rewrite <- !app_assoc. reflexivity.
    + split; [reflexivity | lia].
Qed.

(** X11. A request round that passes its guard sends the pending user
    content. Unless it is held at the resume ask of three errors in a row
    (count of three or more and no answer from the user), [makeClaudeRequest]
    adds to the effect log the request-started notice and then the opening
    of a stream on the API history extended by one user turn whose content
    is the pending user content. With a count below three nothing precedes
    the notice; with a count of three or more only the resume ask does, and
    its answer, whatever it is, does not keep the request from being sent. *)
Theorem makeClaudeRequest_sends_pending_content (fuel : nat) w :
  requestGuard w = true ->
  (consecutiveErrorCount (executor w) < 3)%nat \/ responses (host w) <> [] ->
  exists pre id rest,
    trace (host (snd (makeClaudeRequest fuel w)))
    = trace (host w) ++ pre
      ++ EvSay id say_api_req_started
         :: EvOpenStream
              (apiConversationHistory (stateManager w)
               ++ [mkApiHistoryItem user
                     (ContentBlocks (default [] (currentUserContent (executor w)))) None])
         :: rest
    /\ ((consecutiveErrorCount (executor w) < 3)%nat -> pre = [])
    /\ ((3 <= consecutiveErrorCount (executor w))%nat ->
        exists askId, pre = [EvAsk askId ask_resume_task]).
Proof.
  intros Hg Hn. rewrite makeClaudeRequest_unfold.
  apply makeClaudeRequest_round_sends; [|exact Hg|exact Hn].
  destruct fuel; [apply mono_outOfFuel | apply mono_makeClaudeRequest].
Qed.

Lemma requestGuard_fields w :
  requestGuard w = true ->
  state (executor w) = WAITING_FOR_API
  /\ is_Some (currentUserContent (executor w))
  /\ isRequestCancelled (executor w) = false
  /\ isAborting (executor w) = false.
Proof.
  unfold requestGuard. intros H.
  apply andb_prop in H as [H Ha]. apply andb_prop in H as [H Hc].
  apply andb_prop in H as [Hs Hu].
  apply bool_decide_eq_true_1 in Hs. apply bool_decide_eq_true_1 in Hu.
  apply negb_true_iff in Ha. apply negb_true_iff in Hc. auto.
Qed.

Ltac history_cases sm :=
  destruct (last (apiConversationHistory sm)) as [lastItem|];
  [ destruct (bool_decide (role lastItem = assistant) && truthyId (h_ts lastItem));
    [ destruct (h_ts lastItem) | ] | ];
  simpl.

Lemma handleApiError_fatal_run k (t : TaskErrorType) (msg : string) w :
  isFatal t = true ->
  exists w1 id,
    handleApiError k (mkTaskError t msg) w = (Ok tt, w1)
    /\ state (executor w1) = IDLE
    /\ consecutiveErrorCount (executor w1) = S (consecutiveErrorCount (executor w))
    /\ last (claudeMessages (stateManager w1))
       = Some (mkClaudeMessage id type_say None
                 (Some (if bool_decide (t = PAYMENT_REQUIRED)
                        then say_payment_required else say_unauthorized))
                 (Some (Plain msg)) (Some 1%nat) false false false None None false)
    /\ pendingAsks (askManager w1) = pendingAsks (askManager w)
    /\ responses (host w1) = responses (host w).
Proof.
  intros Hfatal. destruct w as [ex sm am tl hs].
  unfold handleApiError, tool_resetToolState, say, addToClaudeMessages, updateApiHistoryItem.
  run. rewrite Hfatal.
  history_cases sm;
    (eexists; eexists; split; [reflexivity|]; simpl;
     rewrite last_snoc; repeat split).
Qed.

Lemma handleApiError_retry_ask_run k (t : TaskErrorType) (msg : string) w :
  isFatal t = false ->
  responses (host w) = [] ->
  exists w1 id,
    handleApiError k (mkTaskError t msg) w = (Pending, w1)
    /\ consecutiveErrorCount (executor w1) = S (consecutiveErrorCount (executor w))
    /\ last (claudeMessages (stateManager w1))
       = Some (askMessage id ask_api_req_failed (Some (mkAskDetails (Some msg) None)))
    /\ pendingAsks (askManager w1) = <[id := ask_api_req_failed]> (pendingAsks (askManager w)).
Proof.
  intros Hfatal Hresp. destruct w as [ex sm am tl [clk resp strs tr]].
  simpl in Hresp. subst resp.
  unfold handleApiError, tool_resetToolState, ask, AskManager_ask, ask_register, ask_await,
    addToClaudeMessages, updateApiHistoryItem.
  run. rewrite Hfatal.
  history_cases sm;
    (eexists; eexists; split; [reflexivity|]; simpl;
     rewrite last_snoc; repeat split).
Qed.

Lemma round_stream_error k w (first : StreamItem) (chunks : Stream) (others : list Stream)
    (e : Error) :
  requestGuard w = true ->
  (consecutiveErrorCount (executor w) < 3)%nat ->
  streams (host w) = (first :: chunks) :: others ->
  failsWith first e ->
  exists t w0,
    makeClaudeRequest_round k w = handleApiError k (mkTaskError t (errorMessage e)) w0
    /\ consecutiveErrorCount (executor w0) = consecutiveErrorCount (executor w)
    /\ pendingAsks (askManager w0) = pendingAsks (askManager w)
    /\ responses (host w0) = responses (host w)
    /\ match e with
       | KoduError code _ =>
           t = if Z.eqb code AUTHENTICATION_ERROR then UNAUTHORIZED
               else if Z.eqb code PAYMENT_REQUIRED_CODE then PAYMENT_REQUIRED
               else API_ERROR
       | JsError _ => t = UNKNOWN_ERROR
       end.
Proof.
  intros Hg Hn Hs Hfirst.
  destruct (requestGuard_fields w Hg) as (Hst & [c Hu] & Hc & Ha).
  destruct w as [ex [msgs hist] am tl [clk resp strs tr]].
  cbn [executor host streams stateManager] in *. subst strs.
  apply Nat.leb_gt in Hn.
  unfold makeClaudeRequest_round.
  erewrite try_catch_bind_ok by reflexivity.
  rewrite Hg. cbv beta. cbn [negb].
  do 9 (erewrite try_catch_bind_ok by reflexivity).
  eval_world. rewrite Hn.
  do 5 (erewrite try_catch_bind_ok by reflexivity).
  clear Hg Hn.
  unfold try_catch, processApiResponse, say, addToClaudeMessages, addToApiConversationHistory.
  run. rewrite ?Hc, ?Ha. simpl.
  destruct Hfirst as [-> | (status & text & -> & ->)]; simpl.
  - repeat (rewrite Ha; simpl).
    destruct e as [code msg|msg]; simpl;
      [destruct (Z.eqb code AUTHENTICATION_ERROR);
       [|destruct (Z.eqb code PAYMENT_REQUIRED_CODE)]|];
      (eexists; eexists; split; [reflexivity|]; simpl; repeat split).
  - unfold onImmediateEndOfStream, getMessageById, updateClaudeMessage. run.
    repeat (rewrite Ha; simpl).
    match goal with
    | |- context [List.find ?p ?l] => destruct (List.find p l)
    end; simpl; repeat (rewrite Ha; simpl);
      (destruct (Z.eqb (default 500 status) AUTHENTICATION_ERROR);
       [|destruct (Z.eqb (default 500 status) PAYMENT_REQUIRED_CODE)]);
      (eexists; eexists; split; [reflexivity|]; simpl; repeat split).
Qed.

(** X12. How a round ends when the first event of its stream fails (the
    generator raises, or the event is an error event, which the round
    turns into an error of the event's status or 500), with fewer than
    three errors so far. If the error carries the authentication or the
    payment code, the round returns with the state IDLE, the count of
    consecutive errors one higher, and the notice for that code, with the
    error's message, as the last displayed message; no ask is registered and
    no answer consumed. For every other error the round registers a
    retry ask whose question is the error's message, also with the count
    one higher, and without an answer it stays suspended there. *)
Theorem makeClaudeRequest_stream_error (fuel : nat) w (first : StreamItem) (chunks : Stream)
    (others : list Stream) (e : Error) :
  requestGuard w = true ->
  (consecutiveErrorCount (executor w) < 3)%nat ->
  streams (host w) = (first :: chunks) :: others ->
  failsWith first e ->
  (forall code msg,
      e = KoduError code msg ->
      code = AUTHENTICATION_ERROR \/ code = PAYMENT_REQUIRED_CODE ->
      exists w1 id,
        makeClaudeRequest fuel w = (Ok tt, w1)
        /\ state (executor w1) = IDLE
        /\ consecutiveErrorCount (executor w1) = S (consecutiveErrorCount (executor w))
        /\ last (claudeMessages (stateManager w1))
           = Some (mkClaudeMessage id type_say None
                     (Some (if Z.eqb code AUTHENTICATION_ERROR
                            then say_unauthorized else say_payment_required))
                     (Some (Plain msg)) (Some 1%nat) false false false None None false)
        /\ pendingAsks (askManager w1) = pendingAsks (askManager w)
        /\ responses (host w1) = responses (host w))
  /\ ((forall code msg,
         e = KoduError code msg ->
         code <> AUTHENTICATION_ERROR /\ code <> PAYMENT_REQUIRED_CODE) ->
      responses (host w) = [] ->
      exists w1 id,
        makeClaudeRequest fuel w = (Pending, w1)
        /\ consecutiveErrorCount (executor w1) = S (consecutiveErrorCount (executor w))
        /\ last (claudeMessages (stateManager w1))
           = Some (askMessage id ask_api_req_failed
                     (Some (mkAskDetails (Some (errorMessage e)) None)))
        /\ pendingAsks (askManager w1)
           = <[id := ask_api_req_failed]> (pendingAsks (askManager w))).
Proof.
  intros Hg Hn Hs Hfirst. rewrite makeClaudeRequest_unfold.
  match goal with
  | |- context [makeClaudeRequest_round ?k0 w] =>
      destruct (round_stream_error k0 w first chunks others e Hg Hn Hs Hfirst)
        as (t & w0 & -> & Hcount & Hasks & Hresp & Ht)
  end.
  split.
  - intros code msg -> Hcode. simpl in *.
    assert (Hfatal : isFatal t = true
                     /\ (if bool_decide (t = PAYMENT_REQUIRED) then say_payment_required
                         else say_unauthorized)
                        = (if Z.eqb code AUTHENTICATION_ERROR
                           then say_unauthorized else say_payment_required)).
    { destruct (Z.eqb code AUTHENTICATION_ERROR) eqn:H1; [subst t; split; reflexivity|].
      destruct Hcode as [-> | ->]; [now rewrite Z.eqb_refl in H1|].
      rewrite Z.eqb_refl in Ht. subst t. split; reflexivity. }
    destruct Hfatal as [Hfatal <-].
    match goal with
    | |- context [handleApiError ?k0 _ w0] =>
        destruct (handleApiError_fatal_run k0 t msg w0 Hfatal)
          as (w1 & id & Hrun & H1 & H2 & H3 & H4 & H5)
    end.
    exists w1, id. split; [exact Hrun|]. repeat split; congruence.
  - intros Hother Hnone.
    assert (Hfatal : isFatal t = false).
    { destruct e as [code msg|msg]; [|subst t; reflexivity].
      destruct (Hother code msg eq_refl) as [H1 H2].
      apply Z.eqb_neq in H1, H2. rewrite H1, H2 in Ht. subst t. reflexivity. }
    rewrite <- Hresp in Hnone.
    match goal with
    | |- context [handleApiError ?k0 _ w0] =>
        destruct (handleApiError_retry_ask_run k0 t (errorMessage e) w0 Hfatal Hnone)
          as (w1 & id & Hrun & H1 & H2 & H3)
    end.
    exists w1, id. split; [exact Hrun|]. repeat split; congruence.
Qed.

(** ** Entry points *)

Lemma continuationPrompt_not_blank : isBlank continuationPrompt = false.
Proof. reflexivity. Qed.

(** X13. Normalised user content is never empty input: it is the input
    itself whenever the input is not empty (in particular when it starts
    with an image), and the continuation prompt otherwise; normalising
    twice is normalising once. *)
Theorem normalizeUserContent_never_empty (c : UserContent) :
  ~ emptyInput (normalizeUserContent c)
  /\ (~ emptyInput c -> normalizeUserContent c = c)
  /\ (forall source rest, c = ImageBlock source :: rest -> normalizeUserContent c = c)
  /\ normalizeUserContent (normalizeUserContent c) = normalizeUserContent c.
Proof.
  assert (Hprompt : ~ emptyInput [TextBlock continuationPrompt]).
  { intros [H | (t & rest & H & Ht)]; [discriminate|].
    injection H as <- _. vm_compute in Ht. discriminate. }
  assert (Hblank : forall t, isBlank t = false -> trim t <> "").
  { intros t Ht E. unfold isBlank in Ht. rewrite E in Ht. discriminate. }
  destruct c as [|[t|source] rest]; simpl.
  - split; [exact Hprompt|]. split; [|split; [discriminate | reflexivity]].
    intros H. exfalso. apply H. now left.
  - destruct (isBlank t) eqn:Ht; simpl; rewrite ?Ht.
    + split; [exact Hprompt|]. split; [|split; [discriminate | reflexivity]].
      intros H. exfalso. apply H. right. exists t, rest. split; [reflexivity|].
      unfold isBlank in Ht. destruct (trim t); [reflexivity | discriminate].
    + split; [|split; [reflexivity | split; [discriminate | reflexivity]]].
      intros [H | (t' & rest' & H & Ht')]; [discriminate|].
      injection H as <- _. now apply (Hblank t).
  - split; [|split; [reflexivity | split; reflexivity]].
    intros [H | (t' & rest' & H & Ht')]; discriminate.
Qed.

(** X14. While an abort is in progress the entry points refuse to act:
    [startTask], [resumeTask] and [newMessage] throw, each with its own
    message, a second [abortTask] returns at once, and none of them changes
    anything. *)
Theorem entry_points_refuse_while_aborting k (c : UserContent) w :
  isAborting (executor w) = true ->
  startTask k c w = (Throw (JsError "Cannot start task while aborting"), w)
  /\ resumeTask k c w = (Throw (JsError "Cannot resume task while aborting"), w)
  /\ newMessage k c w = (Throw (JsError "Cannot start new message while aborting"), w)
  /\ abortTask w = (Ok tt, w).
Proof.
  intros Ha. destruct w as [ex sm am tl hs]. simpl in Ha.
  unfold startTask, resumeTask, newMessage, abortTask. run. rewrite Ha.
  repeat split.
Qed.

(** X15. [startTask] always gets its content sent, and so does [resumeTask]
    in the state WAITING_FOR_USER: when no abort is in progress they clear
    the cancelled flag and the count of errors, so that the round they begin
    passes its guard and is not held at a resume ask; its first effects are
    the request-started notice and the opening of a stream on the API
    history extended by a user turn with the normalised content. *)
Theorem startTask_sends_content (fuel : nat) (c : UserContent) w :
  isAborting (executor w) = false ->
  (exists id rest,
      trace (host (snd (startTask (makeClaudeRequest fuel) c w)))
      = trace (host w)
        ++ EvSay id say_api_req_started
           :: EvOpenStream
                (apiConversationHistory (stateManager w)
                 ++ [mkApiHistoryItem user (ContentBlocks (normalizeUserContent c)) None])
           :: rest)
  /\ (state (executor w) = WAITING_FOR_USER ->
      exists id rest,
        trace (host (snd (resumeTask (makeClaudeRequest fuel) c w)))
        = trace (host w)
          ++ EvSay id say_api_req_started
             :: EvOpenStream
                  (apiConversationHistory (stateManager w)
                   ++ [mkApiHistoryItem user (ContentBlocks (normalizeUserContent c)) None])
             :: rest).
Proof.
  intros Ha.
  assert (Hk : mono (match fuel with O => outOfFuel | S f => makeClaudeRequest f end)).
  { destruct fuel; [apply mono_outOfFuel | apply mono_makeClaudeRequest]. }
  destruct w as [ex sm am tl hs]. simpl in Ha.
  split; [|intros Hs; simpl in Hs];
    unfold startTask, resumeTask; run; rewrite Ha;
    [|rewrite (bool_decide_eq_true_2 _ Hs)]; simpl;
    rewrite makeClaudeRequest_unfold;
    match goal with
    | |- context [makeClaudeRequest_round ?k0 ?w0] =>
        destruct (makeClaudeRequest_round_sends k0 w0 Hk)
          as (pre & id & rest & Htr & Hpre & _);
          [ unfold requestGuard; simpl; now rewrite Ha
          | left; simpl; lia
          | exists id, rest; rewrite Htr; rewrite Hpre by (simpl; lia); reflexivity ]
    end.
Qed.

(** X29. [newMessage] shows the message and sends it as it came. When no
    abort is in progress and the message is not empty, the first effect is
    the user-feedback entry, showing the text of the first block, or "New
    message" when that block is not text. The content is not normalised and
    the count of errors is not reset: with a count below three the round
    then sends the content as it came, and with a count of three or more the
    resume ask comes before any request. *)
Theorem newMessage_shows_then_sends (fuel : nat) (b : ContentBlock) (more : UserContent) w :
  isAborting (executor w) = false ->
  exists w1 id rest,
    (forall k, newMessage k (b :: more) w = k w1)
    /\ claudeMessages (stateManager w1)
       = claudeMessages (stateManager w)
         ++ [sayMessage id say_user_feedback
               (match b with TextBlock t => t | ImageBlock _ => "New message" end)]
    /\ currentUserContent (executor w1) = Some (b :: more)
    /\ consecutiveErrorCount (executor w1) = consecutiveErrorCount (executor w)
    /\ trace (host (snd (makeClaudeRequest fuel w1)))
       = trace (host w) ++ EvSay id say_user_feedback :: rest
    /\ ((consecutiveErrorCount (executor w) < 3)%nat ->
        exists reqId rest',
          rest = EvSay reqId say_api_req_started
                 :: EvOpenStream
                      (apiConversationHistory (stateManager w)
                       ++ [mkApiHistoryItem user (ContentBlocks (b :: more)) None])
                 :: rest')
    /\ ((3 <= consecutiveErrorCount (executor w))%nat ->
        exists askId rest', rest = EvAsk askId ask_resume_task :: rest').
Proof.
  intros Ha.
  assert (Hk : mono (match fuel with O => outOfFuel | S f => makeClaudeRequest f end)).
  { destruct fuel; [apply mono_outOfFuel | apply mono_makeClaudeRequest]. }
  destruct w as [ex [msgs hist] am tl [clk resp strs tr]]. simpl in Ha.
  unfold newMessage, say, addToClaudeMessages. run. rewrite Ha.
  assert (Hround : forall w0,
            requestGuard w0 = true ->
            exists rest,
              trace (host (snd (makeClaudeRequest fuel w0)))
              = trace (host w0) ++ rest
              /\ ((consecutiveErrorCount (executor w0) < 3)%nat ->
                  exists reqId rest',
                    rest = EvSay reqId say_api_req_started
                           :: EvOpenStream
                                (apiConversationHistory (stateManager w0)
                                 ++ [mkApiHistoryItem user
                                       (ContentBlocks (default [] (currentUserContent (executor w0))))
                                       None])
                           :: rest')
              /\ ((3 <= consecutiveErrorCount (executor w0))%nat ->
                  exists askId rest', rest = EvAsk askId ask_resume_task :: rest')).
  { intros w0 Hg. rewrite makeClaudeRequest_unfold.
    destruct (Nat.lt_ge_cases (consecutiveErrorCount (executor w0)) 3) as [Hlt|Hge].
    - destruct (makeClaudeRequest_round_sends _ w0 Hk Hg (or_introl Hlt))
        as (pre & id & rest & Htr & Hpre & _).
      rewrite (Hpre Hlt) in Htr. eexists. split; [exact Htr|].
      split; [intros _; eauto | intros H; lia].
    - destruct (makeClaudeRequest_round_asks_first _ w0 Hk Hg Hge) as (id & rest & Htr & _).
      eexists. split; [exact Htr|].
      split; [intros H; lia | intros _; eauto]. }
  destruct b as [t|source]; simpl;
    (eexists; eexists;
     match goal with
     | |- exists rest, (forall k, k ?w0 = k ?w1) /\ _ =>
         destruct (Hround w0) as (rest & Htr & Hlow & Hhigh);
           [ unfold requestGuard; simpl; now rewrite Ha |]
     end;
     simpl in Htr, Hlow, Hhigh;
     exists rest; split; [intros k; reflexivity|]; simpl;
     split; [reflexivity|]; split; [reflexivity|]; split; [reflexivity|];
     split; [rewrite Htr, <- app_assoc; reflexivity|];
     split; assumption).
Qed.

(** ** The end of a round, with tool results *)

(** X16. A round that finishes with tool results (not cancelled, no abort
    in progress). If one of them is a completion attempt, the first such
    result is appended to the API history as a user turn, followed by the
    assistant turn that the task was completed; the state is COMPLETED, the
    other results are dropped and no further round is entered. Otherwise the
    results, in order, become the pending user content (a string result as
    one text block), the state is WAITING_FOR_API and the next round is
    entered in a world that passes its guard. *)
Theorem finishProcessingResponse_with_tool_results (a : ApiHistoryItem) w :
  isRequestCancelled (executor w) = false ->
  isAborting (executor w) = false ->
  getToolResults (toolExecutor w) <> [] ->
  (forall completionAttempted,
      List.find isCompletionAttempt (getToolResults (toolExecutor w))
      = Some completionAttempted ->
      exists w1 h,
        (forall k, finishProcessingResponse k a w = (Ok tt, w1))
        /\ state (executor w1) = COMPLETED
        /\ apiConversationHistory (stateManager w1)
           = h ++ [mkApiHistoryItem user (result completionAttempted) None;
                   mkApiHistoryItem assistant
                     (ContentBlocks [TextBlock "Task completed successfully."]) None]
        /\ length h = length (apiConversationHistory (stateManager w))
        /\ currentUserContent (executor w1) = currentUserContent (executor w))
  /\ (List.find isCompletionAttempt (getToolResults (toolExecutor w)) = None ->
      exists w1,
        (forall k, finishProcessingResponse k a w = k w1)
        /\ state (executor w1) = WAITING_FOR_API
        /\ currentUserContent (executor w1)
           = Some (flat_map resultBlocks (getToolResults (toolExecutor w)))
        /\ requestGuard w1 = true
        /\ length (apiConversationHistory (stateManager w1))
           = length (apiConversationHistory (stateManager w))).
Proof.
  intros Hc Ha Hr. destruct w as [ex [msgs hist] am tl hs]. simpl in *.
  assert (Hlen : Nat.ltb 0 (length (getToolResults tl)) = true).
  { destruct (getToolResults tl); [contradiction | reflexivity]. }
  unfold finishProcessingResponse, tool_getToolResults, updateApiHistoryItem,
    addToApiConversationHistory, requestGuard.
  run. rewrite Hc, Ha. simpl.
  split.
  - intros done Hdone.
    destruct (emptyContent (content a));
      [destruct (h_ts a) as [id|]; [destruct (negb (Z.eqb id 0))|]|];
      simpl; rewrite Hlen, Hdone; simpl;
      (eexists; eexists; split; [intros k; reflexivity|]; simpl;
       split; [reflexivity|]; rewrite <- app_assoc;
       split; [reflexivity|]; split; [|reflexivity]);
      first [reflexivity | apply updateFirst_length].
  - intros Hnone.
    destruct (emptyContent (content a));
      [destruct (h_ts a) as [id|]; [destruct (negb (Z.eqb id 0))|]|];
      simpl; rewrite Hlen, Hnone; simpl;
      (eexists; split; [intros k; reflexivity|]; simpl;
       rewrite ?Hc, ?Ha; repeat split);
      first [reflexivity | apply updateFirst_length].
Qed.

(** ** Deltas *)

Local Abbreviation quietly := (@quietly T).

Lemma bind_ok {A B} (p : M A) (f : A -> M B) w a w1 :
  p w = (Ok a, w1) -> bind p f w = f a w1.
Proof. intros H. unfold bind. now rewrite H. Qed.

Lemma quietly_refl w : quietly w w.
Proof. repeat split. Qed.

Lemma quietly_trans w1 w2 w3 : quietly w1 w2 -> quietly w2 w3 -> quietly w1 w3.
Proof. intros (H1 & C1 & A1) (H2 & C2 & A2). repeat split; congruence. Qed.

Lemma returns_ret {A} (P : A -> Prop) (a : A) : P a -> returns quietly P (ret a).
Proof. intros H w. exists a, w. split; [reflexivity|]. split; [apply quietly_refl | exact H]. Qed.

Lemma returns_bind {A B} (Q : B -> Prop) (m : M A) (f : A -> M B) :
  returns quietly (fun _ => True) m ->
  (forall a, returns quietly Q (f a)) ->
  returns quietly Q (bind m f).
Proof.
  intros Hm Hf w. destruct (Hm w) as (a & w1 & Hrun & Hq & _).
  destruct (Hf a w1) as (b & w2 & Hrun2 & Hq2 & Hb).
  exists b, w2. split; [unfold bind; now rewrite Hrun|].
  split; [eapply quietly_trans; eassumption | exact Hb].
Qed.

(** A step that returns and changes neither the API history nor a flag. *)
Ltac quiet_leaf :=
  intros [ex [msgs hist] am tl hs];
  eexists; eexists; split; [reflexivity|]; split; [repeat split | exact I].

Lemma returns_read {A} (f : Executor -> A) : returns quietly (fun _ => True) (read f).
Proof. quiet_leaf. Qed.
Lemma returns_gets {A} (f : World T -> A) : returns quietly (fun _ => True) (gets f).
Proof. quiet_leaf. Qed.
Lemma returns_set_streamPaused x : returns quietly (fun _ => True) (set_streamPaused x).
Proof. quiet_leaf. Qed.
Lemma returns_set_textBuffer x : returns quietly (fun _ => True) (set_textBuffer x).
Proof. quiet_leaf. Qed.
Lemma returns_set_flushTimeout x : returns quietly (fun _ => True) (set_flushTimeout x).
Proof. quiet_leaf. Qed.
Lemma returns_set_lastFlushTime x : returns quietly (fun _ => True) (set_lastFlushTime x).
Proof. quiet_leaf. Qed.
Lemma returns_set_currentReplyId x : returns quietly (fun _ => True) (set_currentReplyId x).
Proof. quiet_leaf. Qed.
Lemma returns_Date_now : returns quietly (fun _ => True) Date_now.
Proof. quiet_leaf. Qed.
Lemma returns_emit e : returns quietly (fun _ => True) (emit e).
Proof. quiet_leaf. Qed.
Lemma returns_with_claudeMessages f :
  returns quietly (fun _ => True) (modify (with_claudeMessages f)).
Proof. quiet_leaf. Qed.
Lemma returns_with_toolExecutor f :
  returns quietly (fun _ => True) (modify (with_toolExecutor f)).
Proof. quiet_leaf. Qed.

Lemma returns_tool_processToolUse s0 :
  returns quietly (fun _ => True) (tool_processToolUse s0).
Proof.
  intros [ex [msgs hist] am tl hs]. unfold tool_processToolUse. simpl.
  destruct (processToolUse s0 tl).
  eexists; eexists; split; [reflexivity|]; split; [repeat split | exact I].
Qed.

Create HintDb returns discriminated.

#[local] Hint Resolve returns_read returns_gets returns_set_streamPaused returns_set_textBuffer
  returns_set_flushTimeout returns_set_lastFlushTime returns_set_currentReplyId
  returns_Date_now returns_emit returns_with_claudeMessages returns_with_toolExecutor
  returns_tool_processToolUse : returns.

Ltac returns_step :=
  first
    [ assumption
    | solve [auto with returns]
    | match goal with
      | |- returns _ _ (ret _) => apply returns_ret; first [exact I | reflexivity]
      | |- returns _ _ (bind _ _) => apply returns_bind; [|intros ?]
      | |- returns _ _ (if ?b then _ else _) => destruct b
      | |- returns _ _ (match ?x with _ => _ end) => destruct x
      end ].

Ltac returns_tac :=
  unfold when, postStateToWebview, tool_hasActiveTools, tool_waitForToolProcessing,
    addToClaudeMessages, appendToClaudeMessage;
  repeat returns_step.

Lemma returns_flushTextBuffer replyId force :
  returns quietly (fun _ => True) (flushTextBuffer replyId force).
Proof. unfold flushTextBuffer. returns_tac. Qed.

Lemma returns_pauseStream : returns quietly (fun _ => True) pauseStream.
Proof. unfold pauseStream. pose proof returns_flushTextBuffer. returns_tac. Qed.

Lemma returns_resumeStream : returns quietly (fun _ => True) resumeStream.
Proof. unfold resumeStream. returns_tac. Qed.

Lemma returns_say kind text sayTs isSub :
  returns quietly (fun _ => True) (say kind text sayTs isSub).
Proof. unfold say. returns_tac. Qed.

Lemma onChunk_text_run id itemRef (delta : string) (loc : RoundLocals) w
    (t : string) (rest : list ContentBlock) :
  isRequestCancelled (executor w) = false ->
  isAborting (executor w) = false ->
  content (apiHistoryItem loc) = ContentBlocks (TextBlock t :: rest) ->
  let item :=
    mkApiHistoryItem (role (apiHistoryItem loc))
      (ContentBlocks
         (TextBlock (if String.eqb t interruptedPlaceholder then delta else t +:+ delta)
          :: rest))
      (h_ts (apiHistoryItem loc)) in
  exists loc' w',
    onChunk id itemRef (ChunkText delta) loc w = (Ok loc', w')
    /\ apiHistoryItem loc' = item
    /\ apiConversationHistory (stateManager w')
       = updateFirst (hasHistoryTs id) (patchHistoryItem item)
           (alter (fun _ => item) itemRef (apiConversationHistory (stateManager w)))
    /\ isRequestCancelled (executor w') = false
    /\ isAborting (executor w') = false.
Proof.
  intros Hc Ha Hcontent item. destruct w as [ex [msgs hist] am tl hs]. simpl in *.
  unfold onChunk.
  erewrite bind_ok
    by (unfold cancelledOrAborting, bind, read, ret; simpl; rewrite Hc, Ha; reflexivity).
  cbn [orb]. rewrite Hcontent.
  erewrite bind_ok by reflexivity.
  match goal with
  | |- exists loc' w', ?m ?w1 = _ /\ _ =>
      assert (Hrest : returns quietly (fun l => apiHistoryItem l = item) m);
        [|destruct (Hrest w1) as (loc' & w' & Hrun & (Hh & Hc' & Ha') & Hitem)]
  end.
  { pose proof returns_flushTextBuffer. pose proof returns_pauseStream.
    pose proof returns_resumeStream. pose proof returns_say. returns_tac. }
  exists loc', w'. split; [exact Hrun|]. split; [exact Hitem|].
  rewrite Hh, Hc', Ha'. simpl. auto.
Qed.

Lemma append_assoc (a b c : string) : (a +:+ b) +:+ c = a +:+ (b +:+ c).
Proof.
  induction a as [|x a IH]; [reflexivity|].
  change (String x ((a +:+ b) +:+ c) = String x (a +:+ (b +:+ c))). now rewrite IH.
Qed.

Lemma append_nil_r (a : string) : a +:+ "" = a.
Proof.
  induction a as [|x a IH]; [reflexivity|].
  change (String x (a +:+ "") = String x a). now rewrite IH.
Qed.

Lemma eqb_placeholder (t : string) :
  t <> interruptedPlaceholder -> String.eqb t interruptedPlaceholder = false.
Proof. intros H. now apply String.eqb_neq. Qed.

(** A run of deltas from a turn that already holds [t]. *)
Lemma processStream_deltas k id itemRef reply (deltas : list string) (tail : Stream)
    (ended : bool) :
  forall (t : string) (loc : RoundLocals) w,
    isRequestCancelled (executor w) = false ->
    isAborting (executor w) = false ->
    apiHistoryItem loc = assistantTurn id t ->
    (itemRef < length (apiConversationHistory (stateManager w)))%nat ->
    (deltas = [] -> apiConversationHistory (stateManager w) !! itemRef = Some (assistantTurn id t)) ->
    (forall n, t +:+ joined (take n deltas) = interruptedPlaceholder ->
               (length deltas <= n)%nat) ->
    exists loc' w',
      processStream k id itemRef reply ((Yield ∘ ChunkText <$> deltas) ++ tail) ended loc w
      = processStream k id itemRef reply tail ended loc' w'
      /\ apiHistoryItem loc' = assistantTurn id (t +:+ joined deltas)
      /\ apiConversationHistory (stateManager w') !! itemRef = Some (apiHistoryItem loc')
      /\ length (apiConversationHistory (stateManager w'))
         = length (apiConversationHistory (stateManager w))
      /\ isRequestCancelled (executor w') = false
      /\ isAborting (executor w') = false.
Proof.
  induction deltas as [|d deltas IH]; intros t loc w Hc Ha Hloc Hlen Hnow Hrun.
  - exists loc, w. simpl. rewrite append_nil_r, Hloc. repeat split; auto.
  - assert (Ht : t <> interruptedPlaceholder).
    { intros E. specialize (Hrun 0%nat). simpl in Hrun. rewrite append_nil_r in Hrun.
      specialize (Hrun E). lia. }
    destruct (onChunk_text_run id itemRef d loc w t [] Hc Ha)
      as (loc1 & w1 & Hstep & Hitem & Hhist & Hc1 & Ha1); [now rewrite Hloc|].
    rewrite Hloc, (eqb_placeholder t Ht) in Hitem, Hhist. simpl in Hitem, Hhist.
    fold (assistantTurn id (t +:+ d)) in Hitem, Hhist.
    assert (Hlen1 : length (apiConversationHistory (stateManager w1))
                    = length (apiConversationHistory (stateManager w))).
    { now rewrite Hhist, updateFirst_length, length_alter. }
    assert (Hat : apiConversationHistory (stateManager w1) !! itemRef
                  = Some (assistantTurn id (t +:+ d))).
    { rewrite Hhist. apply updateFirst_lookup_fixed; [|reflexivity].
      rewrite list_lookup_alter_eq.
      destruct (lookup_lt_is_Some_2 _ _ Hlen) as [x ->]. reflexivity. }
    destruct (IH (t +:+ d) loc1 w1 Hc1 Ha1 Hitem) as (loc' & w' & Hgo & H1 & H2 & H3 & H4 & H5).
    + now rewrite Hlen1.
    + intros _. exact Hat.
    + intros n Hn. specialize (Hrun (S n)). simpl in Hrun.
      rewrite <- append_assoc in Hrun. specialize (Hrun Hn). lia.
    + exists loc', w'. simpl. unfold bind at 1. rewrite Hstep.
      split; [exact Hgo|]. rewrite <- append_assoc. repeat split; auto. congruence.
Qed.

(** X17. The deltas of a stream accumulate in the assistant turn of the
    round. From the turn as [processApiResponse] creates it, holding the
    placeholder, and with the round neither cancelled nor aborting, a run of
    text events leaves the turn, in the callbacks' variable and in the API
    history alike, holding the deltas joined in order, provided that the
    deltas joined up to any point before the last do not spell the
    placeholder itself (the turn's text is compared with the placeholder at
    each delta). The API history keeps its length and the flags stay
    down. *)
Theorem processStream_accumulates_deltas k id itemRef reply (deltas : list string)
    (tail : Stream) (ended : bool) (loc : RoundLocals) w :
  isRequestCancelled (executor w) = false ->
  isAborting (executor w) = false ->
  apiHistoryItem loc = assistantTurn id interruptedPlaceholder ->
  (itemRef < length (apiConversationHistory (stateManager w)))%nat ->
  deltas <> [] ->
  (forall n, (0 < n < length deltas)%nat ->
             joined (take n deltas) <> interruptedPlaceholder) ->
  exists loc' w',
    processStream k id itemRef reply ((Yield ∘ ChunkText <$> deltas) ++ tail) ended loc w
    = processStream k id itemRef reply tail ended loc' w'
    /\ apiHistoryItem loc' = assistantTurn id (joined deltas)
    /\ apiConversationHistory (stateManager w') !! itemRef = Some (apiHistoryItem loc')
    /\ length (apiConversationHistory (stateManager w'))
       = length (apiConversationHistory (stateManager w))
    /\ isRequestCancelled (executor w') = false
    /\ isAborting (executor w') = false.
Proof.
  intros Hc Ha Hloc Hlen Hne Hrun.
  destruct deltas as [|d deltas]; [contradiction|].
  destruct (onChunk_text_run id itemRef d loc w interruptedPlaceholder [] Hc Ha)
    as (loc1 & w1 & Hstep & Hitem & Hhist & Hc1 & Ha1); [now rewrite Hloc|].
  rewrite Hloc in Hitem, Hhist. simpl in Hitem, Hhist.
  fold (assistantTurn id d) in Hitem, Hhist.
  assert (Hlen1 : length (apiConversationHistory (stateManager w1))
                  = length (apiConversationHistory (stateManager w))).
  { now rewrite Hhist, updateFirst_length, length_alter. }
  assert (Hat : apiConversationHistory (stateManager w1) !! itemRef
                = Some (assistantTurn id d)).
  { rewrite Hhist. apply updateFirst_lookup_fixed; [|reflexivity].
    rewrite list_lookup_alter_eq.
    destruct (lookup_lt_is_Some_2 _ _ Hlen) as [x ->]. reflexivity. }
  destruct (processStream_deltas k id itemRef reply deltas tail ended d loc1 w1 Hc1 Ha1 Hitem)
    as (loc' & w' & Hgo & H1 & H2 & H3 & H4 & H5).
  - now rewrite Hlen1.
  - intros _. exact Hat.
  - intros n Hn. destruct (decide (length deltas <= n)%nat) as [|Hlt]; [assumption|].
    exfalso. apply (Hrun (S n)); [simpl; lia | exact Hn].
  - exists loc', w'. simpl. unfold bind at 1. rewrite Hstep.
    split; [exact Hgo|]. repeat split; auto. congruence.
Qed.

(** X20. A delta that arrives while the stream is paused is recorded in
    the assistant turn of the API history and nowhere else: it is not passed
    to the tools, not put into the text buffer, not displayed, and it is not
    kept for the next delta either (the text accumulated so far is
    unchanged). Of the world only the API history has changed. *)
Theorem onChunk_while_paused id itemRef (delta : string) (loc : RoundLocals) w
    (t : string) (rest : list ContentBlock) :
  isRequestCancelled (executor w) = false ->
  isAborting (executor w) = false ->
  streamPaused (executor w) = true ->
  content (apiHistoryItem loc) = ContentBlocks (TextBlock t :: rest) ->
  exists item,
    onChunk id itemRef (ChunkText delta) loc w
    = (Ok (mkRoundLocals item (accumulatedText loc)),
       with_apiConversationHistory
         (fun h => updateFirst (hasHistoryTs id) (patchHistoryItem item)
                     (alter (fun _ => item) itemRef h)) w)
    /\ content item
       = ContentBlocks
           (TextBlock (if String.eqb t interruptedPlaceholder then delta else t +:+ delta)
            :: rest)
    /\ role item = role (apiHistoryItem loc)
    /\ h_ts item = h_ts (apiHistoryItem loc).
Proof.
  intros Hc Ha Hp Hcontent. destruct w as [ex [msgs hist] am tl hs]. simpl in *.
  unfold onChunk, updateApiHistoryItem. run. rewrite Hc, Ha, Hcontent. simpl.
  rewrite Hp. simpl. eexists. split; [reflexivity|]. repeat split.
Qed.

(** ** The closing event of a stream *)

(** X21. The closing event of a stream, in a history with distinct
    timestamps where [m] is the entry of the request. While the request is
    cancelled or an abort is in progress the event is ignored, and an error
    event raises nothing. Otherwise an end event marks the entry done and
    not fetching and stores the metrics of the event (the cache reads as
    input-cache reads, the cache creations as input-cache writes); an error
    event marks it done and in error with the event's message, or "Internal
    Server Error" without one, and then raises an error with the event's
    status, or 500 without one. In both cases the entry keeps its text and
    no other entry changes. *)
Theorem onImmediateEndOfStream_marks_request (id : Z) (chunk : koduSSEResponse) w
    (i : nat) (m : ClaudeMessage) :
  NoDup (ts <$> claudeMessages (stateManager w)) ->
  claudeMessages (stateManager w) !! i = Some m ->
  ts m = id ->
  (isRequestCancelled (executor w) || isAborting (executor w) = true ->
   onImmediateEndOfStream id chunk w = (Ok tt, w))
  /\ (isRequestCancelled (executor w) || isAborting (executor w) = false ->
      (forall internal,
          chunk = ChunkEnd internal ->
          exists w1 m1,
            onImmediateEndOfStream id chunk w = (Ok tt, w1)
            /\ claudeMessages (stateManager w1) = <[i := m1]> (claudeMessages (stateManager w))
            /\ isDone m1 = true /\ isFetching m1 = false
            /\ apiMetrics m1
               = Some (mkApiMetrics (i_cost internal) (i_inputTokens internal)
                         (i_outputTokens internal) (cacheReadInputTokens internal)
                         (cacheCreationInputTokens internal))
            /\ isError m1 = isError m /\ errorText m1 = errorText m
            /\ text m1 = text m /\ ts m1 = ts m)
      /\ (forall status msg,
            chunk = ChunkError status msg ->
            exists w1 m1,
              onImmediateEndOfStream id chunk w
              = (Throw (KoduError (default 500 status) (koduErrorMessage (default 500 status))),
                 w1)
              /\ claudeMessages (stateManager w1)
                 = <[i := m1]> (claudeMessages (stateManager w))
              /\ isDone m1 = true /\ isFetching m1 = false
              /\ isError m1 = true
              /\ errorText m1 = Some (default "Internal Server Error" msg)
              /\ apiMetrics m1 = apiMetrics m
              /\ text m1 = text m /\ ts m1 = ts m)).
Proof.
  intros Hnd Hi Hid. destruct w as [ex [msgs hist] am tl hs]. simpl in *. subst id.
  unfold onImmediateEndOfStream, getMessageById, updateClaudeMessage. run.
  split; intros ->; simpl; [reflexivity|].
  split.
  - intros internal ->. simpl. rewrite (find_hasTs msgs i m Hnd Hi). simpl.
    rewrite (updateFirst_hasTs msgs i m _ Hnd Hi).
    eexists. eexists. split; [reflexivity|]. simpl. repeat split.
  - intros status msg ->. simpl. rewrite (find_hasTs msgs i m Hnd Hi). simpl.
    rewrite (updateFirst_hasTs msgs i m _ Hnd Hi).
    eexists. eexists. split; [reflexivity|]. simpl. repeat split.
Qed.

(** X30. Nothing is left behind when a stream has ended. At the final end
    of a stream, for a round that is neither cancelled nor aborting and a
    non-zero reply identity, [finishProcessingResponse] is entered with the
    assistant turn of the callbacks, in a world where the text buffer holds
    at most white space, no flush timer is armed and no reply is current;
    the API history and the two flags are as they were, and the tool
    executor has been waited for. *)
Theorem onFinalEndOfStream_leaves_nothing (id : Z) (loc : RoundLocals) w :
  isRequestCancelled (executor w) = false ->
  isAborting (executor w) = false ->
  id <> 0 ->
  exists w1,
    (forall k, onFinalEndOfStream k id loc w
               = finishProcessingResponse k (apiHistoryItem loc) w1)
    /\ isBlank (textBuffer (executor w1)) = true
    /\ flushTimeout (executor w1) = None
    /\ currentReplyId (executor w1) = None
    /\ apiConversationHistory (stateManager w1) = apiConversationHistory (stateManager w)
    /\ isRequestCancelled (executor w1) = false
    /\ isAborting (executor w1) = false
    /\ exists t, toolExecutor w1 = waitForToolProcessing t.
Proof.
  intros Hc Ha Hid. destruct w as [ex [msgs hist] am tl hs]. simpl in *.
  apply Z.eqb_neq in Hid.
  unfold onFinalEndOfStream, tool_processToolUse, tool_waitForToolProcessing,
    flushTextBuffer, appendToClaudeMessage.
  run. rewrite Hc, Ha, Hid. simpl.
  destruct (truthy (accumulatedText loc)); simpl;
    [destruct (processToolUse (accumulatedText loc) tl) as [nonXMLText tl'] eqn:Htool; simpl;
     destruct (truthy nonXMLText); simpl|];
    destruct (flushTimeout ex) eqn:Hf; simpl;
    match goal with
    | |- context [isBlank ?b || false] => destruct (isBlank b) eqn:Hb; simpl
    end;
    rewrite ?Hf; simpl;
    (eexists; split; [intros k; reflexivity|]; simpl;
     repeat split; first [assumption | reflexivity | eexists; reflexivity]).
Qed.

(** ** Abort, then resume *)

Lemma abortTask_run w w1 :
  isAborting (executor w) = false ->
  cancelCurrentRequest (aborting w) = (Ok tt, w1) ->
  exists w',
    abortTask w = (Ok tt, w')
    /\ stateManager w' = stateManager w1
    /\ askManager w' = askManager w1
    /\ isAborting (executor w') = false
    /\ isRequestCancelled (executor w') = false
    /\ consecutiveErrorCount (executor w') = 0%nat
    /\ trace (host w') = trace (host w1) ++ [EvPostState]
    /\ responses (host w') = responses (host w1).
Proof.
  intros Ha Hrun. destruct w as [ex sm am tl hs]. unfold aborting in Hrun. simpl in *.
  unfold abortTask, try_finally. run. rewrite Ha. simpl. rewrite Hrun.
  destruct w1 as [ex1 sm1 am1 tl1 hs1].
  unfold tool_abortTask, resetState. run.
  destruct (flushTimeout ex1); simpl; (eexists; split; [reflexivity|]; repeat split).
Qed.

Lemma abortTask_cancels w :
  isAborting (executor w) = false ->
  isRequestCancelled (executor w) = false ->
  length (claudeMessages (stateManager w)) <> 2%nat ->
  Forall readable (claudeMessages (stateManager w)) ->
  exists w' shown,
    abortTask w = (Ok tt, w')
    /\ claudeMessages (stateManager w')
       = shown ++ [askMessage (clock (host w) + 1) ask_resume_task
                     (Some (mkAskDetails (Some resumeAfterInterrupt) None))]
    /\ apiConversationHistory (stateManager w') = apiConversationHistory (stateManager w)
    /\ pendingAsks (askManager w')
       = <[clock (host w) + 1 := ask_resume_task]> (pendingAsks (askManager w))
    /\ delivered (askManager w') = delivered (askManager w)
    /\ isAborting (executor w') = false
    /\ isRequestCancelled (executor w') = false
    /\ consecutiveErrorCount (executor w') = 0%nat.
Proof.
  intros Ha Hc Hlen Hread.
  destruct (cancelCurrentRequest_run (aborting w))
    as (w1 & shown & Hrun & _ & _ & Hmsgs & _ & Hpend & Hhist & _ & _);
    try (destruct w; assumption).
  assert (Hdel : delivered (askManager w1) = delivered (askManager w)).
  { destruct w as [ex [msgs hist] am tl hs]. simpl in *.
    revert Hrun. unfold cancelCurrentRequest, aborting, updateAsk, getMessageById,
      updateClaudeMessage, ask_register, addToClaudeMessages.
    run. rewrite Hc. simpl. rewrite (proj2 (Nat.eqb_neq _ _) Hlen). simpl.
    repeat case_split; intros Hrun; inversion Hrun; reflexivity. }
  destruct (abortTask_run w w1 Ha Hrun) as (w' & Hab & Hsm & Ham & Ha' & Hc' & Hn & _).
  exists w', shown. rewrite Hsm, Ham, Hmsgs, Hhist, Hpend, Hdel.
  destruct w as [ex sm am tl hs]. simpl. auto 10.
Qed.

(** X18. The resume ask of an abort can be answered. After an [abortTask]
    whose cancellation acted (request not yet cancelled, not the first
    message, tool texts that parse), the next [handleAskResponse] resolves
    the resume ask that the abort registered: the answer is delivered under
    the identity of that ask, which is then no longer pending. *)
Theorem abortTask_resume_ask_is_answered w (r : ClaudeAskResponse) (text : option string)
    (images : option (list string)) :
  isAborting (executor w) = false ->
  isRequestCancelled (executor w) = false ->
  length (claudeMessages (stateManager w)) <> 2%nat ->
  Forall readable (claudeMessages (stateManager w)) ->
  exists w1 w2,
    abortTask w = (Ok tt, w1)
    /\ pendingAsks (askManager w1) !! (clock (host w) + 1) = Some ask_resume_task
    /\ handleAskResponse r text images w1 = (Ok tt, w2)
    /\ delivered (askManager w2)
       = delivered (askManager w) ++ [(clock (host w) + 1, mkAskResponse r text images)]
    /\ pendingAsks (askManager w2) !! (clock (host w) + 1) = None.
Proof.
  intros Ha Hc Hlen Hread.
  destruct (abortTask_cancels w Ha Hc Hlen Hread)
    as (w1 & shown & Hrun & Hmsgs & _ & Hpend & Hdel & _).
  exists w1. destruct w1 as [ex1 [msgs1 hist1] [pend1 del1] tl1 hs1]. simpl in *. subst.
  unfold handleAskResponse, handleResponse. run.
  rewrite (findLast_split isAskMessage shown _ []) by reflexivity.
  simpl. rewrite lookup_insert_eq.
  eexists. split; [exact Hrun|]. split; [reflexivity|].
  split; [reflexivity|]. simpl. split; [reflexivity|]. apply lookup_delete_eq.
Qed.

(** X19. Abort, then resume. After an [abortTask] whose cancellation acted,
    the yes answer to the resume ask gets the continuation prompt sent: the
    reset at the end of the abort has lowered the cancelled flag and the
    error count, so that the round which the answer starts passes its guard;
    it logs the request-started notice and opens a stream on the API
    history as it was before the abort, extended by a user turn with the
    continuation prompt. *)
Theorem abort_then_resume_sends_prompt (fuel : nat) (res : AskResponse) w :
  isAborting (executor w) = false ->
  isRequestCancelled (executor w) = false ->
  length (claudeMessages (stateManager w)) <> 2%nat ->
  Forall readable (claudeMessages (stateManager w)) ->
  response res = yesButtonTapped ->
  exists w1 id rest,
    abortTask w = (Ok tt, w1)
    /\ trace (host (snd (onResumeAnswer (makeClaudeRequest fuel) res w1)))
       = trace (host w1)
         ++ EvSay id say_api_req_started
            :: EvOpenStream
                 (apiConversationHistory (stateManager w)
                  ++ [mkApiHistoryItem user (ContentBlocks [TextBlock continuationPrompt]) None])
            :: rest.
Proof.
  intros Ha Hc Hlen Hread Hyes.
  destruct (abortTask_cancels w Ha Hc Hlen Hread)
    as (w1 & shown & Hrun & _ & Hhist & _ & _ & Ha1 & Hc1 & Hn1).
  assert (Hk : mono (match fuel with O => outOfFuel | S f => makeClaudeRequest f end)).
  { destruct fuel; [apply mono_outOfFuel | apply mono_makeClaudeRequest]. }
  exists w1. destruct w1 as [ex1 sm1 am1 tl1 hs1]. simpl in *.
  unfold onResumeAnswer. rewrite Hyes. run. rewrite makeClaudeRequest_unfold.
  match goal with
  | |- context [makeClaudeRequest_round ?k0 ?w0] =>
      destruct (makeClaudeRequest_round_sends k0 w0 Hk)
        as (pre & id & rest & Htr & Hpre & _);
        [ unfold requestGuard; simpl; now rewrite Ha1, Hc1
        | left; simpl; lia
        | exists id, rest; split; [exact Hrun|];
          rewrite Htr; rewrite Hpre by (simpl; lia); simpl; now rewrite Hhist ]
  end.
Qed.

(** ** The assistant entry of a round *)























End RoundProperties.

(** * Properties of the chat view *)

Section ViewProperties.

Context {Attachment : Type}.

Implicit Types (v : View (Attachment:=Attachment)) (input : option string).

Lemma trim_empty : trim "" = "".
Proof. reflexivity. Qed.

(** X22. [handleSendMessage] sends at most once. Out of credit it posts
    nothing: it opens the dialog and keeps the input, the images and the
    attachments. With credit left and neither text nor image it does
    nothing at all. Otherwise it posts exactly one message, which carries
    the trimmed text and the selected images: a new task when no message
    exists yet, otherwise a typed answer; after it the input, the images
    and the attachments are cleared, so that sending again at once posts
    nothing and changes nothing. An argument of at most one UTF-16 code
    unit is ignored: the typed input is used in its place. *)
Theorem handleSendMessage_sends_once input v :
  (shouldOpenOutOfCreditDialog v = true ->
   handleSendMessage input v = openOutOfCreditDialog v
   /\ posted (handleSendMessage input v) = posted v
   /\ dialogsOpened (handleSendMessage input v) = S (dialogsOpened v)
   /\ chat (handleSendMessage input v) = chat v
   /\ attachments (handleSendMessage input v) = attachments v)
  /\ (shouldOpenOutOfCreditDialog v = false ->
      textToSend input v = "" ->
      selectedImages (chat v) = [] ->
      handleSendMessage input v = v)
  /\ (shouldOpenOutOfCreditDialog v = false ->
      textToSend input v <> "" \/ selectedImages (chat v) <> [] ->
      posted (handleSendMessage input v)
      = posted v
        ++ [if Nat.eqb (messageCount v) 0
            then NewTask (textToSend input v) (selectedImages (chat v)) (attachments v)
            else AskResponseMessage messageResponse (Some (textToSend input v))
                   (Some (selectedImages (chat v)))
                   (if bool_decide (is_Some (claudeAsk (chat v))) then None
                    else Some (attachments v))]
      /\ dialogsOpened (handleSendMessage input v) = dialogsOpened v
      /\ chat (handleSendMessage input v) = afterSend (chat v)
      /\ attachments (handleSendMessage input v) = []
      /\ handleSendMessage None (handleSendMessage input v) = handleSendMessage input v)
  /\ (forall i, (jsLength i <= 1)%nat ->
                handleSendMessage (Some i) v = handleSendMessage None v).
Proof.
  destruct v as [s att n credit post dialogs]. unfold handleSendMessage. simpl.
  split; [|split; [|split]].
  - intros ->. repeat split.
  - intros -> Htext Himg. now rewrite Htext, Himg.
  - intros -> Hsend.
    assert (Hs : truthy (textToSend input (mkView s att n false post dialogs))
                 || Nat.ltb 0 (length (selectedImages s)) = true).
    { destruct Hsend as [Ht | Hi].
      - destruct (textToSend input _); [contradiction | reflexivity].
      - destruct (selectedImages s); [contradiction | apply orb_true_r]. }
    rewrite Hs.
    unfold handleClaudeAskResponse, postMessage, updateState, setAttachments. simpl.
    destruct (Nat.eqb n 0); [|destruct (bool_decide (is_Some (claudeAsk s)))];
      simpl; repeat split.
  - intros i Hi. unfold textToSend.
    now rewrite (proj2 (Nat.ltb_ge _ _) Hi), andb_false_r.
Qed.

(** X23. The attachments of a message typed while an ask is pending are
    lost: in a running task with a pending ask, [handleSendMessage] posts
    the typed answer without the attachments, and clears them from the
    view. Without a pending ask the same message carries them. *)
Theorem handleSendMessage_attachments input v :
  shouldOpenOutOfCreditDialog v = false ->
  messageCount v <> 0%nat ->
  textToSend input v <> "" ->
  attachments (handleSendMessage input v) = []
  /\ posted (handleSendMessage input v)
     = posted v
       ++ [AskResponseMessage messageResponse (Some (textToSend input v))
             (Some (selectedImages (chat v)))
             (if bool_decide (is_Some (claudeAsk (chat v))) then None
              else Some (attachments v))].
Proof.
  intros Hcredit Hn Htext. destruct v as [s att n credit post dialogs]. simpl in *.
  unfold handleSendMessage. simpl. rewrite Hcredit.
  destruct (textToSend input _) eqn:E; [contradiction|]. simpl.
  rewrite (proj2 (Nat.eqb_neq _ _) Hn).
  destruct (bool_decide (is_Some (claudeAsk s))); split; reflexivity.
Qed.

Lemma afterButton_idem (s : ChatState) : afterButton (afterButton s) = afterButton s.
Proof. reflexivity. Qed.

(** X24. The primary button. For an ask that is not a tool ask, and with
    credit left, a click answers or clears once: it posts at most one
    message and drops the ask, so that a second click posts nothing and
    changes nothing. A click on a tool ask posts the yes answer and leaves
    the state of the view as it was, ask and buttons included: a second
    click posts the answer again. Out of credit, a click on an ask that is
    answered with yes posts the answer, opens the dialog and also leaves the
    state as it was. *)
Theorem handlePrimaryButtonClick_answers v :
  (claudeAsk (chat v) <> Some ask_tool ->
   shouldOpenOutOfCreditDialog v = false ->
   (exists sent, posted (handlePrimaryButtonClick v) = posted v ++ sent
                 /\ (length sent <= 1)%nat)
   /\ chat (handlePrimaryButtonClick v) = afterButton (chat v)
   /\ handlePrimaryButtonClick (handlePrimaryButtonClick v) = handlePrimaryButtonClick v)
  /\ (claudeAsk (chat v) = Some ask_tool ->
      handlePrimaryButtonClick v
      = postMessage (AskResponseMessage yesButtonTapped None None None) v
      /\ chat (handlePrimaryButtonClick v) = chat v
      /\ posted (handlePrimaryButtonClick (handlePrimaryButtonClick v))
         = posted v ++ [AskResponseMessage yesButtonTapped None None None;
                        AskResponseMessage yesButtonTapped None None None])
  /\ (shouldOpenOutOfCreditDialog v = true ->
      forall kind,
        claudeAsk (chat v) = Some kind ->
        kind = ask_api_req_failed \/ kind = ask_request_limit_reached \/ kind = ask_command
        \/ kind = ask_command_output \/ kind = ask_resume_task ->
        handlePrimaryButtonClick v
        = openOutOfCreditDialog
            (postMessage (AskResponseMessage yesButtonTapped None None None) v)).
Proof.
  destruct v as [s att n credit post dialogs]. simpl.
  split; [|split].
  - intros Htool ->. unfold handlePrimaryButtonClick. simpl.
    destruct (claudeAsk s) as [[]|] eqn:Hask; simpl; try contradiction;
      rewrite ?Hask; simpl;
      (split; [first [ exists []; rewrite app_nil_r; split; [reflexivity | simpl; lia]
                     | eexists; split; [reflexivity | simpl; lia] ]|]);
      split; reflexivity.
  - intros Hask. unfold handlePrimaryButtonClick. simpl. rewrite Hask. simpl.
    rewrite Hask. simpl. rewrite <- app_assoc. repeat split.
  - intros -> kind Hask Hkind. unfold handlePrimaryButtonClick. simpl. rewrite Hask.
    destruct Hkind as [-> | [-> | [-> | [-> | ->]]]]; reflexivity.
Qed.

(** X25. The secondary button and the standard input. A click on the
    secondary button posts the no answer for a command or tool ask, the
    clearing of the task for a failed request or a reached limit, and
    nothing for any other ask, the resume ask among them; in every case the
    ask is dropped and the buttons are disabled, so that a second click
    posts nothing and changes nothing. [handleSendStdin] posts only for a
    command-output ask, the text behind the standard-input marker; it
    then drops the ask and touches nothing else, and otherwise does
    nothing. *)
Theorem handleSecondaryButtonClick_answers (marker text : string) v :
  posted (handleSecondaryButtonClick v)
  = posted v
    ++ match claudeAsk (chat v) with
       | Some ask_command | Some ask_tool => [AskResponseMessage noButtonTapped None None None]
       | Some ask_request_limit_reached | Some ask_api_req_failed => [ClearTask]
       | _ => []
       end
  /\ chat (handleSecondaryButtonClick v) = afterButton (chat v)
  /\ handleSecondaryButtonClick (handleSecondaryButtonClick v) = handleSecondaryButtonClick v
  /\ (claudeAsk (chat v) = Some ask_command_output ->
      handleSendStdin marker text v
      = updateState withoutAsk
          (postMessage
             (AskResponseMessage messageResponse (Some (marker +:+ text)) None None) v)
      /\ handleSendStdin marker text (handleSendStdin marker text v)
         = handleSendStdin marker text v)
  /\ (claudeAsk (chat v) <> Some ask_command_output -> handleSendStdin marker text v = v).
Proof.
  destruct v as [s att n credit post dialogs]. unfold handleSecondaryButtonClick, handleSendStdin.
  simpl.
  split; [|split; [|split; [|split]]].
  - destruct (claudeAsk s) as [[]|]; simpl; rewrite ?app_nil_r; reflexivity.
  - destruct (claudeAsk s) as [[]|]; reflexivity.
  - destruct (claudeAsk s) as [[]|]; reflexivity.
  - intros ->. simpl. split; reflexivity.
  - intros H. now rewrite bool_decide_eq_false_2.
Qed.

End ViewProperties.

(** * Properties of the tool runners *)

Section RunnerProperties.

Variable cwd : string.
Variable toolTs : Z.
Variable resolve : string -> string -> string.
Variable getReadablePath : string -> option string -> string.
Variable formatToolResponse : string -> option (list string) -> ToolResponse.
Variable formatGenericToolFeedback : option string -> string.
Variable stringifyError : Error -> string.
Variable regexSearchFiles : string -> string -> string -> option string -> Error + string.
Variable parseSourceCodeForDefinitionsTopLevel : string -> Error + string.

Local Abbreviation searchFiles :=
  (SearchFilesTool_execute cwd toolTs resolve getReadablePath formatToolResponse
     formatGenericToolFeedback stringifyError regexSearchFiles).
Local Abbreviation listDefinitions :=
  (ListCodeDefinitionNamesTool_execute cwd toolTs resolve getReadablePath formatToolResponse
     formatGenericToolFeedback stringifyError parseSourceCodeForDefinitionsTopLevel).

Ltac orderly_case :=
  split; [repeat (apply Forall_cons; split; [simpl; auto 6|]); apply Forall_nil_2|];
  split; [simpl; lia|];
  split; [intros c Hc Hask;
          repeat (apply elem_of_cons in Hc as [-> | Hc]); try reflexivity;
          try discriminate; try (now apply elem_of_nil in Hc)|];
  split; [simpl; first [intros H; discriminate | intros _; eexists; reflexivity]|];
  split; [simpl; first [intros H; discriminate
                       | intros _; split; [reflexivity|eexists; reflexivity]]|];
  intros Hne c card Hlast Hcard; simpl in Hne, Hlast;
  first [ contradiction
        | injection Hlast as <-; simpl in Hcard;
          first [discriminate | injection Hcard as <-; simpl; discriminate] ].

(** X26. Every run of the two runners is orderly, whatever the input, the
    answer and the outcome of the search or of the parser. Each say is an
    error say; each ask and each update is a tool ask under the runner's
    own time stamp, which its card carries too; a pending card is shown by
    the ask only, and an update shows an approved or a rejected one. There
    is at most one ask, and it is the first call. A run that says something
    makes no other call. A run that has not returned is waiting for the
    answer to its ask, and a run that has returned has not left its card
    pending. *)
Theorem runners_are_orderly (input : ToolInput) (answer : option AskResponse) :
  orderly toolTs (searchFiles input answer) answer
  /\ orderly toolTs (listDefinitions input answer) answer.
Proof.
  unfold orderly, SearchFilesTool_execute, ListCodeDefinitionNamesTool_execute.
  split.
  - destruct (in_path input) as [relDirPath|]; [|orderly_case].
    destruct (in_regex input) as [regex|]; [|orderly_case].
    destruct (regexSearchFiles _ _ _ _) as [error|results]; [orderly_case|].
    destruct answer as [r|]; [|orderly_case].
    destruct (response r); simpl; orderly_case.
  - destruct (in_path input) as [relDirPath|]; [|orderly_case].
    destruct (parseSourceCodeForDefinitionsTopLevel _) as [error|result]; [orderly_case|].
    destruct answer as [r|]; [|orderly_case].
    destruct (response r); simpl; orderly_case.
Qed.

(** X27. What the answer to a runner's ask decides. When the search (or
    the parser) has returned its text and the user answers the ask: on the
    yes button the card is updated to approved and the text is returned; on
    any other answer the card is updated to rejected, and the runner
    returns the denial, or, for a typed message, the formatted feedback,
    after a second update whose card carries the feedback and no content.
    The text is never returned without approval, unless the denial or the
    formatted feedback happens to be that text. *)
Theorem runners_follow_the_answer (input : ToolInput) (r : AskResponse)
    (relDirPath found : string) :
  in_path input = Some relDirPath ->
  (forall regex,
      in_regex input = Some regex ->
      regexSearchFiles cwd (resolve cwd relDirPath) regex (in_filePattern input) = inr found ->
      decidedBy toolTs formatToolResponse formatGenericToolFeedback r found
        (fun approval content feedback =>
           mkToolCard "search_files" (getReadablePath relDirPath (Some cwd)) (Some regex)
             (in_filePattern input) approval content feedback None toolTs)
        (searchFiles input (Some r)))
  /\ (parseSourceCodeForDefinitionsTopLevel (resolve cwd relDirPath) = inr found ->
      decidedBy toolTs formatToolResponse formatGenericToolFeedback r found
        (fun approval content feedback =>
           mkToolCard "list_code_definition_names" (getReadablePath relDirPath None) None
             None approval content feedback None toolTs)
        (listDefinitions input (Some r))).
Proof.
  intros Hpath.
  unfold decidedBy, SearchFilesTool_execute, ListCodeDefinitionNamesTool_execute.
  rewrite Hpath.
  split.
  - intros regex -> Hfound. cbv zeta. rewrite Hfound.
    destruct (response r); simpl;
      (split; [intros H; first [reflexivity | discriminate]|]);
      (split; [intros H; first [reflexivity | discriminate]|]);
      (split; [intros H; first [reflexivity | discriminate]|]);
      intros H; simpl in H;
      first [ left; reflexivity | right; left; congruence | right; right; congruence ].
  - intros Hfound. cbv zeta. rewrite Hfound.
    destruct (response r); simpl;
      (split; [intros H; first [reflexivity | discriminate]|]);
      (split; [intros H; first [reflexivity | discriminate]|]);
      (split; [intros H; first [reflexivity | discriminate]|]);
      intros H; simpl in H;
      first [ left; reflexivity | right; left; congruence | right; right; congruence ].
Qed.

(** X28. A runner that cannot run. Without the path (and, for the search,
    without the expression) the runner says one error, returns the fixed
    text asking for a retry, and neither searches nor asks: the run does not
    depend on the answer. When the search throws, the search runner says one
    error with the message of what was thrown, shows no card and returns the
    text of the failure. When the parser throws, the list runner says
    nothing: it shows one card, rejected and carrying the text of the
    failure, and returns that text. *)
Theorem runners_that_cannot_run (input : ToolInput) (answer : option AskResponse) :
  (in_path input = None ->
   searchFiles input answer
   = (Some (ContentString searchMissingPath),
      [CallSay say_error
         "Claude tried to use search_files without value for required parameter 'path'. Retrying..."])
   /\ listDefinitions input answer
      = (Some (ContentString listMissingPath),
         [CallSay say_error
            "Claude tried to use list_code_definition_names without value for required parameter 'path'. Retrying..."]))
  /\ (forall relDirPath,
        in_path input = Some relDirPath ->
        (in_regex input = None ->
         searchFiles input answer
         = (Some (ContentString searchMissingRegex),
            [CallSay say_error
               "Claude tried to use search_files without value for required parameter 'regex'. Retrying..."]))
        /\ (forall regex error,
              in_regex input = Some regex ->
              regexSearchFiles cwd (resolve cwd relDirPath) regex (in_filePattern input)
              = inl error ->
              searchFiles input answer
              = (Some (ContentString (searchError stringifyError error)),
                 [CallSay say_error
                    ("Error searching files:" +:+ newline +:+ errorMessage error)]))
        /\ (forall error,
              parseSourceCodeForDefinitionsTopLevel (resolve cwd relDirPath) = inl error ->
              exists card,
                listDefinitions input answer
                = (Some (ContentString (listError stringifyError error)),
                   [CallUpdateAsk ask_tool card toolTs])
                /\ c_approvalState card = st_rejected
                /\ c_error card = Some (listError stringifyError error)
                /\ c_content card = None)).
Proof.
  unfold SearchFilesTool_execute, ListCodeDefinitionNamesTool_execute.
  split.
  - intros ->. split; reflexivity.
  - intros relDirPath ->. split; [|split].
    + intros ->. reflexivity.
    + intros regex error -> Herr. cbv zeta. now rewrite Herr.
    + intros error Herr. cbv zeta. rewrite Herr.
      eexists. split; [reflexivity|]. repeat split.
Qed.

End RunnerProperties.

(** * Concrete runs of the further properties *)

Lemma toolPendingWorld_readable :
  Forall readable (claudeMessages (stateManager toolPendingWorld)).
Proof.
  change (Forall readable [sayMessage 1 say_text "list files";
                           sayMessage 2 say_api_req_started "request";
                           replyMessage 3 "I'll search now";
                           toolAsk 4]).
  repeat (apply Forall_cons_2;
          [intros H; first [now vm_compute in H | vm_compute; discriminate]|]).
  apply Forall_nil_2.
Qed.

Lemma toolPendingWorld_length :
  length (claudeMessages (stateManager toolPendingWorld)) <> 2%nat.
Proof. vm_compute. discriminate. Qed.

(** *** Abort and cancellation *)

Lemma abortTask_settles_witness :
  isAborting (executor toolPendingWorld) = false
  /\ Forall readable (claudeMessages (stateManager toolPendingWorld))
  /\ exists w',
       abortTask toolPendingWorld = (Ok tt, w')
       /\ isAborting (executor w') = false
       /\ state (executor w') = WAITING_FOR_USER
       /\ isRequestCancelled (executor w') = false
       /\ streamPaused (executor w') = false.
Proof.
  split; [reflexivity|]. split; [exact toolPendingWorld_readable|].
  destruct (abortTask_settles toolPendingWorld eq_refl) as [Ha Hrun].
  destruct (Hrun toolPendingWorld_readable)
    as (w' & Hab & Hs & Hc & _ & _ & Hp & _).
  exists w'. rewrite Hab in Ha. auto.
Defined.

Lemma cancelCurrentRequest_asks_to_resume_witness :
  isRequestCancelled (executor toolPendingWorld) = false
  /\ length (claudeMessages (stateManager toolPendingWorld)) <> 2%nat
  /\ exists w1,
       cancelCurrentRequest toolPendingWorld = (Ok tt, w1)
       /\ state (executor w1) = ABORTED
       /\ ts <$> claudeMessages (stateManager w1) = [1; 2; 3; 4; 100]
       /\ pendingAsks (askManager w1) !! 100 = Some ask_resume_task.
Proof.
  split; [reflexivity|]. split; [exact toolPendingWorld_length|].
  destruct (cancelCurrentRequest_asks_to_resume toolPendingWorld eq_refl
              toolPendingWorld_length toolPendingWorld_readable)
    as (w1 & Hrun & Hs & _ & Hts & _ & Hp & _).
  exists w1. auto.
Defined.

Lemma cancelCurrentRequest_last_open_tool_witness :
  claudeMessages (stateManager failedAfterPendingWorld)
  = [sayMessage 1 say_text "list files"; sayMessage 2 say_api_req_started "request"]
    ++ toolAsk 4 :: [failedToolAsk 5]
  /\ Forall passedOver [failedToolAsk 5]
  /\ approvalState pendingTool <> Some st_error
  /\ exists w1,
       cancelCurrentRequest failedAfterPendingWorld = (Ok tt, w1)
       /\ claudeMessages (stateManager w1) !! 2%nat = Some (interruptedAsk (toolAsk 4) pendingTool)
       /\ claudeMessages (stateManager w1) !! 3%nat = Some (failedToolAsk 5).
Proof.
  assert (Hover : Forall passedOver [failedToolAsk 5]).
  { apply Forall_cons_2; [|apply Forall_nil_2].
    intros _. exists failedTool. split; reflexivity. }
  assert (Hne : approvalState pendingTool <> Some st_error) by discriminate.
  split; [reflexivity|]. split; [exact Hover|]. split; [exact Hne|].
  destruct (cancelCurrentRequest_last_open_tool failedAfterPendingWorld
              [sayMessage 1 say_text "list files"; sayMessage 2 say_api_req_started "request"]
              [failedToolAsk 5] (toolAsk 4) pendingTool
              eq_refl ltac:(vm_compute; discriminate) ltac:(compute_done)
              eq_refl eq_refl eq_refl Hover eq_refl Hne)
    as (w1 & Hrun & Hat).
  exists w1. split; [exact Hrun|]. split; [exact Hat|].
  revert Hrun. vm_compute. intros Hrun. injection Hrun as <-. reflexivity.
Defined.

Lemma onResumeAnswer_reenters_or_completes_witness :
  response typedAnswer <> yesButtonTapped
  /\ r_images typedAnswer = None
  /\ onResumeAnswer (makeClaudeRequest 1) typedAnswer toolPendingWorld
     = (Ok tt, with_executor (ex_set_state COMPLETED) toolPendingWorld).
Proof.
  split; [discriminate|]. split; [reflexivity|].
  apply (proj2 (proj2 (onResumeAnswer_reenters_or_completes typedAnswer toolPendingWorld)));
    [discriminate | reflexivity | now left].
Defined.

Lemma onResumeAnswer_while_cancelled_witness :
  isRequestCancelled (executor cancelledWorld) = true
  /\ exists st content,
       onResumeAnswer (makeClaudeRequest 1) retryAnswer cancelledWorld
       = (Ok tt,
          with_executor (ex_set_currentUserContent content)
            (with_executor (ex_set_state st) cancelledWorld))
       /\ (st = WAITING_FOR_API \/ st = COMPLETED).
Proof.
  split; [reflexivity|].
  apply (onResumeAnswer_while_cancelled 1 retryAnswer cancelledWorld eq_refl).
Defined.

(** *** The text buffer *)

Lemma streamingWorld_not_blank : trim (textBuffer (executor (streamingWorld "search"))) <> "".
Proof. vm_compute. discriminate. Qed.

Lemma flushTextBuffer_unforced_witness :
  trim (textBuffer (executor (streamingWorld "search"))) <> ""
  /\ (3 <> 0)%Z
  /\ exists w',
       flushTextBuffer (Some 3) false (streamingWorld "search") = (Ok tt, w')
       /\ textBuffer (executor w') = "search"
       /\ claudeMessages (stateManager w') = claudeMessages (stateManager (streamingWorld "search"))
       /\ flushTimeout (executor w') = Some (mkFlushTimer 3 10).
Proof.
  split; [exact streamingWorld_not_blank|]. split; [discriminate|].
  destruct (flushTextBuffer_unforced 3 (streamingWorld "search") streamingWorld_not_blank
              ltac:(discriminate))
    as (w' & Hrun & _ & Hwait).
  destruct Hwait as (Hbuf & Hmsgs & _ & Htimer & _); [split; vm_compute; [lia | reflexivity]|].
  exists w'. auto.
Defined.

Lemma deferred_flush_delivers_witness :
  streamPaused (executor (streamingWorld "search")) = false
  /\ exists w1 w2,
       flushTextBuffer (Some 3) false (streamingWorld "search") = (Ok tt, w1)
       /\ flushTimeoutFired w1 = (Ok tt, w2)
       /\ claudeMessages (stateManager w2)
          = claudeMessages (stateManager (snd (flushTextBuffer (Some 3) true (streamingWorld "search"))))
       /\ textBuffer (executor w2) = "".
Proof.
  split; [reflexivity|].
  destruct (deferred_flush_delivers 3 (streamingWorld "search") streamingWorld_not_blank
              ltac:(discriminate) eq_refl ltac:(vm_compute; lia) ltac:(vm_compute; reflexivity))
    as (w1 & w2 & w3 & H1 & _ & H2 & H3 & Hm & Hb & _).
  exists w1, w2. rewrite H3. auto.
Defined.

(** *** Rounds *)

Lemma makeClaudeRequest_sends_pending_content_witness :
  requestGuard (readyWorld []) = true
  /\ (consecutiveErrorCount (executor (readyWorld [])) < 3)%nat
  /\ exists id rest,
       trace (host (snd (makeClaudeRequest 1 (readyWorld []))))
       = EvSay id say_api_req_started
         :: EvOpenStream
              (apiConversationHistory (stateManager (readyWorld []))
               ++ [mkApiHistoryItem user (ContentBlocks [TextBlock "list files"]) None])
         :: rest.
Proof.
  assert (Hn : (consecutiveErrorCount (executor (readyWorld [])) < 3)%nat)
    by (vm_compute; lia).
  split; [reflexivity|]. split; [exact Hn|].
  destruct (makeClaudeRequest_sends_pending_content 1 (readyWorld []) eq_refl (or_introl Hn))
    as (pre & id & rest & Htr & Hpre & _).
  exists id, rest. rewrite Htr, (Hpre Hn). reflexivity.
Defined.

Lemma makeClaudeRequest_stream_error_witness :
  requestGuard (readyWorld [[Raise (KoduError 401 "Unauthorized")]]) = true
  /\ failsWith (Raise (KoduError 401 "Unauthorized")) (KoduError 401 "Unauthorized")
  /\ exists w1 id,
       makeClaudeRequest 1 (readyWorld [[Raise (KoduError 401 "Unauthorized")]]) = (Ok tt, w1)
       /\ state (executor w1) = IDLE
       /\ consecutiveErrorCount (executor w1) = 1%nat
       /\ last (claudeMessages (stateManager w1))
          = Some (sayMessage id say_unauthorized "Unauthorized").
Proof.
  assert (Hf : failsWith (Raise (KoduError 401 "Unauthorized")) (KoduError 401 "Unauthorized"))
    by (left; reflexivity).
  split; [reflexivity|]. split; [exact Hf|].
  destruct (proj1 (makeClaudeRequest_stream_error 1
                     (readyWorld [[Raise (KoduError 401 "Unauthorized")]])
                     (Raise (KoduError 401 "Unauthorized")) [] []
                     (KoduError 401 "Unauthorized")
                     eq_refl ltac:(vm_compute; lia) eq_refl Hf)
              401 "Unauthorized" eq_refl (or_introl eq_refl))
    as (w1 & id & Hrun & Hs & Hn & Hlast & _).
  exists w1, id. auto.
Defined.

Lemma entry_points_refuse_while_aborting_witness :
  isAborting (executor abortingWorld) = true
  /\ startTask (makeClaudeRequest 1) [TextBlock "list files"] abortingWorld
     = (Throw (JsError "Cannot start task while aborting"), abortingWorld)
  /\ abortTask abortingWorld = (Ok tt, abortingWorld).
Proof.
  split; [reflexivity|].
  destruct (entry_points_refuse_while_aborting (makeClaudeRequest 1) [TextBlock "list files"]
              abortingWorld eq_refl)
    as (Hstart & _ & _ & Habort).
  auto.
Defined.

Lemma startTask_sends_content_witness :
  isAborting (executor idleWorld) = false
  /\ exists id rest,
       trace (host (snd (startTask (makeClaudeRequest 1) [TextBlock "   "] idleWorld)))
       = EvSay id say_api_req_started
         :: EvOpenStream [mkApiHistoryItem user (ContentBlocks [TextBlock continuationPrompt]) None]
         :: rest.
Proof.
  split; [reflexivity|].
  destruct (proj1 (startTask_sends_content 1 [TextBlock "   "] idleWorld eq_refl))
    as (id & rest & Htr).
  exists id, rest. exact Htr.
Defined.

Lemma newMessage_shows_then_sends_witness :
  isAborting (executor idleWorld) = false
  /\ exists w1 id,
       (forall k, newMessage k [TextBlock "and the tests"] idleWorld = k w1)
       /\ claudeMessages (stateManager w1) = [sayMessage id say_user_feedback "and the tests"]
       /\ currentUserContent (executor w1) = Some [TextBlock "and the tests"].
Proof.
  split; [reflexivity|].
  destruct (newMessage_shows_then_sends 1 (TextBlock "and the tests") [] idleWorld eq_refl)
    as (w1 & id & rest & Hrun & Hmsgs & Hc & _).
  exists w1, id. auto.
Defined.

Lemma finishProcessingResponse_with_tool_results_witness :
  getToolResults (toolExecutor (toolsRanWorld [searchResult; completionResult])) <> []
  /\ List.find isCompletionAttempt
       (getToolResults (toolExecutor (toolsRanWorld [searchResult; completionResult])))
     = Some completionResult
  /\ exists w1,
       finishProcessingResponse (makeClaudeRequest 1) answeredItem
         (toolsRanWorld [searchResult; completionResult]) = (Ok tt, w1)
       /\ state (executor w1) = COMPLETED
       /\ last (apiConversationHistory (stateManager w1))
          = Some (mkApiHistoryItem assistant
                    (ContentBlocks [TextBlock "Task completed successfully."]) None).
Proof.
  assert (Hne : getToolResults (toolExecutor (toolsRanWorld [searchResult; completionResult]))
                <> []) by discriminate.
  split; [exact Hne|]. split; [reflexivity|].
  destruct (proj1 (finishProcessingResponse_with_tool_results answeredItem
                     (toolsRanWorld [searchResult; completionResult]) eq_refl eq_refl Hne)
              completionResult eq_refl)
    as (w1 & h & Hrun & Hs & Hhist & _).
  exists w1. split; [apply Hrun|]. split; [exact Hs|].
  rewrite Hhist. change (h ++ [?a; ?b]) with (h ++ [a] ++ [b]).
  now rewrite app_assoc, last_snoc.
Defined.

(** *** Deltas and the closing event *)

Lemma processStream_accumulates_deltas_witness :
  apiHistoryItem freshLocals = assistantTurn 2 interruptedPlaceholder
  /\ (1 < length (apiConversationHistory (stateManager finishingWorld)))%nat
  /\ joined (take 1 ["Here "; "they are."]) <> interruptedPlaceholder
  /\ exists loc' w',
       processStream (makeClaudeRequest 1) 2 1 3
         [Yield (ChunkText "Here "); Yield (ChunkText "they are."); Yield endOfStream]
         false freshLocals finishingWorld
       = processStream (makeClaudeRequest 1) 2 1 3 [Yield endOfStream] false loc' w'
       /\ apiHistoryItem loc' = assistantTurn 2 "Here they are."
       /\ apiConversationHistory (stateManager w') !! 1%nat
          = Some (assistantTurn 2 "Here they are.").
Proof.
  assert (Hlen : (1 < length (apiConversationHistory (stateManager finishingWorld)))%nat)
    by (vm_compute; lia).
  assert (Hone : joined (take 1 ["Here "; "they are."]) <> interruptedPlaceholder)
    by (vm_compute; discriminate).
  split; [reflexivity|]. split; [exact Hlen|]. split; [exact Hone|].
  destruct (processStream_accumulates_deltas (makeClaudeRequest 1) 2 1%nat 3
              ["Here "; "they are."] [Yield endOfStream] false freshLocals finishingWorld
              eq_refl eq_refl eq_refl Hlen ltac:(discriminate))
    as (loc' & w' & Hrun & Hitem & Hat & _).
  { intros n Hn. simpl in Hn. replace n with 1%nat by lia. exact Hone. }
  exists loc', w'. split; [exact Hrun|]. split; [exact Hitem|].
  rewrite Hat, Hitem. reflexivity.
Defined.

Lemma onChunk_while_paused_witness :
  streamPaused (executor toolPendingWorld) = true
  /\ exists item,
       onChunk 2 1 (ChunkText "more") freshLocals toolPendingWorld
       = (Ok (mkRoundLocals item ""),
          with_apiConversationHistory
            (fun h => updateFirst (hasHistoryTs 2) (patchHistoryItem item)
                        (alter (fun _ => item) 1%nat h)) toolPendingWorld)
       /\ content item = ContentBlocks [TextBlock "more"].
Proof.
  split; [reflexivity|].
  destruct (onChunk_while_paused 2 1%nat "more" freshLocals toolPendingWorld
              interruptedPlaceholder [] eq_refl eq_refl eq_refl eq_refl)
    as (item & Hrun & Hcontent & _).
  exists item. split; [exact Hrun|]. exact Hcontent.
Defined.

Lemma onImmediateEndOfStream_marks_request_witness :
  NoDup (ts <$> claudeMessages (stateManager firstRequestWorld))
  /\ claudeMessages (stateManager firstRequestWorld) !! 1%nat
     = Some (sayMessage 2 say_api_req_started "request")
  /\ exists w1 m1,
       onImmediateEndOfStream 2 endOfStream firstRequestWorld = (Ok tt, w1)
       /\ claudeMessages (stateManager w1) !! 1%nat = Some m1
       /\ isDone m1 = true
       /\ apiMetrics m1 = Some (mkApiMetrics (1 # 100) 120 30 5 7).
Proof.
  assert (Hnd : NoDup (ts <$> claudeMessages (stateManager firstRequestWorld)))
    by compute_done.
  split; [exact Hnd|]. split; [reflexivity|].
  destruct (proj1 (proj2 (onImmediateEndOfStream_marks_request 2 endOfStream firstRequestWorld
                            1%nat (sayMessage 2 say_api_req_started "request")
                            Hnd eq_refl eq_refl) eq_refl)
              (mkInternal (1 # 100) 120 30 7 5) eq_refl)
    as (w1 & m1 & Hrun & Hmsgs & Hdone & _ & Hmetrics & _).
  exists w1, m1. split; [exact Hrun|]. rewrite Hmsgs. auto.
Defined.

Lemma onFinalEndOfStream_leaves_nothing_witness :
  isRequestCancelled (executor (streamingWorld "search")) = false
  /\ isAborting (executor (streamingWorld "search")) = false
  /\ exists w1,
       (forall k, onFinalEndOfStream k 3 freshLocals (streamingWorld "search")
                  = finishProcessingResponse k (apiHistoryItem freshLocals) w1)
       /\ isBlank (textBuffer (executor w1)) = true
       /\ flushTimeout (executor w1) = None
       /\ currentReplyId (executor w1) = None.
Proof.
  split; [reflexivity|]. split; [reflexivity|].
  destruct (onFinalEndOfStream_leaves_nothing 3 freshLocals (streamingWorld "search")
              eq_refl eq_refl ltac:(discriminate))
    as (w1 & Hrun & Hb & Hf & Hr & _).
  exists w1. auto.
Defined.

(** *** Abort, then resume *)

Lemma abortTask_resume_ask_is_answered_witness :
  isAborting (executor toolPendingWorld) = false
  /\ isRequestCancelled (executor toolPendingWorld) = false
  /\ exists w1 w2,
       abortTask toolPendingWorld = (Ok tt, w1)
       /\ pendingAsks (askManager w1) !! 101 = Some ask_resume_task
       /\ handleAskResponse yesButtonTapped None None w1 = (Ok tt, w2)
       /\ delivered (askManager w2) = [(101, retryAnswer)]
       /\ pendingAsks (askManager w2) !! 101 = None.
Proof.
  split; [reflexivity|]. split; [reflexivity|].
  destruct (abortTask_resume_ask_is_answered toolPendingWorld yesButtonTapped None None
              eq_refl eq_refl toolPendingWorld_length toolPendingWorld_readable)
    as (w1 & w2 & Hab & Hp & Hans & Hdel & Hgone).
  exists w1, w2. auto.
Defined.

Lemma abort_then_resume_sends_prompt_witness :
  response retryAnswer = yesButtonTapped
  /\ exists w1 id rest,
       abortTask toolPendingWorld = (Ok tt, w1)
       /\ trace (host (snd (onResumeAnswer (makeClaudeRequest 1) retryAnswer w1)))
          = trace (host w1)
            ++ EvSay id say_api_req_started
               :: EvOpenStream
                    [mkApiHistoryItem user (ContentBlocks [TextBlock continuationPrompt]) None]
               :: rest.
Proof.
  split; [reflexivity|].
  destruct (abort_then_resume_sends_prompt 1 retryAnswer toolPendingWorld
              eq_refl eq_refl toolPendingWorld_length toolPendingWorld_readable eq_refl)
    as (w1 & id & rest & Hab & Htr).
  exists w1, id, rest. auto.
Defined.

(** *** The chat view *)

Lemma handleSendMessage_attachments_witness :
  shouldOpenOutOfCreditDialog typingView = false
  /\ messageCount typingView <> 0%nat
  /\ textToSend None typingView = "ship it"
  /\ posted (handleSendMessage None typingView)
     = [AskResponseMessage messageResponse (Some "ship it") (Some []) None]
  /\ attachments (handleSendMessage None typingView) = [].
Proof.
  split; [reflexivity|]. split; [discriminate|]. split; [reflexivity|].
  destruct (handleSendMessage_attachments None typingView eq_refl
              ltac:(discriminate) ltac:(vm_compute; discriminate))
    as [Hatt Hposted].
  split; [exact Hposted | exact Hatt].
Defined.

Lemma handleSendMessage_sends_once_witness :
  posted (handleSendMessage None typingView)
  = [AskResponseMessage messageResponse (Some "ship it") (Some []) None]
  /\ handleSendMessage None (handleSendMessage None typingView) = handleSendMessage None typingView
  /\ handleSendMessage (Some eAcute) typingView = handleSendMessage None typingView.
Proof.
  destruct (handleSendMessage_sends_once None typingView) as (_ & _ & Hsend & Hshort).
  destruct (Hsend eq_refl ltac:(left; vm_compute; discriminate)) as (Hp & _ & _ & _ & Hagain).
  split; [exact Hp|]. split; [exact Hagain|]. apply Hshort. vm_compute. lia.
Defined.

(** An argument of one accented letter is two bytes and one code unit: it
    is ignored. Typed text of no-break spaces only is no text: nothing is
    posted and the attachments stay. *)
Example handleSendMessage_beyond_ascii :
  textToSend (Some eAcute) typingView = "ship it"
  /\ textToSend (Some (eAcute +:+ eAcute)) typingView = eAcute +:+ eAcute
  /\ handleSendMessage None blankTypingView = blankTypingView.
Proof. repeat split. Qed.

(** *** The tool runners *)

Lemma runners_follow_the_answer_witness :
  in_path searchInput = Some "src"
  /\ SearchFilesTool_execute "/repo" 7 joinPath shownPath plainResponse feedbackText
       errorMessage foundNothing searchInput (Some typedAnswer)
     = (Some (ContentString "The user denied this operation and said: look in lib instead"),
        [CallAsk ask_tool
           (mkToolCard "search_files" "src" (Some "TODO") None st_pending
              (Some "Found 0 results.") None None 7) 7;
         CallUpdateAsk ask_tool
           (mkToolCard "search_files" "src" (Some "TODO") None st_rejected
              (Some "Found 0 results.") None None 7) 7;
         CallUpdateAsk ask_tool
           (mkToolCard "search_files" "src" (Some "TODO") None st_rejected
              None (Some "look in lib instead") None 7) 7]).
Proof.
  split; [reflexivity|].
  destruct (proj1 (runners_follow_the_answer "/repo" 7 joinPath shownPath plainResponse
                     feedbackText errorMessage foundNothing foundClass
                     searchInput typedAnswer "src" "Found 0 results." eq_refl)
              "TODO" eq_refl eq_refl)
    as (_ & _ & Hmessage & _).
  exact (Hmessage eq_refl).
Defined.

(** *** C2 *)



